(** * Tastyworks data validator: a shallow embedding of [data_validator.py]

    The development follows the class [TastyworksDataValidator]:
    - [PyStr]   : the Python [str] operations the validator calls;
    - [Pandas]  : the pandas values, Series and DataFrame operations it
      calls, [read_csv] included;
    - [Validator] : the methods of the class, one definition per method,
      with the names of the source;
    - [Spec]    : the notions the properties are stated with;
    - [Examples] : sample files, frames and parsers;
    - the properties, one module per stage of the run.

    Conventions.  A Python [str] is a [string] whose characters are code
    points below 256.  A number held by pandas is represented by its exact
    rational value (or an infinity, or NaN); the rounding of float
    addition in [sum] is not modelled.  Timestamps are timezone-naive and
    counted in nanoseconds since the epoch, as [datetime64[ns]] does.  An
    f-string message is represented by its template (a constructor) and
    the interpolated values. *)

From Stdlib Require Import String Ascii List Bool Arith ZArith QArith Qabs Qround Lia.
From Stdlib Require Import Sorted Permutation.
Import ListNotations.

Close Scope Q_scope.
Local Open Scope string_scope.
Local Open Scope list_scope.
Local Open Scope nat_scope.

(** ** Python strings *)

Module PyStr.

(** [s.startswith(p)] *)
Fixpoint startswith (p s : string) : bool :=
  match p, s with
  | EmptyString, _ => true
  | String _ _, EmptyString => false
  | String a p', String c s' => Ascii.eqb a c && startswith p' s'
  end.

(** [t in s] : [t] occurs in [s] as a contiguous substring. *)
Fixpoint contains (t s : string) : bool :=
  startswith t s ||
  match s with
  | EmptyString => false
  | String _ s' => contains t s'
  end.

(** [s.endswith(suf)] : some suffix of [s] is [suf]. *)
Fixpoint endswith (s suf : string) : bool :=
  (s =? suf)%string ||
  match s with
  | EmptyString => false
  | String _ s' => endswith s' suf
  end.

(** [c.isspace()] for a code point below 256. *)
Definition is_space (c : ascii) : bool :=
  let n := nat_of_ascii c in
  ((9 <=? n) && (n <=? 13)) || ((28 <=? n) && (n <=? 32))
  || (n =? 133) || (n =? 160).

Fixpoint lstrip (s : string) : string :=
  match s with
  | EmptyString => EmptyString
  | String c s' => if is_space c then lstrip s' else s
  end.

Fixpoint rstrip (s : string) : string :=
  match s with
  | EmptyString => EmptyString
  | String c s' =>
      match rstrip s' with
      | EmptyString => if is_space c then EmptyString else String c EmptyString
      | r => String c r
      end
  end.

(** [s.strip()] *)
Definition strip (s : string) : string := rstrip (lstrip s).

(** The relation that [contains] decides. *)
Definition Substring (t s : string) : Prop :=
  exists pre post : string, s = (pre ++ t ++ post)%string.

Definition begins_nonspace (t : string) : bool :=
  match t with
  | EmptyString => false
  | String a _ => negb (is_space a)
  end.

Fixpoint ends_nonspace (t : string) : bool :=
  match t with
  | EmptyString => false
  | String a EmptyString => negb (is_space a)
  | String _ t' => ends_nonspace t'
  end.

(** [re.match(r'^[A-Z/]{1,10}$', s)] : between one and ten characters,
    each an upper-case letter or a slash; [$] also matches just before
    a final newline. *)
Definition symbol_char (c : ascii) : bool :=
  let n := nat_of_ascii c in
  ((65 <=? n) && (n <=? 90)) || (n =? 47).

Fixpoint match_tail (more : nat) (s : string) : bool :=
  match s with
  | EmptyString => true
  | String c s' =>
      if symbol_char c then
        match more with
        | O => false
        | S more' => match_tail more' s'
        end
      else
        (nat_of_ascii c =? 10) && match s' with EmptyString => true | _ => false end
  end.

Definition match_symbol (s : string) : bool :=
  match s with
  | EmptyString => false
  | String c s' => symbol_char c && match_tail 9 s'
  end.

(** [c.lower()] for a code point below 256: the letters A to Z and the
    upper-case letters of Latin-1 move down by 32. *)
Definition lower_char (c : ascii) : ascii :=
  let n := nat_of_ascii c in
  if ((65 <=? n) && (n <=? 90))
     || ((192 <=? n) && (n <=? 222) && negb (n =? 215))
  then ascii_of_nat (n + 32) else c.

(** [s.lower()] *)
Fixpoint lower (s : string) : string :=
  match s with
  | EmptyString => EmptyString
  | String c s' => String (lower_char c) (lower s')
  end.

(** The split of [s] at its last [sep]: what stands before it and what
    stands after it, or nothing when [sep] does not occur. *)
Fixpoint rsplit_last (sep : ascii) (s : string) : option (string * string) :=
  match s with
  | EmptyString => None
  | String c s' =>
      match rsplit_last sep s' with
      | Some (before, after) => Some (String c before, after)
      | None => if Ascii.eqb c sep then Some (EmptyString, s') else None
      end
  end.

(** [s.rsplit(sep, 1)] for a separator of one character. *)
Definition rsplit1 (sep : ascii) (s : string) : list string :=
  match rsplit_last sep s with
  | Some (before, after) => [before; after]
  | None => [s]
  end.

(** [sep.join(parts)] *)
Fixpoint join (sep : string) (parts : list string) : string :=
  match parts with
  | [] => EmptyString
  | [p] => p
  | p :: rest => (p ++ sep ++ join sep rest)%string
  end.

End PyStr.

(** ** Exceptions *)

Inductive exn_class :=
| KeyError | TypeError | AttributeError | ValueError | ImportError | OSError.

(** A raised exception: its class and [str(e)]. *)
Inductive exn := Exception (cls : exn_class) (text : string).

Definition str_exn (e : exn) : string :=
  match e with Exception _ text => text end.

(** The outcome of an expression or call: a value, or an exception that
    propagates. *)
Inductive Result (A : Type) :=
| Ok (a : A)
| Raise (e : exn).
Arguments Ok {A} a.
Arguments Raise {A} e.

Definition bindR {A B} (r : Result A) (k : A -> Result B) : Result B :=
  match r with
  | Ok a => k a
  | Raise e => Raise e
  end.

(** ** pandas values *)

Module Pandas.

(** A [float64] value. *)
Inductive float :=
| NaN
| Fin (q : Q)
| Inf (negative : bool).

(** One entry of a column: missing (NaN, NaT or None), a finite float,
    an infinity, a Python [str], a timezone-naive [Timestamp] in
    nanoseconds, an [int64], a [bool], or a timezone-aware timestamp: its
    instant and the offset of its zone from UTC, both in nanoseconds. *)
Inductive cell :=
| NA
| Num (q : Q)
| Infinite (negative : bool)
| Text (s : string)
| Stamp (t : Z)
| Int (z : Z)
| Boolean (b : bool)
| Aware (t : Z) (offset : Z).

(** The dtypes [read_csv] gives a column: [float64], [object],
    [datetime64[ns]] without a timezone, [int64], [bool], and
    [datetime64[ns, tz]]. *)
Inductive Dtype := Float64 | Object | Datetime64 | Int64 | Bool | Datetime64tz.

Record Series := mkSeries { dtype : Dtype; values : list cell }.

(** A frame: its row count and its columns in header order. *)
Record DataFrame := mkDataFrame {
  nrows : nat;
  columns : list (string * Series)
}.

(** Python scalars returned by reductions. *)
Inductive scalar :=
| NaT
| Timestamp (t : Z)
| Timedelta (d : Z)
| PyFloat (x : float)
| PyStr (s : string)
| AwareTimestamp (t : Z) (offset : Z)
| PyInt (z : Z)
| PyBool (b : bool).

Definition int64_min : Z := -9223372036854775808.
Definition int64_max : Z := 9223372036854775807.
Definition uint64_max : Z := 18446744073709551615.

(** The [int64] that two's complement arithmetic leaves of [z]. *)
Definition wrap64 (z : Z) : Z :=
  ((z - int64_min) mod 18446744073709551616 + int64_min)%Z.

(** [datetime.date], or NaT. *)
Inductive pydate := Date (day : Z) | NaTDate.

Definition ns_per_day : Z := 86400000000000.

(** *** Frame access *)

Fixpoint lookup (col : string) (cs : list (string * Series)) : option Series :=
  match cs with
  | [] => None
  | (name, s) :: cs' => if (name =? col)%string then Some s else lookup col cs'
  end.

(** [col in df.columns] *)
Definition has_column (col : string) (df : DataFrame) : bool :=
  match lookup col (columns df) with Some _ => true | None => false end.

(** [repr] of a column label inside a [KeyError]. *)
Definition quote (s : string) : string := ("'" ++ s ++ "'")%string.

(** [df[col]] *)
Definition getitem (df : DataFrame) (col : string) : Result Series :=
  match lookup col (columns df) with
  | Some s => Ok s
  | None => Raise (Exception KeyError (quote col))
  end.

(** [len(df)] *)
Definition len (df : DataFrame) : nat := nrows df.

(** Every column has one entry per row. *)
Definition well_formed (df : DataFrame) : Prop :=
  forall name s, In (name, s) (columns df) -> length (values s) = nrows df.

(** *** Element-wise operations *)

Definition isna (c : cell) : bool :=
  match c with NA => true | _ => false end.

Definition count_true (mask : list bool) : nat :=
  length (filter (fun b => b) mask).

(** [==] between two entries of one column; a missing entry equals
    nothing, and two aware timestamps are equal when their instants
    are. *)
Definition cell_eqb (a b : cell) : bool :=
  match a, b with
  | Num p, Num q => Qeq_bool p q
  | Infinite m, Infinite n => Bool.eqb m n
  | Text s, Text t => (s =? t)%string
  | Stamp s, Stamp t => (s =? t)%Z
  | Int y, Int z => (y =? z)%Z
  | Boolean m, Boolean n => Bool.eqb m n
  | Aware s _, Aware t _ => (s =? t)%Z
  | _, _ => false
  end.

(** [s.dropna()] *)
Definition dropna (s : Series) : Series :=
  mkSeries (dtype s) (filter (fun c => negb (isna c)) (values s)).

(** [unique()] : the distinct values in order of first appearance. *)
Fixpoint unique_acc (seen : list cell) (l : list cell) : list cell :=
  match l with
  | [] => []
  | c :: l' =>
      if existsb (cell_eqb c) seen then unique_acc seen l'
      else c :: unique_acc (c :: seen) l'
  end.

Definition unique (l : list cell) : list cell := unique_acc [] l.

(** [s.nunique()] : missing entries are not counted. *)
Definition nunique (s : Series) : nat := length (unique (values (dropna s))).

(** [s == v] *)
Definition eq_scalar (s : Series) (v : cell) : list bool :=
  map (fun c => cell_eqb c v) (values s).

(** [s.isin(vs)] *)
Definition isin (s : Series) (vs : list cell) : list bool :=
  map (fun c => existsb (cell_eqb c) vs) (values s).

(** [s[mask]] on the values. *)
Fixpoint select {A} (l : list A) (mask : list bool) : list A :=
  match l, mask with
  | x :: l', b :: mask' => if b then x :: select l' mask' else select l' mask'
  | _, _ => []
  end.

Definition mask_series (s : Series) (mask : list bool) : Series :=
  mkSeries (dtype s) (select (values s) mask).

(** [a & b] *)
Fixpoint and_mask (a b : list bool) : list bool :=
  match a, b with
  | x :: a', y :: b' => (x && y) :: and_mask a' b'
  | _, _ => []
  end.

(** *** float64 arithmetic *)

Definition float_abs (x : float) : float :=
  match x with
  | NaN => NaN
  | Fin q => Fin (Qabs q)
  | Inf _ => Inf false
  end.

(** [x > c] for a finite constant [c]; false on NaN. *)
Definition float_gt (x : float) (c : Q) : bool :=
  match x with
  | NaN => false
  | Fin q => negb (Qle_bool q c)
  | Inf negative => negb negative
  end.

(** [x == 0] *)
Definition float_eq0 (x : float) : bool :=
  match x with
  | Fin q => Qeq_bool q 0
  | _ => false
  end.

(** [x != 0] : true on NaN, as IEEE 754 comparison has it. *)
Definition float_ne0 (x : float) : bool := negb (float_eq0 x).

(** [x % 1] : the fractional part of a finite value, NaN otherwise. *)
Definition float_mod1 (x : float) : float :=
  match x with
  | Fin q => Fin (Qminus q (inject_Z (Qfloor q)))
  | _ => NaN
  end.

Definition float_add (x y : float) : float :=
  match x, y with
  | NaN, _ | _, NaN => NaN
  | Fin p, Fin q => Fin (Qplus p q)
  | Inf m, Inf n => if Bool.eqb m n then Inf m else NaN
  | Inf m, Fin _ | Fin _, Inf m => Inf m
  end.

Definition float_isnan (x : float) : bool :=
  match x with NaN => true | _ => false end.

(** [s.sum()] with the default [skipna=True]. *)
Definition float_sum (l : list float) : float :=
  fold_left float_add (filter (fun x => negb (float_isnan x)) l) (Fin 0).

(** *** Reductions *)

Definition stamps (l : list cell) : list Z :=
  flat_map (fun c => match c with Stamp t => [t] | _ => [] end) l.

Definition texts (l : list cell) : list string :=
  flat_map (fun c => match c with Text s => [s] | _ => [] end) l.

Definition ints (l : list cell) : list Z :=
  flat_map (fun c => match c with Int z => [z] | _ => [] end) l.

Definition bools (l : list cell) : list bool :=
  flat_map (fun c => match c with Boolean b => [b] | _ => [] end) l.

(** The aware timestamps of a column: instant and offset. *)
Definition awares (l : list cell) : list (Z * Z) :=
  flat_map (fun c => match c with Aware t offset => [(t, offset)] | _ => [] end) l.

Definition min_string (a b : string) : string := if (a <=? b)%string then a else b.
Definition max_string (a b : string) : string := if (a <=? b)%string then b else a.

Definition any_na (l : list cell) : bool := existsb isna l.

Definition str_vs_float : exn :=
  Exception TypeError "'<=' not supported between instances of 'str' and 'float'".

Definition float_leb (x y : float) : bool :=
  match x, y with
  | Fin p, Fin q => Qle_bool p q
  | Inf true, _ | _, Inf false => true
  | _, _ => false
  end.

Definition float_of_cell (c : cell) : float :=
  match c with
  | Num q => Fin q
  | Infinite negative => Inf negative
  | _ => NaN
  end.

Definition numbers (l : list cell) : list float :=
  filter (fun x => negb (float_isnan x)) (map float_of_cell l).

Definition datetime_vs_float : exn :=
  Exception TypeError
    "'<=' not supported between instances of 'datetime.datetime' and 'float'".

Definition str_vs_datetime : exn :=
  Exception TypeError
    "'<=' not supported between instances of 'str' and 'datetime.datetime'".

(** [s.min()] and [s.max()], skipping missing entries.  A datetime
    column, with or without a timezone, gives a timestamp, or [NaT] when
    nothing is left.  An object column gives NaN when it has no entries
    or only missing ones, the extreme string when all entries are
    strings, the extreme timestamp when all are aware datetimes, and
    raises when these are mixed with each other or with missing entries.
    A numeric column gives a number, or NaN when nothing is left. *)
Definition series_extremum (pickZ : Z -> Z -> Z)
           (pickS : string -> string -> string)
           (pickF : float -> float -> float) (s : Series) : Result scalar :=
  let pickA (a b : Z * Z) := if (pickZ (fst a) (fst b) =? fst a)%Z then a else b in
  match dtype s with
  | Datetime64 =>
      match stamps (values s) with
      | [] => Ok NaT
      | t :: ts => Ok (Timestamp (fold_left pickZ ts t))
      end
  | Datetime64tz =>
      match awares (values s) with
      | [] => Ok NaT
      | a :: rest =>
          let m := fold_left pickA rest a in Ok (AwareTimestamp (fst m) (snd m))
      end
  | Object =>
      match texts (values s), awares (values s) with
      | [], [] => Ok (PyFloat NaN)
      | t :: ts, [] =>
          if any_na (values s) then Raise str_vs_float
          else Ok (PyStr (fold_left pickS ts t))
      | [], a :: rest =>
          if any_na (values s) then Raise datetime_vs_float
          else let m := fold_left pickA rest a in Ok (AwareTimestamp (fst m) (snd m))
      | _ :: _, _ :: _ => Raise str_vs_datetime
      end
  | Float64 =>
      match numbers (values s) with
      | [] => Ok (PyFloat NaN)
      | x :: xs => Ok (PyFloat (fold_left pickF xs x))
      end
  | Int64 =>
      match ints (values s) with
      | [] => Ok (PyFloat NaN)
      | z :: zs => Ok (PyInt (fold_left pickZ zs z))
      end
  | Bool =>
      match bools (values s) with
      | [] => Ok (PyFloat NaN)
      | b :: bs => Ok (PyBool (0 <? fold_left pickZ (map Z.b2z bs) (Z.b2z b))%Z)
      end
  end.

Definition series_min : Series -> Result scalar :=
  series_extremum Z.min min_string (fun a b => if float_leb a b then a else b).

Definition series_max : Series -> Result scalar :=
  series_extremum Z.max max_string (fun a b => if float_leb a b then b else a).

Definition float_neg (x : float) : float :=
  match x with
  | NaN => NaN
  | Fin q => Fin (Qopp q)
  | Inf negative => Inf (negb negative)
  end.

(** [a - b] on the scalars a reduction can return: two timestamps of
    one kind give a [Timedelta], NaT is absorbing, floats and integers
    subtract, and strings and booleans have no subtraction. *)
Definition sub_scalar (a b : scalar) : Result scalar :=
  match a, b with
  | Timestamp s, Timestamp t => Ok (Timedelta (s - t))
  | AwareTimestamp s _, AwareTimestamp t _ => Ok (Timedelta (s - t))
  | NaT, (NaT | Timestamp _ | AwareTimestamp _ _)
  | (Timestamp _ | AwareTimestamp _ _), NaT => Ok NaT
  | PyFloat x, PyFloat y => Ok (PyFloat (float_add x (float_neg y)))
  | PyInt y, PyInt z => Ok (PyInt (wrap64 (y - z)))
  | _, _ => Raise (Exception TypeError "unsupported operand type(s) for -")
  end.

(** [d.days] : whole days of a [Timedelta], NaN ([None] here) on [NaT];
    other scalars have no such attribute. *)
Definition days (d : scalar) : Result (option Z) :=
  match d with
  | Timedelta n => Ok (Some (n / ns_per_day)%Z)
  | NaT => Ok None
  | _ => Raise (Exception AttributeError "object has no attribute 'days'")
  end.

(** [t.date()] : the date on the clock of the timestamp's own zone. *)
Definition date (t : scalar) : Result pydate :=
  match t with
  | Timestamp n => Ok (Date (n / ns_per_day)%Z)
  | AwareTimestamp n offset => Ok (Date ((n + offset) / ns_per_day)%Z)
  | NaT => Ok NaTDate
  | _ => Raise (Exception AttributeError "object has no attribute 'date'")
  end.

(** [s > now] for the naive [datetime] that [datetime.now()] returns:
    element-wise on a datetime column without timezone, false on NaT.  A
    column with a timezone cannot be compared with a naive datetime, nor
    can the entries of any other column; the messages, which name the
    dtype, are shortened. *)
Definition gt_datetime (s : Series) (now : Z) : Result (list bool) :=
  match dtype s, values s with
  | Datetime64, vs =>
      Ok (map (fun c => match c with Stamp t => (now <? t)%Z | _ => false end) vs)
  | Datetime64tz, _ =>
      Raise (Exception TypeError
               "Invalid comparison between a column with timezone and datetime")
  | _, [] => Ok []
  | _, _ => Raise (Exception TypeError "Invalid comparison with datetime")
  end.

(** What kind of Python object an entry is, for the type inference
    behind the [.str] accessor. *)
Inductive kind := KString | KNumber | KBool | KDatetime.

Definition kind_eqb (a b : kind) : bool :=
  match a, b with
  | KString, KString | KNumber, KNumber | KBool, KBool | KDatetime, KDatetime => true
  | _, _ => false
  end.

Definition kinds (l : list cell) : list kind :=
  flat_map (fun c => match c with
                     | NA => []
                     | Text _ => [KString]
                     | Num _ | Infinite _ | Int _ => [KNumber]
                     | Boolean _ => [KBool]
                     | Stamp _ | Aware _ _ => [KDatetime]
                     end) l.

(** The entries that are not missing are all numbers, all booleans or
    all datetimes, and there is one: the inferred type is then not one
    the [.str] accessor admits. *)
Definition no_strings (l : list cell) : bool :=
  match kinds l with
  | [] => false
  | k :: ks => negb (kind_eqb k KString) && forallb (kind_eqb k) ks
  end.

Definition no_str_accessor : exn :=
  Exception AttributeError "Can only use .str accessor with string values!".

(** [s.str.match(r'^[A-Z/]{1,10}$', na=False)] : the [.str] accessor
    exists on object columns only, and there only when the entries are
    strings, are mixed, or are all missing; an entry that is not a
    string gives the [na] value. *)
Definition str_match_symbol (s : Series) : Result (list bool) :=
  match dtype s with
  | Object =>
      if no_strings (values s) then Raise no_str_accessor
      else Ok (map (fun c => match c with
                             | Text t => PyStr.match_symbol t
                             | _ => false
                             end) (values s))
  | _ => Raise no_str_accessor
  end.

(** *** Counting *)

(** One step of the hash-table pass of [value_counts]: increment the
    count of [c], or append it with count one. *)
Fixpoint bump (c : cell) (table : list (cell * nat)) : list (cell * nat) :=
  match table with
  | [] => [(c, 1)]
  | (k, n) :: table' =>
      if cell_eqb k c then (k, S n) :: table' else (k, n) :: bump c table'
  end.

(** The table of counts in order of first appearance. *)
Definition tally (l : list cell) : list (cell * nat) :=
  fold_left (fun table c => bump c table) l [].

(** Stable insertion by descending count. *)
Fixpoint insert_desc (e : cell * nat) (l : list (cell * nat)) : list (cell * nat) :=
  match l with
  | [] => [e]
  | h :: l' => if snd h <=? snd e then e :: l else h :: insert_desc e l'
  end.

Definition sort_desc (l : list (cell * nat)) : list (cell * nat) :=
  fold_right insert_desc [] l.

(** [s.value_counts().to_dict()] with the defaults [sort=True],
    [ascending=False], [dropna=True]: the counts of the entries that
    are not missing, most frequent first.  The order among entries of
    equal count is left to the sort of the library, which is not a stable
    one; they are placed here in order of first appearance, and nothing
    is proved of that order. *)
Definition value_counts (s : Series) : list (cell * nat) :=
  sort_desc (tally (values (dropna s))).

(** *** Numeric columns *)

(** A numeric array: [int64] or [float64]. *)
Inductive numeric :=
| Ints (zs : list Z)
| Floats (xs : list float).

(** [abs] of an [int64] : the smallest value has no positive
    counterpart and stays what it is. *)
Definition int_abs (z : Z) : Z := wrap64 (Z.abs z).

(** [a.abs() > 1000000] *)
Definition abs_gt_million (a : numeric) : list bool :=
  match a with
  | Ints zs => map (fun z => (1000000 <? int_abs z)%Z) zs
  | Floats xs => map (fun x => float_gt (float_abs x) (inject_Z 1000000)) xs
  end.

(** [a == 0] *)
Definition eq_zero (a : numeric) : list bool :=
  match a with
  | Ints zs => map (fun z => (z =? 0)%Z) zs
  | Floats xs => map float_eq0 xs
  end.

(** [x % 1 != 0] on a float. *)
Definition fractional (x : float) : bool := float_ne0 (float_mod1 x).

(** [a % 1 != 0] : never true of an integer. *)
Definition mod1_ne0 (a : numeric) : list bool :=
  match a with
  | Ints zs => map (fun _ => false) zs
  | Floats xs => map fractional xs
  end.

(** [abs(a).sum()] : an [int64] sum wraps around; the sum of floats
    skips NaN.  The integer result is given as the float of the same
    value. *)
Definition abs_sum (a : numeric) : float :=
  match a with
  | Ints zs => Fin (inject_Z (wrap64 (fold_left Z.add (map int_abs zs) 0%Z)))
  | Floats xs => float_sum (map float_abs xs)
  end.

(** *** Coercion to numbers *)

Section ToNumeric.

(** The parser of [to_numeric] for strings; NaN when the string is
    not a number. *)
Variable parse_float : string -> float.

(** The value of an entry as a float. *)
Definition coerce (c : cell) : float :=
  match c with
  | NA => NaN
  | Num q => Fin q
  | Infinite negative => Inf negative
  | Text s => parse_float s
  | Stamp t => Fin (inject_Z t)
  | Int z => Fin (inject_Z z)
  | Boolean b => Fin (inject_Z (Z.b2z b))
  | Aware _ _ => NaN
  end.

(** The entries of an [int64] or [bool] column as integers. *)
Fixpoint all_ints (l : list cell) : option (list Z) :=
  match l with
  | [] => Some []
  | c :: l' =>
      match c, all_ints l' with
      | Int z, Some zs => Some (z :: zs)
      | Boolean b, Some zs => Some (Z.b2z b :: zs)
      | _, _ => None
      end
  end.

(** [pd.to_numeric(s, errors='coerce')] on a column that [read_csv]
    built without [parse_dates] : an [int64] column stays [int64], and a
    [bool] column, which stays [bool], is read here as integers 0 and 1;
    a column of floats or of objects becomes [float64]. *)
Definition to_numeric (s : Series) : numeric :=
  match dtype s with
  | Int64 | Bool =>
      match all_ints (values s) with
      | Some zs => Ints zs
      | None => Floats (map coerce (values s))
      end
  | _ => Floats (map coerce (values s))
  end.

End ToNumeric.

(** *** Reading a CSV file *)

(** What the tokenizer of [read_csv] yields: the header and the
    records, every field still text. *)
Record RawTable := mkRawTable {
  header : list string;
  records : list (list string)
}.

(** The default [na_values] of [read_csv]. *)
Definition na_values : list string :=
  [""; "#N/A"; "#N/A N/A"; "#NA"; "-1.#IND"; "-1.#QNAN"; "-NaN"; "-nan";
   "1.#IND"; "1.#QNAN"; "<NA>"; "N/A"; "NA"; "NULL"; "NaN"; "None"; "n/a";
   "nan"; "null"].

Definition is_na_text (s : string) : bool :=
  existsb (fun v => (v =? s)%string) na_values.

(** Field [j] of a record; a short record is padded with missing fields. *)
Definition field (j : nat) (record : list string) : string := nth j record "".

Definition column_fields (j : nat) (t : RawTable) : list string :=
  map (field j) (records t).

Definition date_column : string := "Date/Time".

(** The integer conversion of the tokenizer: white space, an optional
    sign, digits, white space, and nothing else. *)
Definition c_space (c : ascii) : bool :=
  let n := nat_of_ascii c in (n =? 32) || ((9 <=? n) && (n <=? 13)).

Fixpoint skip_spaces (s : string) : string :=
  match s with
  | EmptyString => EmptyString
  | String c s' => if c_space c then skip_spaces s' else s
  end.

Definition digit_value (c : ascii) : option Z :=
  let n := nat_of_ascii c in
  if (48 <=? n) && (n <=? 57) then Some (Z.of_nat (n - 48)) else None.

(** Reads digits while there are some: their value and what follows. *)
Fixpoint read_digits (s : string) (acc : Z) : Z * string :=
  match s with
  | EmptyString => (acc, EmptyString)
  | String c s' =>
      match digit_value c with
      | Some d => read_digits s' (acc * 10 + d)%Z
      | None => (acc, s)
      end
  end.

Definition read_unsigned (s : string) : option Z :=
  match s with
  | EmptyString => None
  | String c _ =>
      match digit_value c with
      | None => None
      | Some _ =>
          let (v, rest) := read_digits s 0%Z in
          match skip_spaces rest with
          | EmptyString => Some v
          | _ => None
          end
      end
  end.

(** The integer a field is written as, whatever its size. *)
Definition parse_whole (s : string) : option Z :=
  match skip_spaces s with
  | String "-" s' => option_map Z.opp (read_unsigned s')
  | String "+" s' => read_unsigned s'
  | s' => read_unsigned s'
  end.

(** Every field is written as an integer: their values. *)
Fixpoint whole_fields (fields : list string) : option (list Z) :=
  match fields with
  | [] => Some []
  | f :: fields' =>
      match parse_whole f, whole_fields fields' with
      | Some z, Some zs => Some (z :: zs)
      | _, _ => None
      end
  end.

Definition in_int64 (z : Z) : bool := ((int64_min <=? z) && (z <=? int64_max))%Z.

(** The default [true_values] and [false_values] of the tokenizer. *)
Definition is_true_text (s : string) : bool :=
  existsb (fun v => (v =? s)%string) ["True"; "TRUE"; "true"].

Definition is_false_text (s : string) : bool :=
  existsb (fun v => (v =? s)%string) ["False"; "FALSE"; "false"].

Section ReadCsv.

Variable parse_float : string -> float.

(** The conversion behind [parse_dates], [to_datetime], on the fields
    of a column that are not missing: for each of them the instant it
    denotes, in nanoseconds, and its offset from UTC when the text gives
    one.  [None] when the conversion fails and [read_csv] keeps the
    strings: some field is not a date, or is not written in the format of
    the first. *)
Variable parse_datetime : list string -> option (list (Z * option Z)).

Definition text_cell (s : string) : cell :=
  if is_na_text s then NA else Text s.

Definition number_cell (s : string) : cell :=
  if is_na_text s then NA
  else match parse_float s with
       | Fin q => Num q
       | Inf negative => Infinite negative
       | NaN => Text s
       end.

Definition is_number_text (s : string) : bool :=
  is_na_text s || negb (float_isnan (parse_float s)).

Definition stamp_cell (p : Z * option Z) : cell :=
  match p with
  | (t, None) => Stamp t
  | (t, Some offset) => Aware t offset
  end.

(** The fields of a column that are not missing. *)
Definition present (fields : list string) : list string :=
  filter (fun f => negb (is_na_text f)) fields.

(** The entries of a converted column: NaT where the field is missing,
    and the converted timestamps, in order, elsewhere. *)
Fixpoint date_cells (fields : list string) (parsed : list (Z * option Z)) : list cell :=
  match fields with
  | [] => []
  | f :: fields' =>
      if is_na_text f then NA :: date_cells fields' parsed
      else match parsed with
           | p :: parsed' => stamp_cell p :: date_cells fields' parsed'
           | [] => NA :: date_cells fields' []
           end
  end.

Definition bool_cell (s : string) : cell :=
  if is_na_text s then NA else Boolean (is_true_text s).

Definition is_bool_text (s : string) : bool :=
  is_na_text s || is_true_text s || is_false_text s.

(** Integers that fit [uint64]. *)
Definition in_uint64 (z : Z) : bool := ((0 <=? z) && (z <=? uint64_max))%Z.

(** Type inference for an ordinary column, in the order the tokenizer
    tries: [int64] when every field is written as an integer; [float64]
    when every field that is not missing is a number; [bool] when every
    field is a truth value, and an object column of booleans when some
    of them are missing; strings otherwise.  Integers of which some lie
    beyond [int64] give [uint64] when none is negative and all fit, read
    here as a column of floats, and strings otherwise.  A file without
    records gives object columns. *)
Definition infer_column (fields : list string) : Series :=
  match fields with
  | [] => mkSeries Object []
  | _ =>
      match whole_fields fields with
      | Some zs =>
          if forallb in_int64 zs then mkSeries Int64 (map Int zs)
          else if forallb in_uint64 zs
          then mkSeries Float64 (map (fun z => Num (inject_Z z)) zs)
          else mkSeries Object (map text_cell fields)
      | None =>
          if forallb is_number_text fields
          then mkSeries Float64 (map number_cell fields)
          else if forallb is_bool_text fields
          then if existsb is_na_text fields
               then mkSeries Object (map bool_cell fields)
               else mkSeries Bool (map bool_cell fields)
          else mkSeries Object (map text_cell fields)
      end
  end.

Definition has_offset (o : option Z) : bool :=
  match o with Some _ => true | None => false end.

Definition same_offset (a b : option Z) : bool :=
  match a, b with
  | Some x, Some y => (x =? y)%Z
  | None, None => true
  | _, _ => false
  end.

(** A column named in [parse_dates].  When the conversion of its fields
    succeeds, the column holds datetimes, NaT where the field is missing:
    without timezone when no field gives an offset, with timezone when
    all give the same one, and as an object column of aware datetimes
    when they give several.  When the conversion fails, or fields with
    and without offset are mixed, the column is returned unaltered, as
    strings, and nothing is raised.  A column of missing fields only
    holds NaT. *)
Definition convert_dates (fields : list string) : Series :=
  match fields, present fields with
  | [], _ => mkSeries Object []
  | _, [] => mkSeries Datetime64 (date_cells fields [])
  | _, texts =>
      match parse_datetime texts with
      | None => mkSeries Object (map text_cell fields)
      | Some parsed =>
          match map snd parsed with
          | [] => mkSeries Datetime64 (date_cells fields parsed)
          | o :: os =>
              if forallb (same_offset o) os then
                mkSeries (if has_offset o then Datetime64tz else Datetime64)
                         (date_cells fields parsed)
              else if forallb has_offset (o :: os)
              then mkSeries Object (date_cells fields parsed)
              else mkSeries Object (map text_cell fields)
          end
      end
  end.

Definition convert_column (t : RawTable) (name : string) (j : nat) : string * Series :=
  (name, if (name =? date_column)%string
         then convert_dates (column_fields j t)
         else infer_column (column_fields j t)).

Fixpoint convert_columns (t : RawTable) (names : list string) (j : nat)
  : list (string * Series) :=
  match names with
  | [] => []
  | name :: names' => convert_column t name j :: convert_columns t names' (S j)
  end.

(** [pd.read_csv(src, parse_dates=['Date/Time'])] after tokenizing:
    a column named in [parse_dates] must exist. *)
Definition read_csv (t : RawTable) : Result DataFrame :=
  if existsb (fun name => (name =? date_column)%string) (header t)
  then Ok (mkDataFrame (length (records t)) (convert_columns t (header t) 0))
  else Raise (Exception ValueError
                "Missing column provided to 'parse_dates': 'Date/Time'").

End ReadCsv.

End Pandas.

(** ** The validator *)

Module Validator.

Import Pandas.

(** [self.format_type] : ["new"] or ["legacy"]. *)
Inductive Format := New | Legacy.

(** The messages appended to [self.warnings], one constructor per
    f-string of the source. *)
Inductive Warning :=
| MissingValues (missing_count : nat) (col : string)
    (* "{missing_count} missing values in {col}" *)
| LargeDateRange (date_range : Z) (min_date max_date : pydate)
    (* "Large date range detected: {date_range} days ({min} to {max})" *)
| FutureDates (n : nat)
    (* "{n} transactions have future dates" *)
| LargeAmounts (n : nat)
    (* "{n} transactions with amounts > $1M" *)
| ZeroAmounts (n : nat)
    (* "{n} transactions with zero amounts" *)
| UnusualSymbols (unique_unusual : list cell)
    (* "Unusual symbol formats detected: {list(unique_unusual)}" *)
| FractionalQuantities (symbol : string) (n : nat).
    (* "Fractional quantities found for {symbol}: {n} transactions" *)

(** The dictionary built by [generate_summary_stats]. *)
Record Stats := mkStats {
  total_transactions : nat;
  date_range : option (pydate * pydate);   (* "{min} to {max}", or None *)
  unique_symbols : nat;
  transaction_types : list (cell * nat);   (* a dict, in insertion order *)
  total_volume : float
}.

(** The lines printed by [run_full_validation]. *)
Inductive Line :=
| PrintValidating (csv_file : string)
| PrintRule
| PrintFormatFailed
| PrintFormat (f : Format)
| PrintLoadFailed
| PrintLoaded (n : nat)
| PrintSummary
| PrintTotal (n : nat)
| PrintDateRange (r : option (pydate * pydate))
| PrintUniqueSymbols (n : nat)
| PrintVolume (v : float)
| PrintTypes
| PrintType (ttype : cell) (count : nat)
| PrintWarnings (n : nat)
| PrintWarning (w : Warning)
| PrintErrors (n : nat)
| PrintError (e : string)
| PrintNoIssues
| PrintCompleted
| PrintUsage.

(** What lies outside the program: the file system and the row
    transformer [tw_pnl.transform_csv]. *)
Record World := mkWorld {
  readline : string -> Result string;      (* open(path).readline() *)
  read_file : string -> Result string;     (* the text read_csv reads from path *)
  transform_csv : string -> Result string  (* import and call of transform_csv *)
}.

(** The calls made to the world, in order. *)
Inductive Call :=
| CallReadline (path : string)
| CallTransformCsv (path : string)
| CallReadFile (path : string).

(** The attributes of a [TastyworksDataValidator], with the output
    printed and the calls made so far. *)
Record State := mkState {
  csv_file : string;
  errors : list string;
  warnings : list Warning;
  df : option DataFrame;
  format_type : option Format;
  stdout : list Line;
  calls : list Call
}.

(** [TastyworksDataValidator(csv_file)] ; [format_type] is not set yet. *)
Definition init (path : string) : State := mkState path [] [] None None [] [].

Definition append_error (e : string) (st : State) : State :=
  mkState (csv_file st) (errors st ++ [e]) (warnings st) (df st)
          (format_type st) (stdout st) (calls st).

Definition append_warnings (ws : list Warning) (st : State) : State :=
  mkState (csv_file st) (errors st) (warnings st ++ ws) (df st)
          (format_type st) (stdout st) (calls st).

Definition set_df (d : DataFrame) (st : State) : State :=
  mkState (csv_file st) (errors st) (warnings st) (Some d)
          (format_type st) (stdout st) (calls st).

Definition set_format_type (f : Format) (st : State) : State :=
  mkState (csv_file st) (errors st) (warnings st) (df st)
          (Some f) (stdout st) (calls st).

Definition emit (ls : list Line) (st : State) : State :=
  mkState (csv_file st) (errors st) (warnings st) (df st)
          (format_type st) (stdout st ++ ls) (calls st).

Definition record_call (c : Call) (st : State) : State :=
  mkState (csv_file st) (errors st) (warnings st) (df st)
          (format_type st) (stdout st) (calls st ++ [c]).

(** A method: from the state to a returned value or a propagating
    exception, and the state left behind. *)
Definition M (A : Type) : Type := State -> Result A * State.

Definition ret {A} (a : A) : M A := fun st => (Ok a, st).

Definition bind {A B} (m : M A) (k : A -> M B) : M B :=
  fun st =>
    match m st with
    | (Ok a, st') => k a st'
    | (Raise e, st') => (Raise e, st')
    end.

Definition print (l : Line) : M unit := fun st => (Ok tt, emit [l] st).

Declare Scope method_scope.
Delimit Scope method_scope with method.
Notation "x <- m ;; k" := (bind m (fun x => k))
  (at level 61, m at next level, right associativity) : method_scope.
Notation "m ;; k" := (bind m (fun _ => k))
  (at level 61, right associativity) : method_scope.

(** A check: the warnings it appends, and its value or the exception
    that ends it.  Warnings appended before an exception stay. *)
Definition Check (A : Type) : Type := list Warning * Result A.

Definition pass {A} (a : A) : Check A := ([], Ok a).

Definition warn (w : Warning) : Check unit := ([w], Ok tt).

Definition eval {A} (r : Result A) : Check A := ([], r).

Definition andThen {A B} (m : Check A) (k : A -> Check B) : Check B :=
  match m with
  | (ws, Ok a) => let (ws', r) := k a in (ws ++ ws', r)
  | (ws, Raise e) => (ws, Raise e)
  end.

(** [if b: body] *)
Definition when (b : bool) (body : Check unit) : Check unit :=
  if b then body else pass tt.

(** [for x in l: body] *)
Fixpoint for_each {A} (l : list A) (body : A -> Check unit) : Check unit :=
  match l with
  | [] => pass tt
  | x :: l' => andThen (body x) (fun _ => for_each l' body)
  end.

Declare Scope check_scope.
Delimit Scope check_scope with check.
Notation "x <- m ;; k" := (andThen m (fun x => k))
  (at level 61, m at next level, right associativity) : check_scope.
Notation "m ;; k" := (andThen m (fun _ => k))
  (at level 61, right associativity) : check_scope.

Definition new_format_headers : list string :=
  ["Date"; "Type"; "Sub Type"; "Action"; "Symbol"; "Value"].

Definition legacy_format_headers : list string :=
  ["Date/Time"; "Transaction Code"; "Transaction Subcode"; "Amount"].

(** [any(header in first_line for header in headers)] *)
Definition any_header_in (headers : list string) (first_line : string) : bool :=
  existsb (fun header => PyStr.contains header first_line) headers.

Definition invalid_format : string :=
  "Invalid CSV format - missing required headers".

(** The decision of [validate_file_format] on the stripped first line. *)
Definition detect (first_line : string) : option Format :=
  if any_header_in new_format_headers first_line then Some New
  else if any_header_in legacy_format_headers first_line then Some Legacy
  else None.

Definition validate_file_format (w : World) : M bool :=
  fun st =>
    let st := record_call (CallReadline (csv_file st)) st in
    match readline w (csv_file st) with
    | Ok line =>
        let first_line := PyStr.strip line in
        match detect first_line with
        | Some f => (Ok true, set_format_type f st)
        | None => (Ok false, append_error invalid_format st)
        end
    | Raise e =>
        (Ok false, append_error ("Cannot read file: " ++ str_exn e)%string st)
    end.

Declare Scope result_scope.
Delimit Scope result_scope with result.
Notation "x <- m ;; k" := (bindR m (fun x => k))
  (at level 61, m at next level, right associativity) : result_scope.

Definition critical_columns : list string := ["Date/Time"; "Amount"; "Symbol"].

(** [symbol.endswith] exists when [symbol] is a [str]. *)
Definition as_str (c : cell) : Result string :=
  match c with
  | Text s => Ok s
  | _ => Raise (Exception AttributeError "object has no attribute 'endswith'")
  end.

Section Methods.

(** The library functions the methods rely on. *)
Variable tokenize : string -> Result RawTable.
Variable parse_float : string -> float.
Variable parse_datetime : list string -> option (list (Z * option Z)).

(** [pd.read_csv(src, parse_dates=['Date/Time'])] on the text of [src]. *)
Definition read_csv_text (text : string) : Result DataFrame :=
  bindR (tokenize text) (read_csv parse_float parse_datetime).

Definition loading_error (e : exn) : string :=
  ("Error loading data: " ++ str_exn e)%string.

Definition load_data (w : World) : M bool :=
  fun st =>
    match format_type st with
    | Some New =>
        let st := record_call (CallTransformCsv (csv_file st)) st in
        match bindR (transform_csv w (csv_file st)) read_csv_text with
        | Ok d => (Ok true, set_df d st)
        | Raise e => (Ok false, append_error (loading_error e) st)
        end
    | Some Legacy =>
        let st := record_call (CallReadFile (csv_file st)) st in
        match bindR (read_file w (csv_file st)) read_csv_text with
        | Ok d => (Ok true, set_df d st)
        | Raise e => (Ok false, append_error (loading_error e) st)
        end
    | None =>
        (Ok false,
         append_error
           (loading_error
              (Exception AttributeError
                 "'TastyworksDataValidator' object has no attribute 'format_type'"))
           st)
    end.

(** Lines 68-74: missing critical data. *)
Definition check_missing (d : DataFrame) : Check unit :=
  for_each critical_columns (fun col =>
    when (has_column col d) (
      s <- eval (getitem d col) ;;
      let missing_count := count_true (map isna (values s)) in
      when (0 <? missing_count) (warn (MissingValues missing_count col))))%check.

Definition exceeds (date_range : option Z) (bound : Z) : bool :=
  match date_range with
  | Some n => (bound <? n)%Z
  | None => false
  end.

(** Lines 76-88: date range and future dates. *)
Definition check_dates (now : Z) (d : DataFrame) : Check unit :=
  when (has_column "Date/Time" d) (
    s <- eval (getitem d "Date/Time") ;;
    min_date <- eval (series_min s) ;;
    max_date <- eval (series_max s) ;;
    delta <- eval (sub_scalar max_date min_date) ;;
    date_range <- eval (days delta) ;;
    when (exceeds date_range 2000) (
      lo <- eval (date min_date) ;;
      hi <- eval (date max_date) ;;
      warn (LargeDateRange (match date_range with Some n => n | None => 0%Z end) lo hi)) ;;
    future_dates <- eval (gt_datetime s now) ;;
    when (0 <? count_true future_dates) (warn (FutureDates (count_true future_dates))))%check.

Definition receive_deliver : list cell := [Text "Receive Deliver"].

(** Lines 90-102: suspicious amounts. *)
Definition check_amounts (d : DataFrame) : Check unit :=
  when (has_column "Amount" d) (
    s <- eval (getitem d "Amount") ;;
    let amounts := to_numeric parse_float s in
    let large_amounts := count_true (abs_gt_million amounts) in
    when (0 <? large_amounts) (warn (LargeAmounts large_amounts)) ;;
    code <- eval (getitem d "Transaction Code") ;;
    let zero_amounts :=
      count_true (and_mask (eq_zero amounts)
                           (map negb (isin code receive_deliver))) in
    when (0 <? zero_amounts) (warn (ZeroAmounts zero_amounts)))%check.

(** Lines 104-112: symbol format. *)
Definition check_symbols (d : DataFrame) : Check unit :=
  when (has_column "Symbol" d) (
    s <- eval (getitem d "Symbol") ;;
    let symbols := dropna s in
    matched <- eval (str_match_symbol symbols) ;;
    let unusual_symbols := select (values symbols) (map negb matched) in
    when (0 <? length unusual_symbols)
         (warn (UnusualSymbols (firstn 5 (unique unusual_symbols)))))%check.

Definition data_quality_checks (now : Z) (d : DataFrame) : Check unit :=
  (check_missing d ;; check_dates now d ;; check_amounts d ;; check_symbols d)%check.

(** Runs a check on [self.df]: [False] when no frame is loaded,
    otherwise the warnings are appended and [True] is returned,
    unless the check raises. *)
Definition run_check (body : DataFrame -> Check unit) : M bool :=
  fun st =>
    match df st with
    | None => (Ok false, st)
    | Some d =>
        let (ws, r) := body d in
        (bindR r (fun _ => Ok true), append_warnings ws st)
    end.

Definition validate_data_quality (now : Z) : M bool :=
  run_check (data_quality_checks now).

(** Lines 121-131. *)
Definition consistency_checks (d : DataFrame) : Check unit :=
  when (has_column "Symbol" d && has_column "Quantity" d) (
    s <- eval (getitem d "Symbol") ;;
    for_each (unique (values (dropna s))) (fun symbol =>
      let rows := eq_scalar s symbol in
      name <- eval (as_str symbol) ;;
      when (negb (PyStr.endswith name "/USD")) (
        q <- eval (getitem d "Quantity") ;;
        let quantities := to_numeric parse_float (mask_series q rows) in
        let n := count_true (mod1_ne0 quantities) in
        when (0 <? n) (warn (FractionalQuantities name n)))))%check.

Definition validate_transaction_consistency : M bool :=
  run_check consistency_checks.

(** Lines 140-163 on the loaded frame. *)
Definition summary_stats (d : DataFrame) : Result Stats :=
  (range <- (if has_column "Date/Time" d then
               s <- getitem d "Date/Time" ;;
               min_date <- series_min s ;;
               max_date <- series_max s ;;
               lo <- date min_date ;;
               hi <- date max_date ;;
               Ok (Some (lo, hi))
             else Ok None) ;;
   symbols <- (if has_column "Symbol" d then
                 s <- getitem d "Symbol" ;; Ok (nunique s)
               else Ok 0) ;;
   types <- (if has_column "Transaction Code" d then
               s <- getitem d "Transaction Code" ;; Ok (value_counts s)
             else Ok []) ;;
   volume <- (if has_column "Amount" d then
                s <- getitem d "Amount" ;;
                Ok (abs_sum (to_numeric parse_float s))
              else Ok (Fin 0)) ;;
   Ok (mkStats (len d) range symbols types volume))%result.

(** [None] stands for the empty dictionary returned without a frame. *)
Definition generate_summary_stats : M (option Stats) :=
  fun st =>
    match df st with
    | None => (Ok None, st)
    | Some d => (bindR (summary_stats d) (fun s => Ok (Some s)), st)
    end.

Definition raise {A} (e : exn) : M A := fun st => (Raise e, st).

Definition print_all (ls : list Line) : M unit := fun st => (Ok tt, emit ls st).

(** Lines 191-201: the summary block. *)
Definition print_summary (stats : option Stats) : M unit :=
  match stats with
  | None => (print PrintSummary ;;
             raise (Exception KeyError (quote "total_transactions")))%method
  | Some s =>
      (print_all [PrintSummary;
                  PrintTotal (total_transactions s);
                  PrintDateRange (date_range s);
                  PrintUniqueSymbols (unique_symbols s);
                  PrintVolume (total_volume s)] ;;
       match transaction_types s with
       | [] => ret tt
       | types =>
           print_all (PrintTypes :: map (fun kv => PrintType (fst kv) (snd kv)) types)
       end)%method
  end.

(** Lines 203-219: warnings, errors and the verdict. *)
Definition report : M bool :=
  fun st =>
    let st :=
      match warnings st with
      | [] => st
      | ws => emit (PrintWarnings (length ws) :: map PrintWarning ws) st
      end in
    match errors st with
    | [] =>
        let st := match warnings st with
                  | [] => emit [PrintNoIssues] st
                  | _ => st
                  end in
        (Ok true, emit [PrintCompleted] st)
    | es => (Ok false, emit (PrintErrors (length es) :: map PrintError es) st)
    end.

Definition run_full_validation (w : World) (now : Z) : M bool :=
  (fun st =>
     (print_all [PrintValidating (csv_file st); PrintRule] ;;
      format_ok <- validate_file_format w ;;
      if negb format_ok then print PrintFormatFailed ;; ret false
      else
        (fun st' =>
           match format_type st' with
           | Some f => print (PrintFormat f) st'
           | None => raise (Exception AttributeError "format_type") st'
           end) ;;
        loaded <- load_data w ;;
        if negb loaded then print PrintLoadFailed ;; ret false
        else
          (fun st' =>
             match df st' with
             | Some d => print (PrintLoaded (len d)) st'
             | None => raise (Exception TypeError "object of type 'NoneType' has no len()") st'
             end) ;;
          validate_data_quality now ;;
          validate_transaction_consistency ;;
          stats <- generate_summary_stats ;;
          print_summary stats ;;
          report) st)%method.

(** [main] with [sys.argv] : the exit status and what was printed.
    An exception that nobody catches ends the process with status 1. *)
Definition main (w : World) (now : Z) (argv : list string) : Z * list Line :=
  match argv with
  | [_; path] =>
      match run_full_validation w now (init path) with
      | (Ok true, st) => (0%Z, stdout st)
      | (_, st) => (1%Z, stdout st)
      end
  | _ => (1%Z, [PrintUsage])
  end.

End Methods.

End Validator.

(** ** The web interface: [web_interface.py] *)

Module Web.

(** [ALLOWED_EXTENSIONS] *)
Definition ALLOWED_EXTENSIONS : list string := ["csv"].

(** [l[i]] ; [None] stands for the IndexError raised out of range. *)
Definition index_list (l : list string) (i : nat) : option string := nth_error l i.

(** [allowed_file(filename)] : [and] evaluates its right operand only
    when the left one is true.  [None] stands for an IndexError. *)
Definition allowed_file (filename : string) : option bool :=
  if PyStr.contains "." filename then
    match index_list (PyStr.rsplit1 "." filename) 1 with
    | Some ext =>
        Some (existsb (fun e => (e =? PyStr.lower ext)%string) ALLOWED_EXTENSIONS)
    | None => None
    end
  else Some false.

End Web.

(** ** The setup script: [enhanced_setup.py] *)

Module Setup.

(** The lines the script prints, one constructor per [print] with a
    variable part; [Banner] stands for the four opening lines and
    [UsageExamples] for the seven lines of lines 161-167. *)
Inductive Line :=
| CheckingDependencies
| PackageOk (package : string)
| PackageMissing (package : string)
| Installing (packages : string)
| InstalledAll
| AlreadyInstalled
| Validating (csv_file : string)
| NotFound (csv_file : string)
| NewDetected
| LegacyDetected
| InvalidFormat
| ExpectedNotFound
| Found (first_line : string)
| ReadError (e : string)
| CreatingSample
| SampleCreated (sample_file : string)
| RunningTest (csv_file : string)
| Running (command : string)
| CommandFailed (returncode : Z)
| Stderr (text : string)
| TestCompleted
| OutputCreated
| SampleOutput
| OutputLine (line : string)
| NoOutputFile
| TestFailed (e : string)
| Banner
| FoundFiles
| Listed (i : nat) (name : string)
| CreatingInstead
| NoFiles
| SetupCompleted
| UsageExamples
| SetupIssues.

(** What lies outside the script. *)
Record World := mkWorld {
  executable : string;                       (* sys.executable *)
  importable : string -> bool;               (* __import__(package) does not raise ImportError *)
  pip_install : list string -> Z;            (* exit status of pip install *)
  glob_csv : list string;                    (* Path('.').glob('*.csv'), as listed *)
  path_exists : string -> bool;              (* os.path.exists before the test *)
  readline : string -> Result string;        (* open(path).readline() *)
  write_file : string -> string -> Result unit;
  subprocess_run : list string -> Result (Z * string);   (* returncode and stderr *)
  output_exists : bool;                      (* os.path.exists('test_output.csv') after the test *)
  read_output : Result (list string)         (* open('test_output.csv').readlines() *)
}.

(** An exception that leaves [main]. *)
Inductive Uncaught :=
| CalledProcessError (returncode : Z) (cmd : list string)
| Propagated (e : exn).

Definition required_packages : list string := ["pandas"; "matplotlib"].

(** Lines 13-33.  [Some] is the exception raised by [check_call]. *)
Definition check_dependencies (w : World) : option Uncaught * list Line :=
  let missing_packages := filter (fun package => negb (importable w package))
                                 required_packages in
  let checked := map (fun package => if importable w package
                                     then PackageOk package
                                     else PackageMissing package) required_packages in
  match missing_packages with
  | [] => (None, CheckingDependencies :: checked ++ [AlreadyInstalled])
  | _ =>
      let cmd := [executable w; "-m"; "pip"; "install"] ++ missing_packages in
      let out := CheckingDependencies :: checked ++
                 [Installing (PyStr.join ", " missing_packages)] in
      if (pip_install w missing_packages =? 0)%Z
      then (None, out ++ [InstalledAll])
      else (Some (CalledProcessError (pip_install w missing_packages) cmd), out)
  end.

Definition new_format_headers : list string :=
  ["Date"; "Type"; "Sub Type"; "Action"; "Symbol"].

Definition legacy_format_headers : list string :=
  ["Date/Time"; "Transaction Code"; "Transaction Subcode"].

(** Lines 35-67. *)
Definition validate_csv_format (w : World) (csv_file : string) : bool * list Line :=
  if negb (path_exists w csv_file)
  then (false, [Validating csv_file; NotFound csv_file])
  else
    match readline w csv_file with
    | Ok line =>
        let first_line := PyStr.strip line in
        if Validator.any_header_in new_format_headers first_line
        then (true, [Validating csv_file; NewDetected])
        else if Validator.any_header_in legacy_format_headers first_line
        then (true, [Validating csv_file; LegacyDetected])
        else (false, [Validating csv_file; InvalidFormat; ExpectedNotFound;
                      Found first_line])
    | Raise e => (false, [Validating csv_file; ReadError (str_exn e)])
    end.

Definition double_quote : string := String (ascii_of_nat 34) EmptyString.

Definition line_feed : string := String (ascii_of_nat 10) EmptyString.

(** The text of lines 73-77. *)
Definition sample_data : string :=
  PyStr.join line_feed
    ["Date,Type,Sub Type,Action,Symbol,Instrument Type,Description,Value,Quantity,Average Price,Commissions,Fees,Multiplier,Root Symbol,Underlying Symbol,Expiration Date,Strike Price,Call or Put,Order #,Currency";
     ("2024-01-03T14:00:00+0200,Money Movement,Deposit,,,,Wire Funds Received,"
        ++ double_quote ++ "1,000.00" ++ double_quote ++ ",0,,--,0.00,,,,,,,,USD")%string;
     ("2024-01-15T15:30:00+0200,Trade,Buy,BUY_TO_OPEN,AAPL,Equity,Bought 10 AAPL @ 150.00,"
        ++ double_quote ++ "-1,500.00" ++ double_quote
        ++ ",10,150.00,1.00,0.00,1,AAPL,AAPL,,,,,USD")%string;
     "2024-02-16T23:00:00+0200,Money Movement,Credit Interest,,,,INTEREST ON CREDIT BALANCE,0.06,0,,--,0.00,,,,,,,,USD";
     ("2024-03-20T16:00:00+0200,Trade,Sell,SELL_TO_CLOSE,AAPL,Equity,Sold 10 AAPL @ 155.00,"
        ++ double_quote ++ "1,550.00" ++ double_quote
        ++ ",10,155.00,1.00,0.00,1,AAPL,AAPL,,,,,USD")%string].

Definition sample_file : string := "sample_transactions.csv".

(** Lines 69-84: an exception met on writing is not caught. *)
Definition create_sample_data (w : World) : Result string * list Line :=
  match write_file w sample_file sample_data with
  | Ok _ => (Ok sample_file, [CreatingSample; SampleCreated sample_file])
  | Raise e => (Raise e, [CreatingSample])
  end.

Definition test_args (csv_file : string) : list string :=
  ["python"; "tw-pnl.py"; "--assume-individual-stock";
   "--output-csv=test_output.csv"; "--tax-output=2024"; csv_file].

(** Lines 86-127: every exception is caught and reported. *)
Definition run_test_calculation (w : World) (csv_file : string) : bool * list Line :=
  let started := [RunningTest csv_file; Running (PyStr.join " " (test_args csv_file))] in
  match subprocess_run w (test_args csv_file) with
  | Raise e => (false, started ++ [TestFailed (str_exn e)])
  | Ok (returncode, stderr) =>
      if negb (returncode =? 0)%Z
      then (false, started ++ [CommandFailed returncode] ++
                   match stderr with
                   | EmptyString => []
                   | _ => [Stderr stderr]
                   end)
      else if output_exists w then
        match read_output w with
        | Ok lines =>
            (true, started ++ [TestCompleted; OutputCreated; SampleOutput] ++
                   map (fun line => OutputLine (PyStr.strip line)) (firstn 10 lines))
        | Raise e =>
            (false, started ++ [TestCompleted; OutputCreated; TestFailed (str_exn e)])
        end
      else (false, started ++ [NoOutputFile])
  end.

Definition excluded_names : list string :=
  ["eurusd.csv"; "test_output.csv"; "sample_transactions.csv"].

(** [f.name not in [...]] *)
Definition kept (name : string) : bool :=
  negb (existsb (fun x => (name =? x)%string) excluded_names).

(** [enumerate(csv_files, 1)] with the line printed for each. *)
Fixpoint listing (i : nat) (csv_files : list string) : list Line :=
  match csv_files with
  | [] => []
  | name :: rest => Listed i name :: listing (S i) rest
  end.

(** Lines 139-156: the file the test runs on. *)
Definition choose_test_file (w : World) : Result string * list Line :=
  let csv_files := filter kept (glob_csv w) in
  match csv_files with
  | first :: _ =>
      let (valid, out) := validate_csv_format w first in
      if valid then (Ok first, FoundFiles :: listing 1 csv_files ++ out)
      else
        let (created, out') := create_sample_data w in
        (created, FoundFiles :: listing 1 csv_files ++ out ++ [CreatingInstead] ++ out')
  | [] =>
      let (created, out') := create_sample_data w in
      (created, NoFiles :: out')
  end.

(** The outcome of [main] : the value returned, or the exception that
    leaves it. *)
Inductive Outcome :=
| Returns (status : Z)
| Raises (e : Uncaught).

(** Lines 129-172. *)
Definition main (w : World) : Outcome * list Line :=
  match check_dependencies w with
  | (Some e, out1) => (Raises e, Banner :: out1)
  | (None, out1) =>
      match choose_test_file w with
      | (Raise e, out2) => (Raises (Propagated e), Banner :: out1 ++ out2)
      | (Ok test_file, out2) =>
          let (succeeded, out3) := run_test_calculation w test_file in
          if succeeded
          then (Returns 0, Banner :: out1 ++ out2 ++ out3 ++ [SetupCompleted; UsageExamples])
          else (Returns 1, Banner :: out1 ++ out2 ++ out3 ++ [SetupIssues])
      end
  end.

End Setup.

(** ** Notions used to state the properties *)

Module Spec.

Import PyStr Pandas Validator.

(** A header token occurs in the line. *)
Definition matches (headers : list string) (line : string) : Prop :=
  exists tok, In tok headers /\ Substring tok line.

(** The token neither begins nor ends with white space. *)
Definition clean_token (t : string) : bool :=
  begins_nonspace t && ends_nonspace t.

(** The transaction kind is not "Receive Deliver". *)
Definition not_receive_deliver (kind : cell) : bool :=
  match kind with
  | Text s => negb (s =? "Receive Deliver")%string
  | _ => true
  end.

(** The amount an entry stands for: the number it holds or is written
    as, and no number (NaN) when it is missing or is no number. *)
Definition amount_of (parse_float : string -> float) (c : cell) : float :=
  match c with
  | Num q => Fin q
  | Int z => Fin (inject_Z z)
  | Boolean true => Fin 1
  | Boolean false => Fin 0
  | Stamp t => Fin (inject_Z t)
  | Infinite negative => Inf negative
  | Text s => parse_float s
  | NA | Aware _ _ => NaN
  end.

(** The amount equals 0: it is a number, and that number is zero. *)
Definition is_zero (x : float) : Prop := exists q, x = Fin q /\ (q == 0)%Q.

Definition zero_amount (x : float) : bool :=
  match x with
  | Fin q => (Qnum q =? 0)%Z
  | _ => false
  end.

(** The count of the zero-amount rule in the words of the
    specification: the rows whose amount equals zero and whose
    transaction kind is not "Receive Deliver". *)
Definition unexplained_zero_rows (parse_float : string -> float)
           (amount code : Series) : nat :=
  length (filter (fun row => zero_amount (amount_of parse_float (fst row))
                             && not_receive_deliver (snd row))
                 (combine (values amount) (values code))).

(** The count of the large-amount rule, as the code takes it. *)
Definition large_amount_rows (parse_float : string -> float) (amount : Series) : nat :=
  count_true (abs_gt_million (to_numeric parse_float amount)).

(** The warning [w] when the count is positive, nothing otherwise. *)
Definition one_if (n : nat) (w : Warning) : list Warning :=
  if 0 <? n then [w] else [].

(** Any warning but the one about zero amounts. *)
Definition not_zero_amounts (w : Warning) : Prop :=
  match w with ZeroAmounts _ => False | _ => True end.

(** [q] is not a whole number. *)
Definition has_fraction (q : Q) : bool := negb (Qeq_bool q (inject_Z (Qfloor q))).

(** What the test [quantities % 1 != 0] accepts: a quantity that is
    missing or unparseable (NaN), infinite, or not a whole number. *)
Definition counted (x : float) : bool :=
  match x with
  | Fin q => has_fraction q
  | _ => true
  end.

(** A quantity with a non-zero fractional part, in the words of the
    specification: a number that is not whole. *)
Definition has_fractional_part (x : float) : bool :=
  match x with
  | Fin q => has_fraction q
  | _ => false
  end.

(** Every symbol of the column is a string or missing. *)
Definition string_symbols (s : Series) : Prop :=
  forall c, In c (values s) -> c = NA \/ exists t, c = Text t.

(** The number of entries equal to [k]. *)
Definition occurrences (k : cell) (l : list cell) : nat :=
  length (filter (cell_eqb k) l).

(** No two keys of a table are equal. *)
Fixpoint distinct_keys (table : list (cell * nat)) : Prop :=
  match table with
  | [] => True
  | (k, _) :: table' =>
      (forall k' n', In (k', n') table' -> cell_eqb k k' = false) /\ distinct_keys table'
  end.

(** What the table of counts satisfies after the entries [l]. *)
Record counts (l : list cell) (table : list (cell * nat)) : Prop := {
  counts_exact : forall k n, In (k, n) table -> n = occurrences k l /\ 0 < n;
  counts_distinct : distinct_keys table;
  counts_complete : forall c, In c l -> exists k n, In (k, n) table /\ cell_eqb k c = true
}.

(** The entry [a] may stand before [b]: its count is not smaller. *)
Definition count_ge (a b : cell * nat) : Prop := snd b <= snd a.

(** The date range of [generate_summary_stats], lines 148-151. *)
Definition summary_date_range (d : DataFrame) : Result (option (pydate * pydate)) :=
  match lookup "Date/Time" (columns d) with
  | None => Ok None
  | Some s =>
      bindR (series_min s) (fun min_date =>
      bindR (series_max s) (fun max_date =>
      bindR (date min_date) (fun lo =>
      bindR (date max_date) (fun hi => Ok (Some (lo, hi))))))
  end.

(** A statistic of a column, or its default when the column is absent. *)
Definition column_or {A} (d : DataFrame) (col : string) (f : Series -> A) (default : A) : A :=
  match lookup col (columns d) with
  | Some s => f s
  | None => default
  end.

(** The text [load_data] reads for a format, and the call it makes. *)
Definition source (w : World) (f : Format) (path : string) : Result string :=
  match f with
  | New => transform_csv w path
  | Legacy => read_file w path
  end.

Definition source_call (f : Format) (path : string) : Call :=
  match f with
  | New => CallTransformCsv path
  | Legacy => CallReadFile path
  end.

(** The entry is a valid timestamp, without or with a timezone. *)
Definition has_timestamp (c : cell) : Prop :=
  (exists t, c = Stamp t) \/ (exists t offset, c = Aware t offset).

(** The position of the first column of that name. *)
Fixpoint first_index (name : string) (names : list string) : option nat :=
  match names with
  | [] => None
  | n :: names' =>
      if (n =? name)%string then Some 0 else option_map S (first_index name names')
  end.

(** The timestamps of a table as they are written: the fields of its
    Date/Time column, if it has one. *)
Definition timestamp_fields (t : RawTable) : option (list string) :=
  option_map (fun j => column_fields j t) (first_index date_column (header t)).

(** The error recorded when the table has no Date/Time column. *)
Definition missing_date_column : string :=
  "Error loading data: Missing column provided to 'parse_dates': 'Date/Time'".

(** A summary line was printed. *)
Definition summary_line (l : Line) : bool :=
  match l with
  | PrintSummary | PrintTotal _ | PrintDateRange _ | PrintUniqueSymbols _
  | PrintVolume _ | PrintTypes | PrintType _ _ => true
  | _ => false
  end.

(** The exit status of the process for an outcome of the run. *)
Definition exit_status (outcome : Result bool) : Z :=
  match outcome with
  | Ok true => 0%Z
  | _ => 1%Z
  end.

(** The timestamps of the frame lie on the same side of both clocks. *)
Definition same_future (now1 now2 : Z) (d : DataFrame) : Prop :=
  forall s t, lookup "Date/Time" (columns d) = Some s -> In (Stamp t) (values s) ->
              (now1 <? t)%Z = (now2 <? t)%Z.

Section Parsers.

Variable tokenize : string -> Result RawTable.
Variable parse_float : string -> float.
Variable parse_datetime : list string -> option (list (Z * option Z)).

(** The rows of [symbol] whose quantity satisfies [test]. *)
Definition group_rows (test : float -> bool) (symbols quantities : list cell)
           (symbol : cell) : nat :=
  length (filter (fun row => cell_eqb (fst row) symbol
                             && test (coerce parse_float (snd row)))
                 (combine symbols quantities)).

(** The warnings of one iteration of the loop. *)
Definition symbol_warnings (s q : Series) (symbol : cell) : list Warning :=
  match symbol with
  | Text name =>
      if PyStr.endswith name "/USD" then []
      else one_if (group_rows counted (values s) (values q) symbol)
                  (FractionalQuantities name
                     (group_rows counted (values s) (values q) symbol))
  | _ => []
  end.

(** The frame a run loads for the file, if any. *)
Definition loaded_frame (w : World) (path : string) : option DataFrame :=
  match readline w path with
  | Ok line =>
      match detect (PyStr.strip line) with
      | Some New =>
          match bindR (transform_csv w path)
                      (read_csv_text tokenize parse_float parse_datetime) with
          | Ok d => Some d
          | Raise _ => None
          end
      | Some Legacy =>
          match bindR (read_file w path)
                      (read_csv_text tokenize parse_float parse_datetime) with
          | Ok d => Some d
          | Raise _ => None
          end
      | None => None
      end
  | Raise _ => None
  end.

End Parsers.

(** Every character of [s] satisfies [p]. *)
Fixpoint all_chars (p : ascii -> bool) (s : string) : bool :=
  match s with
  | EmptyString => true
  | String c s' => p c && all_chars p s'
  end.

Definition line_feed : string := String "010" EmptyString.

(** What the pattern of line 109 describes: one to ten characters, each
    an upper-case letter or a slash, and at most one line feed after
    them. *)
Definition symbol_shaped (s : string) : Prop :=
  exists body,
    (s = body \/ s = (body ++ line_feed)%string) /\
    1 <= String.length body <= 10 /\
    all_chars symbol_char body = true.

(** An entry of the Symbol column that is reported: it is not missing
    and it is not a string that matches the pattern. *)
Definition unusual (c : cell) : bool :=
  negb (isna c) &&
  match c with
  | Text t => negb (match_symbol t)
  | _ => true
  end.

(** The entry is a Python object of that kind. *)
Definition has_kind (k : kind) (c : cell) : Prop :=
  match k, c with
  | KString, Text _
  | KNumber, (Num _ | Infinite _ | Int _)
  | KBool, Boolean _
  | KDatetime, (Stamp _ | Aware _ _) => True
  | _, _ => False
  end.

(** The column has an entry that is not missing, and its entries, the
    missing ones apart, are all numbers, all booleans or all datetimes:
    none of them is a string. *)
Definition without_strings (l : list cell) : Prop :=
  (exists c, In c l /\ c <> NA) /\
  exists k, k <> KString /\ forall c, In c l -> c = NA \/ has_kind k c.


(** No entry of the list equals an earlier one. *)
Definition distinct_cells (l : list cell) : Prop :=
  ForallOrdPairs (fun earlier later => cell_eqb later earlier = false) l.

(** The number of missing entries of a column. *)
Definition missing_rows (s : Series) : nat := length (filter isna (values s)).




(** An amount beyond one million in either direction; a value that is
    not a number is not. *)
Definition beyond_million (x : float) : Prop :=
  match x with
  | Fin q => (inject_Z 1000000 < Qabs q)%Q
  | Inf _ => True
  | NaN => False
  end.

(** The same, as a test. *)
Definition exceeds_million (x : float) : bool :=
  match x with
  | Fin q => negb (Qle_bool (Qabs q) (inject_Z 1000000))
  | Inf _ => true
  | NaN => false
  end.

(** The entry is an integer or a boolean. *)
Definition whole (c : cell) : bool :=
  match c with Int _ | Boolean _ => true | _ => false end.

(** A column of integers: its dtype is [int64] or [bool], and its
    entries are such values. *)
Definition integer_column (s : Series) : bool :=
  match dtype s with
  | Int64 | Bool => forallb whole (values s)
  | _ => false
  end.

(** An ordinary column as [read_csv] builds one: floats, integers that
    fit [int64], booleans, or objects that are strings or booleans, with
    missing entries among floats and objects only. *)
Definition ordinary_column (s : Series) : Prop :=
  forall c, In c (values s) ->
    match dtype s, c with
    | Float64, (NA | Num _ | Infinite _) => True
    | Int64, Int z => (int64_min <= z <= int64_max)%Z
    | Bool, Boolean _ => True
    | Object, (NA | Text _ | Boolean _) => True
    | _, _ => False
    end.

(** The smallest [int64], the one integer without an absolute value. *)
Definition is_int64_min (c : cell) : bool :=
  match c with Int z => (z =? int64_min)%Z | _ => false end.

(** A row the rule on large amounts counts: its amount lies beyond one
    million, and it is not the smallest [int64] in a column of
    integers. *)
Definition large_amount (parse_float : string -> float) (s : Series) (c : cell) : bool :=
  exceeds_million (amount_of parse_float c) && negb (integer_column s && is_int64_min c).

(** The integer an entry of a column of integers stands for. *)
Definition whole_value (c : cell) : Z :=
  match c with
  | Int z => z
  | Boolean b => Z.b2z b
  | _ => 0%Z
  end.

(** The sum of the absolute values of a column of integers. *)
Definition abs_total (l : list cell) : Z :=
  fold_right (fun c acc => (Z.abs (whole_value c) + acc)%Z) 0%Z l.

(** A float that is zero, positive or plus infinity. *)
Definition float_nonneg (x : float) : Prop :=
  match x with
  | Fin q => (0 <= q)%Q
  | Inf negative => negative = false
  | NaN => False
  end.

(** A line of the block that displays the errors, lines 209-212. *)
Definition error_line (l : Line) : bool :=
  match l with
  | PrintErrors _ | PrintError _ => true
  | _ => false
  end.

(** The block that displays the summary, lines 192-201. *)
Definition summary_lines (stats : Stats) : list Line :=
  [PrintSummary;
   PrintTotal (total_transactions stats);
   PrintDateRange (date_range stats);
   PrintUniqueSymbols (unique_symbols stats);
   PrintVolume (total_volume stats)] ++
  match transaction_types stats with
  | [] => []
  | types => PrintTypes :: map (fun kv => PrintType (fst kv) (snd kv)) types
  end.

(** The format detected for the file, if any. *)
Definition detected_format (w : World) (path : string) : option Format :=
  match readline w path with
  | Ok line => detect (PyStr.strip line)
  | Raise _ => None
  end.

(** The block that displays the warnings and the verdict of a run that
    succeeds, lines 204-218. *)
Definition closing_lines (ws : list Warning) : list Line :=
  match ws with
  | [] => [PrintNoIssues; PrintCompleted]
  | _ => PrintWarnings (length ws) :: map PrintWarning ws ++ [PrintCompleted]
  end.

End Spec.

(** ** Sample inputs *)

Module Examples.

Import Pandas Validator.

(** A parser for plain decimal numerals, such as [10], [-3] and [10.5]. *)
Definition digit (c : ascii) : option Z :=
  let n := nat_of_ascii c in
  if (48 <=? n) && (n <=? 57) then Some (Z.of_nat (n - 48)) else None.

Fixpoint parse_digits (s : string) (acc : Z) (scale : positive)
         (after_point seen_digit : bool) : option Q :=
  match s with
  | EmptyString => if seen_digit then Some (Qmake acc scale) else None
  | String c s' =>
      match digit c with
      | Some d =>
          parse_digits s' (acc * 10 + d)
                       (if after_point then (scale * 10)%positive else scale)
                       after_point true
      | None =>
          if Ascii.eqb c "." && negb after_point
          then parse_digits s' acc scale true seen_digit
          else None
      end
  end.

Definition parse_decimal (s : string) : float :=
  match s with
  | String "-" s' =>
      match parse_digits s' 0 1 false false with
      | Some q => Fin (Qopp q)
      | None => NaN
      end
  | _ =>
      match parse_digits s 0 1 false false with
      | Some q => Fin q
      | None => NaN
      end
  end.

(** Days from 1970-01-01 to a date of the proleptic Gregorian calendar. *)
Definition days_from_civil (y m d : Z) : Z :=
  let y' := if (m <=? 2)%Z then (y - 1)%Z else y in
  let era := (y' / 400)%Z in
  let yoe := (y' - era * 400)%Z in
  let mp := if (2 <? m)%Z then (m - 3)%Z else (m + 9)%Z in
  let doy := ((153 * mp + 2) / 5 + d - 1)%Z in
  let doe := (yoe * 365 + yoe / 4 - yoe / 100 + doy)%Z in
  (era * 146097 + doe - 719468)%Z.

Fixpoint number (s : string) (acc : Z) : option Z :=
  match s with
  | EmptyString => Some acc
  | String c s' =>
      match digit c with
      | Some d => number s' (acc * 10 + d)%Z
      | None => None
      end
  end.

(** The instant of a date written [YYYY-MM-DD]. *)
Definition iso_date (s : string) : option (Z * option Z) :=
  if (String.length s =? 10)
     && (substring 4 1 s =? "-")%string && (substring 7 1 s =? "-")%string
  then
    match number (substring 0 4 s) 0, number (substring 5 2 s) 0,
          number (substring 8 2 s) 0 with
    | Some y, Some m, Some d =>
        if ((1 <=? m) && (m <=? 12) && (1 <=? d) && (d <=? 31))%Z
        then Some ((days_from_civil y m d * ns_per_day)%Z, None)
        else None
    | _, _, _ => None
    end
  else None.

(** A conversion for dates written [YYYY-MM-DD] : it fails when a field
    is not such a date. *)
Fixpoint parse_iso_date (fields : list string) : option (list (Z * option Z)) :=
  match fields with
  | [] => Some []
  | f :: fields' =>
      match iso_date f, parse_iso_date fields' with
      | Some p, Some ps => Some (p :: ps)
      | _, _ => None
      end
  end.

(** A tokenizer for text without quoting: records end at a line feed,
    fields at a comma; the first record is the header. *)
Fixpoint split_fields (s : string) (field : string) : list string :=
  match s with
  | EmptyString => [field]
  | String c s' =>
      if Ascii.eqb c "," then field :: split_fields s' EmptyString
      else split_fields s' (field ++ String c EmptyString)%string
  end.

Fixpoint split_lines (s : string) (line : string) : list string :=
  match s with
  | EmptyString => match line with EmptyString => [] | _ => [line] end
  | String c s' =>
      if (nat_of_ascii c =? 10) then line :: split_lines s' EmptyString
      else split_lines s' (line ++ String c EmptyString)%string
  end.

Definition tokenize (text : string) : Result RawTable :=
  match split_lines text EmptyString with
  | [] => Raise (Exception ValueError "No columns to parse from file")
  | head :: rest =>
      Ok (mkRawTable (split_fields head EmptyString)
                     (map (fun l => split_fields l EmptyString) rest))
  end.

Definition newline : string := String (ascii_of_nat 10) EmptyString.

(** Joins lines into the text of a file. *)
Definition file (lines : list string) : string :=
  fold_right (fun l rest => (l ++ newline ++ rest)%string) EmptyString lines.

(** The first line of a text, with its line feed. *)
Fixpoint first_line (s : string) : string :=
  match s with
  | EmptyString => EmptyString
  | String c s' =>
      if (nat_of_ascii c =? 10) then String c EmptyString
      else String c (first_line s')
  end.

(** An export in the new format. *)
Definition new_export : string :=
  file ["Date,Type,Sub Type,Action,Symbol,Quantity,Value";
        "2024-01-05T10:00:00+0100,Money Movement,Deposit,,,,100.00"].

(** A world that holds [new_export] and whose transformer returns the
    table [transformed]. *)
Definition world_with (transformed : string) : World :=
  mkWorld (fun _ => Ok (first_line new_export))
          (fun _ => Ok new_export)
          (fun _ => Ok transformed).

(** A world whose file has the given first line and cannot be loaded. *)
Definition world_reading (line : string) : World :=
  mkWorld (fun _ => Ok line)
          (fun _ => Raise (Exception OSError "cannot read"))
          (fun _ => Raise (Exception ImportError "No module named 'tw_pnl'")).

(** A table with a deposit only: no symbol and no quantity. *)
Definition deposit_only : string :=
  file ["Date/Time,Transaction Code,Transaction Subcode,Symbol,Quantity,Amount";
        "2024-01-05,Money Movement,Deposit,,,100.0"].

(** A table with the columns Date/Time and Amount only. *)
Definition amounts_only : string :=
  file ["Date/Time,Amount"; "2024-01-05,0"].

(** A table with one trade dated 2030-01-01. *)
Definition trade_in_2030 : string :=
  file ["Date/Time,Transaction Code,Amount"; "2030-01-01,Trade,5"].

(** A single row with a zero amount. *)
Definition zero_amount_row (kind : string) : DataFrame :=
  mkDataFrame 1 [("Date/Time", mkSeries Datetime64 [Stamp 1700000000000000000]);
                 ("Transaction Code", mkSeries Object [Text kind]);
                 ("Amount", mkSeries Float64 [Num 0])].

(** Two rows of one symbol with the given quantities. *)
Definition two_quantities (symbol : string) (q1 q2 : cell) : DataFrame :=
  mkDataFrame 2 [("Symbol", mkSeries Object [Text symbol; Text symbol]);
                 ("Quantity", mkSeries Float64 [q1; q2])].

(** Three rows of AAPL whose second quantity is not a number. *)
Definition unparseable_quantity : DataFrame :=
  mkDataFrame 3 [("Symbol", mkSeries Object [Text "AAPL"; Text "AAPL"; Text "AAPL"]);
                 ("Quantity", mkSeries Object [Text "10"; Text "abc"; Text "20"])].

(** A table whose only record has a timestamp that is not a date. *)
Definition unparsed_dates : string :=
  file ["Date/Time,Amount"; "not a date,5"].

(** The frame of a table with a header and no record. *)
Definition empty_frame : DataFrame :=
  mkDataFrame 0 [("Date/Time", mkSeries Object []); ("Amount", mkSeries Object [])].

(** A frame with an Amount column and no Transaction Code column. *)
Definition frame_without_code : DataFrame :=
  mkDataFrame 1 [("Date/Time", mkSeries Datetime64 [Stamp 1700000000000000000]);
                 ("Amount", mkSeries Float64 [Num 0])].

(** Three rows whose kinds are A, B, B. *)
Definition kinds_frame : DataFrame :=
  mkDataFrame 3 [("Transaction Code", mkSeries Object [Text "A"; Text "B"; Text "B"])].

(** A frame whose Date/Time column was left as text by [read_csv]. *)
Definition unparsed_dates_frame : DataFrame :=
  mkDataFrame 1 [("Date/Time", mkSeries Object [Text "not a date"]);
                 ("Amount", mkSeries Int64 [Int 5])].

(** Five symbols: one in lower case twice, one missing. *)
Definition symbols_frame : DataFrame :=
  mkDataFrame 5 [("Symbol", mkSeries Object [Text "AAPL"; Text "aapl"; NA;
                                            Text "BTC/USD"; Text "aapl"])].

(** A Symbol column read from the fields TRUE and empty: an object
    column of a boolean and a missing entry. *)
Definition truth_symbols_frame : DataFrame :=
  mkDataFrame 2 [("Symbol", mkSeries Object [Boolean true; NA])].



(** Amounts of one million, of one million and one, and a missing one. *)
Definition large_frame : DataFrame :=
  mkDataFrame 3 [("Amount", mkSeries Float64 [Num (inject_Z 1000000);
                                              Num (inject_Z (-1000001)); NA]);
                 ("Transaction Code", mkSeries Object [Text "Trade"; Text "Trade";
                                                       Text "Trade"])].

(** The same amounts with the smallest [int64] in place of the missing
    one, in a column of integers. *)
Definition int_amounts_frame : DataFrame :=
  mkDataFrame 3 [("Amount", mkSeries Int64 [Int 1000000; Int (-1000001);
                                            Int int64_min]);
                 ("Transaction Code", mkSeries Object [Text "Trade"; Text "Trade";
                                                       Text "Trade"])].

(** A directory with one export, whose first line is [line]; every
    command succeeds. *)
Definition setup_world (line : string) : Setup.World :=
  Setup.mkWorld "python3" (fun _ => true) (fun _ => 0%Z) ["trades.csv"]
                (fun _ => true) (fun _ => Ok line) (fun _ _ => Ok tt)
                (fun _ => Ok (0%Z, EmptyString)) true (Ok []).

(** The frame loaded for the table with one trade in 2030. *)
Definition trade_frame : DataFrame :=
  Eval vm_compute in
    match Spec.loaded_frame tokenize parse_decimal parse_iso_date
                            (world_with trade_in_2030) "in.csv" with
    | Some d => d
    | None => empty_frame
    end.



(** An export whose first line holds legacy tokens only. *)
Definition legacy_export : string :=
  file ["Transaction Code,Amount"; "Trade,5"].

(** A world that holds the text [export] under every path. *)
Definition world_holding (export : string) : World :=
  mkWorld (fun _ => Ok (first_line export))
          (fun _ => Ok export)
          (fun _ => Raise (Exception ImportError "No module named 'tw_pnl'")).

End Examples.

(** * Properties *)

(** ** Substring search and stripping *)

Module PyStrFacts.

Import PyStr.

Lemma startswith_spec (p s : string) :
  startswith p s = true <-> exists post, s = (p ++ post)%string.
Proof.
  revert s; induction p as [|a p IH]; intros s; simpl.
  - split; [intros _; now exists s | reflexivity].
  - destruct s as [|c s].
    + split; [discriminate | intros [post H]; discriminate].
    + rewrite andb_true_iff, Ascii.eqb_eq, IH. split.
      * intros [-> [post ->]]. now exists post.
      * intros [post H]. injection H as -> ->. split; [reflexivity | now exists post].
Qed.

Lemma contains_spec (t s : string) :
  contains t s = true <-> Substring t s.
Proof.
  unfold Substring. induction s as [|c s IH]; simpl.
  - rewrite orb_false_r, startswith_spec. split.
    + intros [post H]. now exists EmptyString, post.
    + intros [pre [post H]]. destruct pre; [now exists post | discriminate].
  - rewrite orb_true_iff, startswith_spec, IH. split.
    + intros [[post H] | [pre [post H]]].
      * now exists EmptyString, post.
      * exists (String c pre), post. simpl. now rewrite H.
    + intros [pre [post H]]. destruct pre as [|a pre]; simpl in H.
      * left. now exists post.
      * right. injection H as _ H. now exists pre, post.
Qed.

Lemma contains_false (t s : string) :
  contains t s = false <-> ~ Substring t s.
Proof.
  rewrite <- contains_spec. destruct (contains t s); split; intros H;
    try reflexivity; try discriminate; now contradict H.
Qed.

Lemma startswith_space (t : string) (c : ascii) (s : string) :
  begins_nonspace t = true -> is_space c = true -> startswith t (String c s) = false.
Proof.
  destruct t as [|a t]; simpl; [discriminate|]. intros Ha Hc.
  destruct (Ascii.eqb_spec a c) as [->|]; [|reflexivity].
  rewrite Hc in Ha. discriminate.
Qed.

Lemma contains_lstrip (t s : string) :
  begins_nonspace t = true -> contains t (lstrip s) = contains t s.
Proof.
  intros Ht. induction s as [|c s IH]; [reflexivity|].
  cbn [lstrip]. destruct (is_space c) eqn:Hc; [|reflexivity].
  rewrite IH. cbn [contains]. now rewrite startswith_space.
Qed.

Lemma rstrip_cons (c : ascii) (s : string) :
  rstrip (String c s) =
  if (rstrip s =? "")%string && is_space c then EmptyString else String c (rstrip s).
Proof.
  cbn [rstrip]. destruct (rstrip s); simpl; [destruct (is_space c)|]; reflexivity.
Qed.

Lemma ends_nonspace_nonempty (t : string) : ends_nonspace t = true -> t <> EmptyString.
Proof. destruct t; [discriminate | discriminate]. Qed.

Lemma startswith_rstrip (t s : string) :
  ends_nonspace t = true -> startswith t (rstrip s) = startswith t s.
Proof.
  revert t; induction s as [|c s IH]; intros t Ht; [reflexivity|].
  rewrite rstrip_cons.
  destruct t as [|a t]; [discriminate|].
  destruct t as [|b t].
  - (* the last character of the token *)
    cbn [ends_nonspace] in Ht.
    destruct ((rstrip s =? "")%string && is_space c) eqn:E; simpl.
    + apply andb_true_iff in E as [_ Hc].
      destruct (Ascii.eqb_spec a c) as [->|]; [|reflexivity].
      rewrite Hc in Ht. discriminate.
    + reflexivity.
  - assert (Ht' : ends_nonspace (String b t) = true) by exact Ht.
    specialize (IH _ Ht').
    destruct ((rstrip s =? "")%string && is_space c) eqn:E.
    + apply andb_true_iff in E as [Hr _]. apply String.eqb_eq in Hr.
      rewrite Hr in IH. change (startswith (String b t) "") with false in IH.
      change (startswith (String a (String b t)) (String c s))
        with (Ascii.eqb a c && startswith (String b t) s).
      rewrite <- IH. now rewrite andb_false_r.
    + change (startswith (String a (String b t)) (String c (rstrip s)))
        with (Ascii.eqb a c && startswith (String b t) (rstrip s)).
      now rewrite IH.
Qed.

Lemma contains_empty (t : string) : t <> EmptyString -> contains t "" = false.
Proof. destruct t; [congruence | reflexivity]. Qed.

Lemma contains_rstrip (t s : string) :
  ends_nonspace t = true -> contains t (rstrip s) = contains t s.
Proof.
  intros Ht. pose proof (ends_nonspace_nonempty _ Ht) as Hne.
  induction s as [|c s IH]; [reflexivity|].
  pose proof (startswith_rstrip _ (String c s) Ht) as Hs.
  rewrite rstrip_cons in Hs |- *.
  destruct ((rstrip s =? "")%string && is_space c) eqn:E.
  - apply andb_true_iff in E as [Hr _]. apply String.eqb_eq in Hr.
    rewrite Hr in IH. rewrite contains_empty in IH |- * by assumption.
    cbn [contains]. rewrite <- IH, <- Hs.
    destruct t; [congruence | reflexivity].
  - cbn [contains]. now rewrite IH, Hs.
Qed.

(** Stripping the line does not change which tokens occur in it, for a
    token that neither begins nor ends with white space. *)
Lemma contains_strip (t s : string) :
  begins_nonspace t = true -> ends_nonspace t = true ->
  contains t (strip s) = contains t s.
Proof.
  intros Hb He. unfold strip. now rewrite contains_rstrip, contains_lstrip.
Qed.

End PyStrFacts.

(** ** Format detection *)

Module FormatFacts.

Import PyStr PyStrFacts Pandas Validator Spec.

Lemma any_header_in_spec (headers : list string) (line : string) :
  any_header_in headers line = true <-> matches headers line.
Proof.
  unfold any_header_in, matches. rewrite existsb_exists.
  split; intros [tok [Hin H]]; exists tok; split; auto; now apply contains_spec.
Qed.

Lemma any_header_in_strip (headers : list string) (line : string) :
  forallb clean_token headers = true ->
  any_header_in headers (strip line) = any_header_in headers line.
Proof.
  unfold any_header_in. induction headers as [|t headers IH]; [reflexivity|].
  cbn [forallb existsb]. intros H. apply andb_true_iff in H as [Ht Hs].
  apply andb_true_iff in Ht as [Hb He].
  now rewrite contains_strip, IH.
Qed.

Lemma detect_strip (line : string) :
  detect (strip line) =
  if any_header_in new_format_headers line then Some New
  else if any_header_in legacy_format_headers line then Some Legacy
  else None.
Proof.
  unfold detect. now rewrite !any_header_in_strip by reflexivity.
Qed.

Lemma not_matches (headers : list string) (line : string) :
  ~ matches headers line -> any_header_in headers line = false.
Proof.
  intros H. destruct (any_header_in headers line) eqn:E; [|reflexivity].
  now apply any_header_in_spec in E.
Qed.

(** C1.  Whatever first line the file has: when a token of the New set
    occurs in it, detection returns True and the recorded format is New;
    when none does and a token of the Legacy set occurs, detection
    returns True and the recorded format is Legacy; in both cases no
    error is recorded.  When no token of either set occurs, detection
    returns False, records no format and records the message about
    missing required headers, and the full run returns False with that
    single error, having made no call other than reading the first line,
    so no loading was attempted and no frame exists. *)
Theorem format_detection_order
        (tokenize : string -> Result RawTable) (parse_float : string -> float)
        (parse_datetime : list string -> option (list (Z * option Z)))
        (w : World) (now : Z) (path line : string) :
  readline w path = Ok line ->
  let started := record_call (CallReadline path) (init path) in
  let run := run_full_validation tokenize parse_float parse_datetime w now (init path) in
  let detection := validate_file_format w (init path) in
  (matches new_format_headers line ->
     detection = (Ok true, set_format_type New started) /\
     format_type (snd detection) = Some New /\
     errors (snd detection) = []) /\
  (~ matches new_format_headers line -> matches legacy_format_headers line ->
     detection = (Ok true, set_format_type Legacy started) /\
     format_type (snd detection) = Some Legacy /\
     errors (snd detection) = []) /\
  (~ matches new_format_headers line -> ~ matches legacy_format_headers line ->
     detection = (Ok false, append_error invalid_format started) /\
     format_type (snd detection) = None /\
     errors (snd detection) = [invalid_format] /\
     Substring "missing required headers" invalid_format /\
     fst run = Ok false /\
     errors (snd run) = [invalid_format] /\
     calls (snd run) = [CallReadline path] /\
     df (snd run) = None).
Proof.
  intros Hline started run detection.
  assert (Hv : detection =
               match detect (strip line) with
               | Some f => (Ok true, set_format_type f started)
               | None => (Ok false, append_error invalid_format started)
               end).
  { subst detection. unfold validate_file_format. cbn [csv_file record_call init].
    rewrite Hline. reflexivity. }
  rewrite detect_strip in Hv. clearbody detection.
  split; [|split].
  - intros Hn. apply any_header_in_spec in Hn. rewrite Hn in Hv. subst detection.
    repeat split; reflexivity.
  - intros Hn Hl. apply not_matches in Hn. apply any_header_in_spec in Hl.
    rewrite Hn, Hl in Hv. subst detection. repeat split; reflexivity.
  - intros Hn Hl. apply not_matches in Hn. apply not_matches in Hl.
    rewrite Hn, Hl in Hv. split; [exact Hv|].
    split; [now rewrite Hv|]. split; [now rewrite Hv|].
    split; [apply contains_spec; reflexivity|].
    subst run. unfold run_full_validation, bind, print_all.
    cbn [csv_file init emit stdout].
    match goal with
    | |- context [validate_file_format w ?st] =>
        assert (Hv' : validate_file_format w st =
                      (Ok false, append_error invalid_format
                                   (record_call (CallReadline path) st)))
    end.
    { unfold validate_file_format. cbn [csv_file record_call emit init].
      rewrite Hline, detect_strip, Hn, Hl. reflexivity. }
    rewrite Hv'. cbn. repeat split; reflexivity.
Qed.

End FormatFacts.

(** ** The check monad *)

Module CheckFacts.

Import Pandas Validator.

(** A check that ends normally. *)
Lemma andThen_ok {A B} (m : Check A) (k : A -> Check B) ws b :
  andThen m k = (ws, Ok b) ->
  exists w1 a w2, m = (w1, Ok a) /\ k a = (w2, Ok b) /\ ws = w1 ++ w2.
Proof.
  destruct m as [w1 [a|e]]; simpl; [|discriminate].
  destruct (k a) as [w2 r] eqn:Hk. intros H. injection H as <- ->.
  now exists w1, a, w2.
Qed.

Lemma andThen_ok_intro {A B} (m : Check A) (k : A -> Check B) w1 a w2 r :
  m = (w1, Ok a) -> k a = (w2, r) -> andThen m k = (w1 ++ w2, r).
Proof. intros -> H. simpl. now rewrite H. Qed.

Lemma andThen_eval {A B} (r : Result A) (k : A -> Check B) a :
  r = Ok a -> andThen (eval r) k = k a.
Proof. intros ->. unfold eval. simpl. now destruct (k a). Qed.

(** Every warning of a check satisfies [P] when every step does. *)
Lemma andThen_Forall {A B} (P : Warning -> Prop) (m : Check A) (k : A -> Check B) :
  Forall P (fst m) -> (forall a, Forall P (fst (k a))) ->
  Forall P (fst (andThen m k)).
Proof.
  destruct m as [w1 [a|e]]; simpl; intros H1 H2; [|assumption].
  specialize (H2 a). destruct (k a) as [w2 r]. simpl in *.
  apply Forall_app. now split.
Qed.

Lemma when_Forall (P : Warning -> Prop) (b : bool) (body : Check unit) :
  Forall P (fst body) -> Forall P (fst (when b body)).
Proof. destruct b; simpl; [trivial | constructor]. Qed.

Lemma for_each_Forall {A} (P : Warning -> Prop) (l : list A) (body : A -> Check unit) :
  (forall x, Forall P (fst (body x))) -> Forall P (fst (for_each l body)).
Proof.
  intros H. induction l as [|x l IH]; simpl; [constructor|].
  apply andThen_Forall; auto.
Qed.

Lemma eval_Forall {A} (P : Warning -> Prop) (r : Result A) : Forall P (fst (eval r)).
Proof. constructor. Qed.

Lemma warn_Forall (P : Warning -> Prop) (w : Warning) : P w -> Forall P (fst (warn w)).
Proof. intros H. simpl. now constructor. Qed.

Lemma andThen_returns {A B} (m : Check A) (k : A -> Check B) a b :
  snd m = Ok a -> snd (k a) = Ok b -> snd (andThen m k) = Ok b.
Proof.
  destruct m as [w1 r]. simpl. intros -> H. destruct (k a) as [w2 r2]. exact H.
Qed.

Lemma when_returns (b : bool) (body : Check unit) :
  snd body = Ok tt -> snd (when b body) = Ok tt.
Proof. destruct b; [trivial | reflexivity]. Qed.

Lemma for_each_returns {A} (l : list A) (body : A -> Check unit) :
  (forall x, snd (body x) = Ok tt) -> snd (for_each l body) = Ok tt.
Proof.
  intros H. induction l as [|x l IH]; [reflexivity|].
  simpl. now apply andThen_returns with (a := tt).
Qed.

Ltac check_forall :=
  repeat first
    [ apply andThen_Forall; [|intros ?]
    | apply when_Forall
    | apply for_each_Forall; intros ?
    | apply eval_Forall
    | apply warn_Forall; simpl; trivial
    | match goal with |- Forall _ (fst (let _ := _ in _)) => cbv zeta end ].

(** A loop whose iterations all end normally. *)
Lemma for_each_ok {A} (l : list A) (body : A -> Check unit) :
  (forall x, In x l -> snd (body x) = Ok tt) ->
  for_each l body = (flat_map (fun x => fst (body x)) l, Ok tt).
Proof.
  induction l as [|x l IH]; intros H; [reflexivity|].
  simpl. pose proof (H x (or_introl eq_refl)) as Hx.
  destruct (body x) as [w1 r]. simpl in Hx. subst r.
  rewrite IH by (intros y Hy; apply H; now right). reflexivity.
Qed.

Lemma count_true_and_mask {A B} (f : A -> bool) (g : B -> bool) xs ys :
  count_true (and_mask (map f xs) (map g ys)) =
  length (filter (fun row => f (fst row) && g (snd row)) (combine xs ys)).
Proof.
  revert ys; induction xs as [|x xs IH]; intros [|y ys]; try reflexivity.
  unfold count_true in *. simpl. destruct (f x && g y); simpl; now rewrite IH.
Qed.

Lemma count_true_map {A} (f : A -> bool) xs :
  count_true (map f xs) = length (filter f xs).
Proof.
  unfold count_true. induction xs as [|x xs IH]; [reflexivity|].
  simpl. destruct (f x); simpl; now rewrite IH.
Qed.

End CheckFacts.

(** ** The quality rules *)

Module QualityFacts.

Import Pandas Validator Spec CheckFacts Examples.

Lemma has_column_lookup col d s :
  lookup col (columns d) = Some s -> has_column col d = true /\ getitem d col = Ok s.
Proof. unfold has_column, getitem. now intros ->. Qed.

Lemma lookup_none col d :
  lookup col (columns d) = None ->
  has_column col d = false /\ getitem d col = Raise (Exception KeyError (quote col)).
Proof. unfold has_column, getitem. now intros ->. Qed.

Section Rules.

Variable parse_float : string -> float.

Lemma large_count (amount : Series) :
  count_true (abs_gt_million (to_numeric parse_float amount)) =
  large_amount_rows parse_float amount.
Proof. reflexivity. Qed.

Lemma amount_of_coerce (c : cell) : amount_of parse_float c = coerce parse_float c.
Proof. destruct c as [ | | | | | |[|]| ]; reflexivity. Qed.

(** The entries of a column that [to_numeric] keeps as integers, read
    as floats. *)
Lemma all_ints_coerce (l : list cell) (zs : list Z) :
  all_ints l = Some zs ->
  map (coerce parse_float) l = map (fun z => Fin (inject_Z z)) zs.
Proof.
  revert zs. induction l as [|c l IH]; intros zs H; simpl in H.
  - now injection H as <-.
  - destruct c; try discriminate;
      destruct (all_ints l) as [zs'|]; try discriminate;
      injection H as <-; simpl; now rewrite (IH zs' eq_refl).
Qed.

Lemma zero_amount_spec (x : float) : zero_amount x = true <-> is_zero x.
Proof.
  unfold is_zero. destruct x as [|q|b]; simpl.
  - split; [discriminate | intros (q & H & _); discriminate].
  - rewrite Z.eqb_eq. split.
    + intros H. exists q. split; [reflexivity|]. unfold Qeq. simpl. lia.
    + intros (p & H & Hp). injection H as ->. unfold Qeq in Hp. simpl in Hp. lia.
  - split; [discriminate | intros (q & H & _); discriminate].
Qed.

Lemma zero_amount_eq0 (x : float) : zero_amount x = float_eq0 x.
Proof.
  apply eq_true_iff_eq. rewrite zero_amount_spec. unfold is_zero.
  destruct x as [|q|b]; simpl.
  - split; [intros (q & H & _); discriminate | discriminate].
  - rewrite Qeq_bool_iff. split.
    + intros (p & H & Hp). now injection H as ->.
    + intros H. now exists q.
  - split; [intros (q & H & _); discriminate | discriminate].
Qed.

(** [amounts == 0], entry by entry, whatever array [to_numeric] gave. *)
Lemma eq_zero_to_numeric (s : Series) :
  eq_zero (to_numeric parse_float s) =
  map (fun c => zero_amount (amount_of parse_float c)) (values s).
Proof.
  assert (Hf : eq_zero (Floats (map (coerce parse_float) (values s))) =
               map (fun c => zero_amount (amount_of parse_float c)) (values s)).
  { simpl. rewrite map_map. apply map_ext. intros c.
    now rewrite zero_amount_eq0, amount_of_coerce. }
  assert (Hi : forall zs, all_ints (values s) = Some zs ->
               eq_zero (Ints zs) =
               map (fun c => zero_amount (amount_of parse_float c)) (values s)).
  { intros zs H. simpl.
    rewrite <- (map_map (amount_of parse_float) zero_amount).
    rewrite (map_ext _ _ amount_of_coerce), (all_ints_coerce _ _ H), map_map.
    reflexivity. }
  unfold to_numeric.
  destruct (dtype s); try exact Hf;
    (destruct (all_ints (values s)) as [zs|] eqn:E; [now apply Hi | exact Hf]).
Qed.

Lemma zero_count (amount code : Series) :
  count_true (and_mask (eq_zero (to_numeric parse_float amount))
                       (map negb (isin code receive_deliver))) =
  unexplained_zero_rows parse_float amount code.
Proof.
  rewrite eq_zero_to_numeric. unfold isin, receive_deliver. rewrite map_map.
  rewrite (count_true_and_mask (fun c => zero_amount (amount_of parse_float c))
             (fun c => negb (existsb (cell_eqb c) [Text "Receive Deliver"]))).
  unfold unexplained_zero_rows.
  f_equal. apply filter_ext. intros [a k]. simpl. f_equal.
  destruct k; reflexivity || (simpl; now rewrite orb_false_r).
Qed.

(** Lines 90-102 when both columns exist. *)
Lemma check_amounts_present d amount code :
  lookup "Amount" (columns d) = Some amount ->
  lookup "Transaction Code" (columns d) = Some code ->
  check_amounts parse_float d =
  (one_if (large_amount_rows parse_float amount)
          (LargeAmounts (large_amount_rows parse_float amount))
   ++ one_if (unexplained_zero_rows parse_float amount code)
             (ZeroAmounts (unexplained_zero_rows parse_float amount code)),
   Ok tt).
Proof.
  intros Ha Hc.
  destruct (has_column_lookup _ _ _ Ha) as [Ha1 Ha2].
  destruct (has_column_lookup _ _ _ Hc) as [_ Hc2].
  unfold check_amounts. rewrite Ha1. cbn [when].
  rewrite (andThen_eval _ _ _ Ha2). cbv zeta.
  rewrite large_count. unfold one_if.
  rewrite (andThen_eval _ _ _ Hc2), zero_count.
  destruct (0 <? large_amount_rows parse_float amount);
    destruct (0 <? unexplained_zero_rows parse_float amount code); reflexivity.
Qed.

(** Lines 90-102 when [Amount] exists and [Transaction Code] does
    not: the lookup in line 100 raises. *)
Lemma check_amounts_without_code d amount :
  lookup "Amount" (columns d) = Some amount ->
  lookup "Transaction Code" (columns d) = None ->
  check_amounts parse_float d =
  (one_if (large_amount_rows parse_float amount)
          (LargeAmounts (large_amount_rows parse_float amount)),
   Raise (Exception KeyError "'Transaction Code'")).
Proof.
  intros Ha Hc.
  destruct (has_column_lookup _ _ _ Ha) as [Ha1 Ha2].
  destruct (lookup_none _ _ Hc) as [_ Hc2].
  unfold check_amounts. rewrite Ha1. cbn [when].
  rewrite (andThen_eval _ _ _ Ha2). cbv zeta.
  rewrite large_count. unfold one_if.
  rewrite Hc2.
  destruct (0 <? large_amount_rows parse_float amount); reflexivity.
Qed.

Lemma check_missing_other d : Forall not_zero_amounts (fst (check_missing d)).
Proof. unfold check_missing. check_forall. Qed.

Lemma check_dates_other now d : Forall not_zero_amounts (fst (check_dates now d)).
Proof. unfold check_dates. check_forall. Qed.

Lemma check_symbols_other d : Forall not_zero_amounts (fst (check_symbols d)).
Proof. unfold check_symbols. check_forall. Qed.

Lemma not_in_other n ws :
  Forall not_zero_amounts ws -> ~ In (ZeroAmounts n) ws.
Proof.
  intros H Hin. rewrite Forall_forall in H. exact (H _ Hin).
Qed.

(** The four blocks of a quality check that ends normally. *)
Lemma data_quality_checks_ok now d ws :
  data_quality_checks parse_float now d = (ws, Ok tt) ->
  exists w1 w2 w3 w4,
    check_missing d = (w1, Ok tt) /\ check_dates now d = (w2, Ok tt) /\
    check_amounts parse_float d = (w3, Ok tt) /\ check_symbols d = (w4, Ok tt) /\
    ws = w1 ++ w2 ++ w3 ++ w4.
Proof.
  unfold data_quality_checks. intros H.
  apply andThen_ok in H as (w1 & [] & r1 & H1 & H & ->).
  apply andThen_ok in H as (w2 & [] & r2 & H2 & H & ->).
  apply andThen_ok in H as (w3 & [] & w4 & H3 & H4 & ->).
  now exists w1, w2, w3, w4.
Qed.


Lemma check_missing_returns d : snd (check_missing d) = Ok tt.
Proof.
  unfold check_missing. apply for_each_returns. intros col.
  unfold has_column, getitem. destruct (lookup col (columns d)) as [s|]; [|reflexivity].
  cbn [when]. apply andThen_returns with (a := s); [reflexivity|].
  cbv zeta. now apply when_returns.
Qed.



Lemma kinds_dropna (l : list cell) :
  kinds (filter (fun c => negb (isna c)) l) = kinds l.
Proof.
  induction l as [|c l IH]; [reflexivity|].
  destruct c; simpl; now rewrite IH.
Qed.

Lemma no_strings_dropna (s : Series) :
  no_strings (values (dropna s)) = no_strings (values s).
Proof. unfold no_strings, dropna. cbn [values]. now rewrite kinds_dropna. Qed.

Lemma kinds_cons (c : cell) (l : list cell) : kinds (c :: l) = kinds [c] ++ kinds l.
Proof. unfold kinds. cbn [flat_map]. now rewrite app_nil_r. Qed.

Lemma kinds_all (k : kind) (l : list cell) :
  forallb (kind_eqb k) (kinds l) = true <->
  forall c, In c l -> c = NA \/ has_kind k c.
Proof.
  induction l as [|c l IH].
  - split; [intros _ c [] | reflexivity].
  - rewrite kinds_cons, forallb_app, andb_true_iff, IH. split.
    + intros [Hc Hl] x [<-|Hx]; [|now apply Hl].
      destruct c, k; simpl in Hc; try discriminate; (now left) || (right; exact I).
    + intros H. split; [|intros x Hx; apply H; now right].
      destruct (H c (or_introl eq_refl)) as [->|Hk]; [reflexivity|].
      destruct c, k; simpl in Hk; try contradiction; reflexivity.
Qed.

Lemma kinds_nil (l : list cell) : kinds l = [] <-> forall c, In c l -> c = NA.
Proof.
  induction l as [|c l IH].
  - split; [intros _ c [] | reflexivity].
  - rewrite kinds_cons. split.
    + intros H. apply app_eq_nil in H as [Hc Hl].
      intros x [<-|Hx]; [now destruct c | now apply IH].
    + intros H. rewrite (H c (or_introl eq_refl)). simpl.
      apply IH. intros x Hx. apply H. now right.
Qed.

Lemma kind_eqb_eq (a b : kind) : kind_eqb a b = true <-> a = b.
Proof. destruct a, b; simpl; split; congruence. Qed.

(** The [.str] accessor is refused on an object column exactly when the
    column holds entries and none of them is a string. *)
Lemma no_strings_spec (l : list cell) : no_strings l = true <-> without_strings l.
Proof.
  unfold no_strings, without_strings. split.
  - destruct (kinds l) as [|k ks] eqn:E; [discriminate|].
    rewrite andb_true_iff, negb_true_iff. intros [Hk Hall]. split.
    + destruct (kinds_nil l) as [_ Hnil].
      assert (Hex : ~ forall c, In c l -> c = NA)
        by (intros H; rewrite (Hnil H) in E; discriminate).
      clear - Hex. induction l as [|c l IH]; [exfalso; apply Hex; intros c []|].
      destruct c; try (eexists; split; [now left | discriminate]).
      destruct IH as (c & Hc & Hn).
      * intros H. apply Hex. intros x [<-|Hx]; [reflexivity | now apply H].
      * exists c. split; [now right | exact Hn].
    + exists k. split; [intros ->; discriminate|].
      apply kinds_all. rewrite E. simpl. rewrite Hall.
      now replace (kind_eqb k k) with true by (now destruct k).
  - intros [(c & Hc & Hn) (k & Hk & Hall)].
    apply kinds_all in Hall.
    destruct (kinds l) as [|k' ks] eqn:E.
    + destruct (kinds_nil l) as [Hnil _]. now specialize (Hnil E c Hc).
    + simpl in Hall. apply andb_true_iff in Hall as [H1 H2].
      apply kind_eqb_eq in H1. subst k'. rewrite H2.
      now destruct k.
Qed.

Lemma no_strings_false (l : list cell) : no_strings l = false <-> ~ without_strings l.
Proof.
  rewrite <- no_strings_spec. destruct (no_strings l); split; congruence.
Qed.



(** C6.  In a quality check that ends normally on a frame with the
    columns Amount and Transaction Code, a zero-amount warning is
    emitted exactly when some row has amount 0 and a kind other than
    "Receive Deliver", and it carries the count of those rows; a row
    is counted exactly when its amount is a number equal to zero and its
    kind is not the string "Receive Deliver".  So a single row with
    amount 0 and kind "Trade" gives the warning with count 1, and the
    same row with kind "Receive Deliver" gives no zero-amount
    warning. *)
Theorem zero_amount_rule now d amount code ws :
  lookup "Amount" (columns d) = Some amount ->
  lookup "Transaction Code" (columns d) = Some code ->
  data_quality_checks parse_float now d = (ws, Ok tt) ->
  (forall m, In (ZeroAmounts m) ws <->
             m = unexplained_zero_rows parse_float amount code /\ 0 < m) /\
  (forall a k, zero_amount (amount_of parse_float a) && not_receive_deliver k = true <->
               is_zero (amount_of parse_float a) /\ k <> Text "Receive Deliver") /\
  (forall a, values amount = [a] -> is_zero (amount_of parse_float a) ->
     (values code = [Text "Trade"] -> In (ZeroAmounts 1) ws) /\
     (values code = [Text "Receive Deliver"] -> forall m, ~ In (ZeroAmounts m) ws)).
Proof.
  intros Ha Hc Hrun.
  apply data_quality_checks_ok in Hrun as (w1 & w2 & w3 & w4 & H1 & H2 & H3 & H4 & ->).
  rewrite (check_amounts_present _ _ _ Ha Hc) in H3. injection H3 as <-.
  pose proof (check_missing_other d) as F1. rewrite H1 in F1.
  pose proof (check_dates_other now d) as F2. rewrite H2 in F2.
  pose proof (check_symbols_other d) as F4. rewrite H4 in F4.
  simpl in F1, F2, F4.
  set (n := unexplained_zero_rows parse_float amount code).
  assert (Hmain : forall m,
             In (ZeroAmounts m)
                (w1 ++ w2 ++
                 (one_if (large_amount_rows parse_float amount)
                         (LargeAmounts (large_amount_rows parse_float amount))
                  ++ one_if n (ZeroAmounts n)) ++ w4) <-> m = n /\ 0 < m).
  { intros m. rewrite !in_app_iff. unfold one_if. split.
    - intros [H | [H | [[H | H] | H]]].
      + now apply not_in_other in H.
      + now apply not_in_other in H.
      + destruct (0 <? large_amount_rows parse_float amount);
          simpl in H; [destruct H as [H|[]]; discriminate | destruct H].
      + destruct (0 <? n) eqn:E; simpl in H; [|destruct H].
        destruct H as [H|[]]. injection H as <-.
        apply Nat.ltb_lt in E. now split.
      + now apply not_in_other in H.
    - intros [-> Hpos]. right. right. left. right.
      apply Nat.ltb_lt in Hpos. rewrite Hpos. now left. }
  split; [exact Hmain|]. split.
  { intros a k. rewrite andb_true_iff, zero_amount_spec.
    apply and_iff_compat_l. unfold not_receive_deliver.
    destruct k as [ | | |s| | | | ]; try (split; [discriminate | reflexivity]).
    rewrite negb_true_iff. split.
    - intros H E. injection E as ->. now rewrite String.eqb_refl in H.
    - intros H. apply String.eqb_neq. intros ->. now apply H. }
  intros a Hvals Hzero. apply zero_amount_spec in Hzero. split.
  - intros Hk. apply Hmain. subst n. unfold unexplained_zero_rows.
    rewrite Hvals, Hk. simpl. rewrite Hzero. simpl. split; [reflexivity | lia].
  - intros Hk m Hin. apply Hmain in Hin as [-> Hpos]. subst n.
    unfold unexplained_zero_rows in Hpos. rewrite Hvals, Hk in Hpos.
    simpl in Hpos. rewrite Hzero in Hpos. simpl in Hpos. lia.
Qed.

End Rules.

(** C5.  On a frame that has an Amount column and no Transaction Code
    column the quality check does not skip the zero-amount rule: the
    lookup of the missing column in line 100 raises KeyError, and
    [validate_data_quality] propagates the exception instead of
    returning. *)
Theorem quality_check_raises_without_code
        (parse_float : string -> float) (now : Z) (path : string) :
  snd (data_quality_checks parse_float now frame_without_code) =
    Raise (Exception KeyError "'Transaction Code'") /\
  fst (validate_data_quality parse_float now (set_df frame_without_code (init path))) =
    Raise (Exception KeyError "'Transaction Code'").
Proof.
  assert (H : snd (data_quality_checks parse_float now frame_without_code) =
              Raise (Exception KeyError "'Transaction Code'")).
  { unfold data_quality_checks.
    rewrite (check_amounts_without_code parse_float frame_without_code
               (mkSeries Float64 [Num 0]) eq_refl eq_refl).
    destruct (Z.ltb now 1700000000000000000) eqn:E;
      unfold check_dates, gt_datetime; simpl; rewrite E; reflexivity. }
  split; [exact H|].
  unfold validate_data_quality, run_check. cbn [df set_df].
  destruct (data_quality_checks parse_float now frame_without_code) as [ws r].
  simpl in H. now subst r.
Qed.

End QualityFacts.

(** ** The consistency check *)

Module ConsistencyFacts.

Import Pandas Validator Spec CheckFacts QualityFacts Examples.

(** *** First appearances *)

Lemma unique_acc_in seen l c : In c (unique_acc seen l) -> In c l.
Proof.
  revert seen; induction l as [|x l IH]; intros seen; simpl; [tauto|].
  destruct (existsb (cell_eqb x) seen).
  - intros H. right. eapply IH, H.
  - intros [H|H]; [now left | right; eapply IH, H].
Qed.

Lemma unique_acc_complete seen l c :
  In c l -> cell_eqb c c = true ->
  existsb (cell_eqb c) seen = true \/
  exists c', In c' (unique_acc seen l) /\ cell_eqb c c' = true.
Proof.
  revert seen; induction l as [|x l IH]; intros seen; simpl; [tauto|].
  intros [->|Hin] Hrefl.
  - destruct (existsb (cell_eqb c) seen); [now left|].
    right. exists c. split; [now left | assumption].
  - destruct (existsb (cell_eqb x) seen).
    + now apply IH.
    + destruct (IH (x :: seen) Hin Hrefl) as [H | (c' & H1 & H2)].
      * simpl in H. apply orb_true_iff in H as [H|H]; [|now left].
        right. exists x. split; [now left | assumption].
      * right. exists c'. split; [now right | assumption].
Qed.

Lemma unique_in l c : In c (unique l) -> In c l.
Proof. apply unique_acc_in. Qed.

Lemma unique_text l t : In (Text t) l -> In (Text t) (unique l).
Proof.
  intros H.
  destruct (unique_acc_complete [] l (Text t) H (String.eqb_refl t))
    as [H' | (c' & H1 & H2)]; [discriminate|].
  destruct c'; try discriminate. simpl in H2. apply String.eqb_eq in H2.
  now subst.
Qed.

Lemma dropna_text (s : Series) t : In (Text t) (values (dropna s)) <-> In (Text t) (values s).
Proof.
  unfold dropna. cbn [values]. rewrite filter_In. simpl. tauto.
Qed.

(** *** Whole and fractional quantities *)

Lemma has_fraction_whole (q : Q) :
  has_fraction q = false <-> exists z : Z, Qeq q (inject_Z z).
Proof.
  unfold has_fraction. rewrite negb_false_iff, Qeq_bool_iff. split.
  - intros H. now exists (Qfloor q).
  - intros [z H]. rewrite H at 1. now rewrite H, Qfloor_Z.
Qed.

Lemma fractional_counted (x : float) : fractional x = counted x.
Proof.
  destruct x as [|q|b]; try reflexivity.
  unfold fractional, float_ne0, float_mod1, float_eq0, counted, has_fraction.
  f_equal. apply eq_true_iff_eq. rewrite !Qeq_bool_iff.
  split; intros H.
  - rewrite <- (Qplus_0_l (inject_Z (Qfloor q))), <- H. ring.
  - rewrite H at 1. ring.
Qed.

(** *** The rows that are counted *)

Section Groups.

Variable parse_float : string -> float.

Lemma select_filter {A B} (f : A -> bool) (g : B -> bool) xs ys :
  length (filter g (select ys (map f xs))) =
  length (filter (fun row => f (fst row) && g (snd row)) (combine xs ys)).
Proof.
  revert ys; induction xs as [|x xs IH]; intros [|y ys]; try reflexivity.
  simpl. destruct (f x); simpl; [destruct (g y); simpl|]; now rewrite IH.
Qed.

Lemma whole_not_fractional (z : Z) : fractional (Fin (inject_Z z)) = false.
Proof.
  rewrite fractional_counted. cbn [counted]. apply has_fraction_whole.
  now exists z.
Qed.

(** [quantities % 1 != 0], entry by entry, whatever array [to_numeric]
    gave: an integer is never counted, and the float of an integer is
    not either. *)
Lemma mod1_ne0_to_numeric (q : Series) :
  mod1_ne0 (to_numeric parse_float q) =
  map (fun c => fractional (coerce parse_float c)) (values q).
Proof.
  assert (Hf : mod1_ne0 (Floats (map (coerce parse_float) (values q))) =
               map (fun c => fractional (coerce parse_float c)) (values q)).
  { simpl. now rewrite map_map. }
  assert (Hi : forall zs, all_ints (values q) = Some zs ->
               mod1_ne0 (Ints zs) =
               map (fun c => fractional (coerce parse_float c)) (values q)).
  { intros zs H. simpl.
    rewrite <- (map_map (coerce parse_float) fractional).
    rewrite (all_ints_coerce _ _ _ H), map_map.
    apply map_ext. intros z. now rewrite whole_not_fractional. }
  unfold to_numeric.
  destruct (dtype q); try exact Hf;
    (destruct (all_ints (values q)) as [zs|] eqn:E; [now apply Hi | exact Hf]).
Qed.

Lemma group_count (s q : Series) (symbol : cell) :
  count_true (mod1_ne0 (to_numeric parse_float (mask_series q (eq_scalar s symbol)))) =
  group_rows parse_float counted (values s) (values q) symbol.
Proof.
  rewrite mod1_ne0_to_numeric.
  unfold mask_series, eq_scalar, group_rows. cbn [values].
  rewrite count_true_map.
  rewrite (select_filter (fun c => cell_eqb c symbol)
             (fun c => fractional (coerce parse_float c))).
  f_equal. apply filter_ext. intros [a b]. simpl. now rewrite fractional_counted.
Qed.

(** The consistency check on a frame whose symbols are strings. *)
Lemma consistency_checks_strings d s q :
  lookup "Symbol" (columns d) = Some s ->
  lookup "Quantity" (columns d) = Some q ->
  string_symbols s ->
  consistency_checks parse_float d =
  (flat_map (symbol_warnings parse_float s q) (unique (values (dropna s))), Ok tt).
Proof.
  intros Hs Hq Hstr.
  destruct (has_column_lookup _ _ _ Hs) as [Hs1 Hs2].
  destruct (has_column_lookup _ _ _ Hq) as [Hq1 Hq2].
  unfold consistency_checks. rewrite Hs1, Hq1. cbn [andb when].
  rewrite (andThen_eval _ _ _ Hs2).
  match goal with |- for_each _ ?b = _ => set (body := b) end.
  assert (Hbody : forall symbol, In symbol (unique (values (dropna s))) ->
            body symbol = (symbol_warnings parse_float s q symbol, Ok tt)).
  { intros symbol Hin. apply unique_in in Hin.
    unfold dropna in Hin. cbn [values] in Hin. apply filter_In in Hin as [Hin Hna].
    destruct (Hstr _ Hin) as [-> | [t ->]]; [discriminate|].
    subst body. cbv beta zeta.
    cbn [as_str]. rewrite (andThen_eval (Ok t) _ t eq_refl). unfold symbol_warnings.
    destruct (PyStr.endswith t "/USD"); cbn [negb when]; [reflexivity|].
    rewrite (andThen_eval _ _ _ Hq2). rewrite group_count.
    unfold one_if. destruct (0 <? _); reflexivity. }
  clearbody body.
  rewrite for_each_ok.
  - f_equal. induction (unique (values (dropna s))) as [|x l IH];
      [reflexivity|]. cbn [flat_map]. rewrite Hbody by now left.
    cbn [fst]. f_equal. apply IH. intros y Hy. apply Hbody. now right.
  - intros x Hx. now rewrite Hbody.
Qed.

Lemma in_one_if n w w' : In w' (one_if n w) <-> w' = w /\ 0 < n.
Proof.
  unfold one_if. destruct (0 <? n) eqn:E; simpl.
  - apply Nat.ltb_lt in E. intuition congruence.
  - apply Nat.ltb_ge in E. split; [tauto | intros [_ H]; lia].
Qed.

Lemma in_symbol_warnings s q symbol name n :
  In (FractionalQuantities name n) (symbol_warnings parse_float s q symbol) <->
  symbol = Text name /\ PyStr.endswith name "/USD" = false /\
  n = group_rows parse_float counted (values s) (values q) (Text name) /\ 0 < n.
Proof.
  unfold symbol_warnings.
  destruct symbol as [| | |t| | | |];
    try (cbn [In]; split; [tauto | intros [H _]; discriminate]).
  destruct (PyStr.endswith t "/USD") eqn:E.
  - cbn [In]. split; [tauto|]. intros (H & H' & _). injection H as ->. congruence.
  - rewrite in_one_if. split.
    + intros [H Hpos]. injection H as -> ->. auto.
    + intros (H & _ & -> & Hpos). injection H as ->. auto.
Qed.

(** The warnings of the consistency check on a frame whose symbols are
    strings. *)
Lemma consistency_warnings d s q :
  lookup "Symbol" (columns d) = Some s ->
  lookup "Quantity" (columns d) = Some q ->
  string_symbols s ->
  snd (consistency_checks parse_float d) = Ok tt /\
  forall name n,
    In (FractionalQuantities name n) (fst (consistency_checks parse_float d)) <->
    In (Text name) (values s) /\ PyStr.endswith name "/USD" = false /\
    n = group_rows parse_float counted (values s) (values q) (Text name) /\ 0 < n.
Proof.
  intros Hs Hq Hstr.
  rewrite (consistency_checks_strings d s q Hs Hq Hstr). cbn [fst snd].
  split; [reflexivity|]. intros name n. rewrite in_flat_map. split.
  - intros (symbol & Hin & Hw). apply in_symbol_warnings in Hw as (-> & Hu & Hn & Hpos).
    apply unique_in in Hin. apply (proj1 (dropna_text _ _)) in Hin.
    repeat split; assumption.
  - intros (Hin & Hu & Hn & Hpos). exists (Text name). split.
    + apply unique_text. now apply (proj2 (dropna_text _ _)).
    + now apply in_symbol_warnings.
Qed.

(** C7, as amended.  On a frame whose symbols are strings the
    consistency check ends normally, and it warns for a symbol with
    the count [n] exactly when the symbol occurs in the frame, does
    not end in "/USD", and [n > 0] rows of the symbol have a quantity
    that is missing, unparseable, infinite or not a whole number.
    For AAPL with quantities 10 and 10.5 the only warning names AAPL
    with count 1; for BTC/USD with the same quantities there is no
    warning. *)
Theorem fractional_quantity_rule d s q :
  lookup "Symbol" (columns d) = Some s ->
  lookup "Quantity" (columns d) = Some q ->
  string_symbols s ->
  (snd (consistency_checks parse_float d) = Ok tt /\
   forall name n,
     In (FractionalQuantities name n) (fst (consistency_checks parse_float d)) <->
     In (Text name) (values s) /\ PyStr.endswith name "/USD" = false /\
     n = group_rows parse_float counted (values s) (values q) (Text name) /\ 0 < n) /\
  consistency_checks parse_float
    (two_quantities "AAPL" (Num (inject_Z 10)) (Num (Qmake 21 2))) =
    ([FractionalQuantities "AAPL" 1], Ok tt) /\
  consistency_checks parse_float
    (two_quantities "BTC/USD" (Num (inject_Z 10)) (Num (Qmake 21 2))) =
    ([], Ok tt).
Proof.
  intros Hs Hq Hstr. split; [|split; reflexivity].
  now apply consistency_warnings.
Qed.

Lemma combine_middle {A B} (xs1 xs2 : list A) (ys1 ys2 : list B) x y :
  length xs1 = length ys1 ->
  combine (xs1 ++ x :: xs2) (ys1 ++ y :: ys2) =
  combine xs1 ys1 ++ (x, y) :: combine xs2 ys2.
Proof.
  revert ys1; induction xs1 as [|a xs1 IH]; intros [|b ys1] H;
    try discriminate; [reflexivity|].
  simpl. f_equal. apply IH. now injection H.
Qed.

(** C10.  A row whose symbol does not end in "/USD" and whose
    quantity is coerced to NaN is counted by the fractional-quantity
    rule: the warning for its symbol is emitted, and its count is one
    more than the counts of the rows before and after that row. *)
Theorem unparseable_quantity_counts d s q before_s after_s before_q after_q name c :
  lookup "Symbol" (columns d) = Some s ->
  lookup "Quantity" (columns d) = Some q ->
  string_symbols s ->
  values s = before_s ++ Text name :: after_s ->
  values q = before_q ++ c :: after_q ->
  length before_s = length before_q ->
  PyStr.endswith name "/USD" = false ->
  coerce parse_float c = NaN ->
  snd (consistency_checks parse_float d) = Ok tt /\
  In (FractionalQuantities name
        (group_rows parse_float counted before_s before_q (Text name) + 1
         + group_rows parse_float counted after_s after_q (Text name)))
     (fst (consistency_checks parse_float d)).
Proof.
  intros Hs Hq Hstr Hvs Hvq Hlen Hu Hnan.
  destruct (consistency_warnings d s q Hs Hq Hstr) as [Hok Hiff].
  split; [exact Hok|]. apply Hiff.
  assert (Hcount : group_rows parse_float counted (values s) (values q) (Text name) =
                   group_rows parse_float counted before_s before_q (Text name) + 1
                   + group_rows parse_float counted after_s after_q (Text name)).
  { unfold group_rows. rewrite Hvs, Hvq, combine_middle by assumption.
    rewrite filter_app, length_app. cbn [filter fst snd cell_eqb].
    rewrite String.eqb_refl, Hnan. cbn [counted andb length]. lia. }
  repeat split.
  - rewrite Hvs. apply in_or_app. right. now left.
  - exact Hu.
  - now rewrite Hcount.
  - lia.
Qed.

End Groups.

(** C7, the claim as stated fails.  For AAPL with the quantities 10
    and missing, no row has a quantity with a non-zero fractional part,
    yet the check warns about fractional quantities with count 1. *)
Lemma fractional_rule_counts_missing :
  group_rows parse_decimal has_fractional_part
             [Text "AAPL"; Text "AAPL"] [Num (inject_Z 10); NA] (Text "AAPL") = 0 /\
  consistency_checks parse_decimal (two_quantities "AAPL" (Num (inject_Z 10)) NA) =
    ([FractionalQuantities "AAPL" 1], Ok tt).
Proof. split; reflexivity. Qed.

End ConsistencyFacts.

(** ** Counting values *)

Module CountFacts.

Import Pandas Spec.

Lemma cell_eqb_sym (a b : cell) : cell_eqb a b = cell_eqb b a.
Proof.
  destruct a as [|p|m|s|s|y|m|s o], b as [|q|n|t|t|z|n|t o'];
    simpl; try reflexivity.
  - apply eq_true_iff_eq. rewrite !Qeq_bool_iff. split; intros H; now symmetry.
  - now destruct m, n.
  - apply String.eqb_sym.
  - apply Z.eqb_sym.
  - apply Z.eqb_sym.
  - now destruct m, n.
  - apply Z.eqb_sym.
Qed.

Lemma cell_eqb_trans (a b c : cell) :
  cell_eqb a b = true -> cell_eqb b c = true -> cell_eqb a c = true.
Proof.
  destruct a as [|p|m|s|s|y|m|s o], b as [|q|n|t|t|z|n|t o'];
    simpl; try discriminate;
    destruct c as [|r|k|u|u|x|k|u o'']; simpl; try discriminate.
  - rewrite !Qeq_bool_iff. intros H1 H2. now rewrite H1.
  - destruct m, n, k; simpl; congruence.
  - rewrite !String.eqb_eq. congruence.
  - rewrite !Z.eqb_eq. congruence.
  - rewrite !Z.eqb_eq. congruence.
  - destruct m, n, k; simpl; congruence.
  - rewrite !Z.eqb_eq. congruence.
Qed.

Lemma cell_eqb_refl (c : cell) : isna c = false -> cell_eqb c c = true.
Proof.
  destruct c as [|p|m|s|s|y|m|s o]; simpl; try discriminate; intros _.
  - apply Qeq_bool_refl.
  - now destruct m.
  - apply String.eqb_refl.
  - apply Z.eqb_refl.
  - apply Z.eqb_refl.
  - now destruct m.
  - apply Z.eqb_refl.
Qed.

Lemma cell_eqb_notna (a b : cell) : cell_eqb a b = true -> isna a = false.
Proof. destruct a, b; simpl; congruence. Qed.

Lemma occurrences_snoc k l c :
  occurrences k (l ++ [c]) = occurrences k l + (if cell_eqb k c then 1 else 0).
Proof.
  unfold occurrences. rewrite filter_app, length_app. simpl.
  now destruct (cell_eqb k c).
Qed.

Lemma tally_snoc l c : tally (l ++ [c]) = bump c (tally l).
Proof. unfold tally. now rewrite fold_left_app. Qed.

(** The two shapes of a step of the counting pass. *)
Lemma bump_cases c table :
  ((forall k n, In (k, n) table -> cell_eqb k c = false) /\
   bump c table = table ++ [(c, 1)]) \/
  (exists t1 k n t2,
     table = t1 ++ (k, n) :: t2 /\ cell_eqb k c = true /\
     (forall k' n', In (k', n') t1 -> cell_eqb k' c = false) /\
     bump c table = t1 ++ (k, S n) :: t2).
Proof.
  induction table as [|[k n] table IH]; simpl.
  - left. split; [tauto | reflexivity].
  - destruct (cell_eqb k c) eqn:E.
    + right. exists [], k, n, table. repeat split; auto. intros k' n' [].
    + destruct IH as [[Hno Hb] | (t1 & k1 & n1 & t2 & -> & Hk & Hno & Hb)].
      * left. split; [|now rewrite Hb].
        intros k' n' [H|H]; [now injection H as <- <- | eauto].
      * right. exists ((k, n) :: t1), k1, n1, t2. repeat split; auto.
        -- intros k' n' [H|H]; [now injection H as <- <- | eauto].
        -- simpl. now rewrite Hb.
Qed.

Lemma distinct_keys_app t1 t2 :
  distinct_keys (t1 ++ t2) <->
  distinct_keys t1 /\ distinct_keys t2 /\
  (forall k1 n1 k2 n2, In (k1, n1) t1 -> In (k2, n2) t2 -> cell_eqb k1 k2 = false).
Proof.
  induction t1 as [|[k n] t1 IH]; simpl.
  - split; [intros H; repeat split; auto; intros ? ? ? ? [] | tauto].
  - rewrite IH. split.
    + intros (Hk & H1 & H2 & H12). repeat split; auto.
      * intros k' n' H. apply (Hk k' n'), in_or_app. now left.
      * intros k1 n1 k2 n2 [H|H] H'.
        -- injection H as <- <-. apply (Hk k2 n2), in_or_app. now right.
        -- eauto.
    + intros ((Hk & H1) & H2 & H12). repeat split; auto.
      * intros k' n' H. apply in_app_or in H as [H|H]; eauto.
      * eauto.
Qed.

Lemma counts_bump l table c :
  isna c = false -> counts l table -> counts (l ++ [c]) (bump c table).
Proof.
  intros Hc [Hex Hdis Hcom].
  destruct (bump_cases c table)
    as [[Hno ->] | (t1 & k & n & t2 & -> & Hk & Hno & ->)].
  - (* a new key *)
    assert (Hzero : occurrences c l = 0).
    { unfold occurrences. apply length_zero_iff_nil.
      destruct (filter (cell_eqb c) l) as [|x xs] eqn:E; [reflexivity|].
      assert (Hx : In x (filter (cell_eqb c) l)) by (rewrite E; now left).
      apply filter_In in Hx as [Hx Hcx].
      destruct (Hcom x Hx) as (k & n & Hin & Hkx).
      rewrite cell_eqb_sym in Hcx.
      pose proof (cell_eqb_trans _ _ _ Hkx Hcx) as Hkc.
      rewrite (Hno k n Hin) in Hkc. discriminate. }
    split.
    + intros k n H. apply in_app_or in H as [H|[H|[]]].
      * rewrite occurrences_snoc, (Hno k n H), Nat.add_0_r. now apply Hex.
      * injection H as <- <-. rewrite occurrences_snoc, Hzero, cell_eqb_refl by assumption.
        split; [reflexivity | lia].
    + apply distinct_keys_app. split; [exact Hdis|].
      split; [simpl; split; [intros ? ? []| exact I]|].
      intros k1 n1 k2 n2 H1 [H2|[]]. injection H2 as <- <-. eauto.
    + intros x H. apply in_app_or in H as [H|[<-|[]]].
      * destruct (Hcom x H) as (k & n & Hin & Hkx). exists k, n.
        split; [apply in_or_app; now left | assumption].
      * exists c, 1. split; [apply in_or_app; right; now left | now apply cell_eqb_refl].
  - (* a key seen before *)
    apply distinct_keys_app in Hdis as (Hd1 & [Hk2 Hd2] & H12).
    assert (Hother : forall k' n', In (k', n') (t1 ++ t2) -> cell_eqb k' c = false).
    { intros k' n' H. apply in_app_or in H as [H|H]; [eauto|].
      destruct (cell_eqb k' c) eqn:E; [|reflexivity].
      rewrite (cell_eqb_sym k' c) in E.
      pose proof (cell_eqb_trans _ _ _ Hk E) as Hkk.
      rewrite (Hk2 k' n' H) in Hkk. discriminate. }
    split.
    + intros k' n' H. rewrite occurrences_snoc.
      apply in_app_or in H as [H|[H|H]].
      * rewrite (Hother k' n') by (apply in_or_app; now left).
        rewrite Nat.add_0_r. apply Hex, in_or_app. now left.
      * injection H as <- <-. rewrite Hk.
        destruct (Hex k n) as [-> _]; [apply in_or_app; right; now left|].
        split; lia.
      * rewrite (Hother k' n') by (apply in_or_app; now right).
        rewrite Nat.add_0_r. apply Hex, in_or_app. right. now right.
    + apply distinct_keys_app. repeat split; auto.
      intros k1 n1 k2 n2 H1 [H2|H2].
      * injection H2 as <- _. apply (H12 k1 n1 k n H1). now left.
      * apply (H12 k1 n1 k2 n2 H1). now right.
    + intros x H. apply in_app_or in H as [H|[<-|[]]].
      * destruct (Hcom x H) as (k' & n' & Hin & Hkx).
        apply in_app_or in Hin as [Hin|[Hin|Hin]].
        -- exists k', n'. split; [apply in_or_app; now left | assumption].
        -- injection Hin as <- <-. exists k, (S n).
           split; [apply in_or_app; right; now left | assumption].
        -- exists k', n'. split; [apply in_or_app; right; now right | assumption].
      * exists k, (S n). split; [apply in_or_app; right; now left | assumption].
Qed.

Lemma counts_tally l :
  (forall c, In c l -> isna c = false) -> counts l (tally l).
Proof.
  induction l as [|c l IH] using rev_ind; intros H.
  - split; simpl; [tauto | exact I | tauto].
  - rewrite tally_snoc. apply counts_bump.
    + apply H, in_or_app. right. now left.
    + apply IH. intros x Hx. apply H, in_or_app. now left.
Qed.

(** *** Sorting by descending count *)

Lemma insert_desc_perm e l : Permutation (insert_desc e l) (e :: l).
Proof.
  induction l as [|h l IH]; simpl; [reflexivity|].
  destruct (snd h <=? snd e); [reflexivity|].
  rewrite IH. apply perm_swap.
Qed.

Lemma sort_desc_perm l : Permutation (sort_desc l) l.
Proof.
  induction l as [|e l IH]; simpl; [reflexivity|].
  rewrite insert_desc_perm. now constructor.
Qed.

Lemma insert_desc_sorted e l :
  StronglySorted count_ge l -> StronglySorted count_ge (insert_desc e l).
Proof.
  induction 1 as [|h l Hs IH Hh]; simpl.
  - repeat constructor.
  - destruct (snd h <=? snd e) eqn:E.
    + apply Nat.leb_le in E. constructor; [now constructor|].
      constructor; [exact E|].
      rewrite Forall_forall in Hh |- *. intros x Hx.
      specialize (Hh x Hx). unfold count_ge in *. lia.
    + apply Nat.leb_gt in E. constructor; [exact IH|].
      rewrite Forall_forall in Hh |- *. intros x Hx.
      apply (Permutation_in _ (insert_desc_perm e l)) in Hx as [<-|Hx].
      * unfold count_ge. lia.
      * now apply Hh.
Qed.

Lemma sort_desc_sorted l : StronglySorted count_ge (sort_desc l).
Proof.
  induction l as [|e l IH]; simpl; [constructor | now apply insert_desc_sorted].
Qed.

Lemma distinct_keys_perm t1 t2 :
  Permutation t1 t2 -> distinct_keys t1 -> distinct_keys t2.
Proof.
  induction 1 as [|[k n] t1 t2 Hp IH|[k1 n1] [k2 n2] t|t1 t2 t3 _ IH1 _ IH2]; simpl.
  - trivial.
  - intros [Hk Hd]. split; [|auto].
    intros k' n' H. apply (Hk k' n'). now apply (Permutation_in _ (Permutation_sym Hp)).
  - intros (H1 & H2 & Hd). split; [|split; [|exact Hd]].
    + intros k' n' [H|H].
      * injection H as <- <-. rewrite cell_eqb_sym. apply (H1 k1 n1). now left.
      * now apply (H2 k' n').
    + intros k' n' H. apply (H1 k' n'). now right.
  - auto.
Qed.

End CountFacts.

(** ** Summary statistics *)

Module SummaryFacts.

Import Pandas Validator Spec CheckFacts QualityFacts CountFacts Examples.

Lemma bindR_ok {A B} (r : Result A) (k : A -> Result B) b :
  bindR r k = Ok b -> exists a, r = Ok a /\ k a = Ok b.
Proof. destruct r as [a|e]; simpl; [eauto | discriminate]. Qed.

Lemma occurrences_dropna k (s : Series) :
  occurrences k (values (dropna s)) = occurrences k (values s).
Proof.
  unfold occurrences, dropna. cbn [values].
  induction (values s) as [|c l IH]; [reflexivity|].
  simpl. destruct c; simpl; try (destruct (cell_eqb k _); simpl; now rewrite IH).
  replace (cell_eqb k NA) with false by now destruct k. exact IH.
Qed.

Lemma dropna_notna (s : Series) c : In c (values (dropna s)) -> isna c = false.
Proof.
  unfold dropna. cbn [values]. intros H. apply filter_In in H as [_ H].
  now apply negb_true_iff.
Qed.

(** What [value_counts] returns. *)
Lemma value_counts_spec (s : Series) :
  StronglySorted count_ge (value_counts s) /\
  (forall k n, In (k, n) (value_counts s) ->
     isna k = false /\ n = occurrences k (values s) /\ 0 < n) /\
  (forall c, In c (values s) -> isna c = false ->
     exists k n, In (k, n) (value_counts s) /\ cell_eqb k c = true) /\
  distinct_keys (value_counts s).
Proof.
  unfold value_counts.
  pose proof (counts_tally (values (dropna s)) (dropna_notna s)) as [Hex Hdis Hcom].
  pose proof (sort_desc_perm (tally (values (dropna s)))) as Hp.
  split; [apply sort_desc_sorted|]. split; [|split].
  - intros k n H. apply (Permutation_in _ Hp) in H.
    destruct (Hex k n H) as [Hn Hpos]. rewrite occurrences_dropna in Hn.
    repeat split; auto.
    destruct k; try reflexivity. subst n. unfold occurrences in Hpos.
    assert (Hnil : filter (cell_eqb NA) (values s) = []).
    { clear. induction (values s) as [|c l IH]; [reflexivity | exact IH]. }
    rewrite Hnil in Hpos. simpl in Hpos. lia.
  - intros c Hin Hc.
    destruct (Hcom c) as (k & n & Hk & Hkc).
    { unfold dropna. cbn [values]. apply filter_In. split; [exact Hin | now rewrite Hc]. }
    exists k, n. split; [|exact Hkc].
    now apply (Permutation_in _ (Permutation_sym Hp)).
  - now apply (distinct_keys_perm _ _ (Permutation_sym Hp)).
Qed.

Section Stats.

Variable parse_float : string -> float.

(** [summary_stats] fails only in its date range; every other statistic
    is that of its column, or zero or empty when the column is absent. *)
Lemma summary_stats_eq d :
  summary_stats parse_float d =
  bindR (summary_date_range d) (fun range =>
    Ok (mkStats (len d) range
          (column_or d "Symbol" nunique 0)
          (column_or d "Transaction Code" value_counts [])
          (column_or d "Amount"
             (fun s => abs_sum (to_numeric parse_float s)) (Fin 0)))).
Proof.
  unfold summary_stats, summary_date_range, column_or, has_column, getitem.
  destruct (lookup "Date/Time" (columns d)) as [s|]; cbn [bindR].
  - destruct (series_min s) as [lo|e]; [|reflexivity]. cbn [bindR].
    destruct (series_max s) as [hi|e]; [|reflexivity]. cbn [bindR].
    destruct (date lo) as [dlo|e]; [|reflexivity]. cbn [bindR].
    destruct (date hi) as [dhi|e]; [|reflexivity]. cbn [bindR].
    destruct (lookup "Symbol" (columns d)), (lookup "Transaction Code" (columns d)),
      (lookup "Amount" (columns d)); reflexivity.
  - destruct (lookup "Symbol" (columns d)), (lookup "Transaction Code" (columns d)),
      (lookup "Amount" (columns d)); reflexivity.
Qed.


(** C4, as amended.  In the summary of a frame with a Transaction Code
    column the mapping of kinds to counts is the one [value_counts]
    returns: the kinds are listed by descending count, most frequent
    first; every kind listed is not missing and is mapped to the number
    of rows of that kind; every kind of the column is listed, and none
    twice. *)
Theorem transaction_kind_counts d s stats :
  lookup "Transaction Code" (columns d) = Some s ->
  summary_stats parse_float d = Ok stats ->
  transaction_types stats = value_counts s /\
  StronglySorted count_ge (transaction_types stats) /\
  (forall k n, In (k, n) (transaction_types stats) ->
     isna k = false /\ n = occurrences k (values s) /\ 0 < n) /\
  (forall c, In c (values s) -> isna c = false ->
     exists k n, In (k, n) (transaction_types stats) /\ cell_eqb k c = true) /\
  distinct_keys (transaction_types stats).
Proof.
  intros Hs Hstats. rewrite summary_stats_eq in Hstats.
  apply bindR_ok in Hstats as (range & _ & Hstats). injection Hstats as <-.
  cbn [transaction_types]. unfold column_or. rewrite Hs.
  split; [reflexivity | apply value_counts_spec].
Qed.

End Stats.

(** C4, the claim as stated fails.  With the kinds A, B, B in this order
    the first-seen order is A, B, yet the summary lists B before A. *)
Lemma kind_counts_not_first_seen :
  unique [Text "A"; Text "B"; Text "B"] = [Text "A"; Text "B"] /\
  exists stats,
    summary_stats parse_decimal kinds_frame = Ok stats /\
    transaction_types stats = [(Text "B", 2); (Text "A", 1)] /\
    map fst (transaction_types stats) <> unique [Text "A"; Text "B"; Text "B"].
Proof.
  split; [reflexivity|]. eexists. split; [reflexivity|]. split; [reflexivity|].
  cbn. intros H. discriminate.
Qed.

(** C9.  On a loaded frame whose Date/Time column holds text that did
    not parse, [generate_summary_stats] raises at [min_date.date()]
    instead of returning statistics; so it does on the frame of a table
    without records, whose columns are empty object columns.  Both frames
    are the ones [load_data] produces for such tables. *)
Theorem summary_raises_on_unparsed_dates :
  let st := set_format_type New (init "in.csv") in
  let st' := record_call (CallTransformCsv "in.csv") st in
  let load table :=
    load_data tokenize parse_decimal parse_iso_date (world_with table) st in
  let no_date := Exception AttributeError "object has no attribute 'date'" in
  (load (file ["Date/Time,Amount"; "not a date,5"]) =
     (Ok true, set_df unparsed_dates_frame st') /\
   summary_stats parse_decimal unparsed_dates_frame = Raise no_date /\
   fst (generate_summary_stats parse_decimal (set_df unparsed_dates_frame st')) =
     Raise no_date) /\
  (load (file ["Date/Time,Amount"]) = (Ok true, set_df empty_frame st') /\
   summary_stats parse_decimal empty_frame = Raise no_date /\
   fst (generate_summary_stats parse_decimal (set_df empty_frame st')) = Raise no_date).
Proof. repeat split; vm_compute; reflexivity. Qed.

End SummaryFacts.

(** ** Loading *)

Module LoadFacts.

Import Pandas Validator Spec CheckFacts QualityFacts Examples.

Section Load.

Variable tokenize : string -> Result RawTable.
Variable parse_float : string -> float.
Variable parse_datetime : list string -> option (list (Z * option Z)).

Local Abbreviation read_csv := (read_csv parse_float parse_datetime).
Local Abbreviation load_data := (load_data tokenize parse_float parse_datetime).

Lemma load_data_eq w st f :
  format_type st = Some f ->
  load_data w st =
  let st' := record_call (source_call f (csv_file st)) st in
  match bindR (bindR (source w f (csv_file st)) tokenize) read_csv with
  | Ok d => (Ok true, set_df d st')
  | Raise e => (Ok false, append_error (loading_error e) st')
  end.
Proof.
  intros Hf. unfold Validator.load_data, read_csv_text. rewrite Hf.
  destruct f; cbn [source source_call record_call csv_file];
    match goal with |- context [bindR ?r _] => destruct r as [text|e] end;
    cbn [bindR]; try reflexivity;
    destruct (tokenize text) as [t|e]; reflexivity.
Qed.

(** The column [df['Date/Time']] of a table that has one: its
    timestamp fields, converted. *)
Lemma lookup_first_index t names j0 j :
  first_index date_column names = Some j ->
  existsb (fun name => (name =? date_column)%string) names = true /\
  lookup date_column (convert_columns parse_float parse_datetime t names j0) =
    Some (convert_dates parse_datetime (column_fields (j0 + j) t)).
Proof.
  revert j0 j; induction names as [|n names IH]; intros j0 j; simpl; [discriminate|].
  destruct (n =? date_column)%string eqn:E.
  - intros H. injection H as <-. now rewrite Nat.add_0_r.
  - destruct (first_index date_column names) as [i|]; [|discriminate].
    simpl. intros H. injection H as <-.
    destruct (IH (S j0) i eq_refl) as [H1 H2]. split; [exact H1|].
    now rewrite Nat.add_succ_r.
Qed.


(** A conversion that fails leaves the whole column as it is
    written. *)
Lemma convert_dates_unparsed fields bad :
  In bad fields -> is_na_text bad = false -> parse_datetime (present fields) = None ->
  convert_dates parse_datetime fields = mkSeries Object (map text_cell fields).
Proof.
  intros Hin Hna Hbad. unfold convert_dates.
  destruct fields as [|f fs]; [contradiction|].
  destruct (present (f :: fs)) as [|x xs] eqn:E; [|now rewrite Hbad].
  assert (Hp : In bad (present (f :: fs)))
    by (apply filter_In; split; [exact Hin | now rewrite Hna]).
  rewrite E in Hp. destruct Hp.
Qed.

Lemma awares_text_cell fields : awares (map text_cell fields) = [].
Proof.
  induction fields as [|f fs IH]; [reflexivity|].
  simpl. unfold text_cell at 1. now destruct (is_na_text f).
Qed.

Lemma in_text_cell fields bad :
  In bad fields -> is_na_text bad = false -> In (Text bad) (map text_cell fields).
Proof.
  intros Hin Hna. apply in_map_iff. exists bad. split; [|exact Hin].
  unfold text_cell. now rewrite Hna.
Qed.

Lemma in_texts l t : In (Text t) l -> In t (texts l).
Proof.
  intros H. unfold texts. apply in_flat_map. exists (Text t). split; [exact H | now left].
Qed.

(** Lines 78-80 on a column of strings: [min()] raises when a missing
    entry stands among them, and the subtraction of two strings raises
    otherwise. *)
Lemma check_dates_strings now d s t :
  lookup "Date/Time" (columns d) = Some s ->
  dtype s = Object -> In (Text t) (values s) -> awares (values s) = [] ->
  exists msg, snd (check_dates now d) = Raise (Exception TypeError msg).
Proof.
  intros Hl Hd Ht Ha.
  destruct (has_column_lookup _ _ _ Hl) as [H1 H2].
  unfold check_dates. rewrite H1. cbn [when]. rewrite (andThen_eval _ _ _ H2).
  unfold series_min, series_max, series_extremum. rewrite Hd, Ha.
  apply in_texts in Ht. destruct (texts (values s)) as [|x xs]; [contradiction|].
  destruct (any_na (values s)); cbn; eexists; reflexivity.
Qed.

Lemma andThen_raises {A B} (m : Check A) (k : A -> Check B) a e :
  snd m = Ok a -> snd (k a) = Raise e -> snd (andThen m k) = Raise e.
Proof.
  destruct m as [w1 r]. simpl. intros -> H. destruct (k a) as [w2 r2]. exact H.
Qed.

Lemma andThen_raised {A B} (m : Check A) (k : A -> Check B) e :
  snd m = Raise e -> snd (andThen m k) = Raise e.
Proof. destruct m as [w1 r]. simpl. now intros ->. Qed.

(** C3.  [load_data] does not fail the load when a timestamp is
    unparseable.  Whenever the table has a Date/Time column and the
    conversion of its timestamps fails, as it does when one of them is
    not a date, the load returns [True] and records no error; every row
    is kept, a timestamp that is not missing as the text it was written
    as, so not every row of the loaded frame has a valid timestamp; and
    the quality check that follows raises a [TypeError] in lines 78-80
    instead of returning. *)
Theorem load_keeps_unparseable_timestamp
        (w : World) (st : State) (f : Format) (t : RawTable)
        (fields : list string) (bad : string) :
  format_type st = Some f ->
  bindR (source w f (csv_file st)) tokenize = Ok t ->
  timestamp_fields t = Some fields ->
  In bad fields -> is_na_text bad = false ->
  parse_datetime (present fields) = None ->
  exists d s,
    load_data w st = (Ok true, set_df d (record_call (source_call f (csv_file st)) st)) /\
    errors (snd (load_data w st)) = errors st /\
    lookup date_column (columns d) = Some s /\
    In (Text bad) (values s) /\
    ~ Forall has_timestamp (values s) /\
    forall now, exists msg,
      fst (validate_data_quality parse_float now (snd (load_data w st))) =
        Raise (Exception TypeError msg).
Proof.
  intros Hf Ht Hfields Hin Hna Hbad.
  unfold timestamp_fields in Hfields.
  destruct (first_index date_column (header t)) as [j|] eqn:Ej; [|discriminate].
  injection Hfields as <-.
  destruct (lookup_first_index t (header t) 0 j Ej) as [Hh Hl]. simpl in Hl.
  rewrite (convert_dates_unparsed _ bad Hin Hna Hbad) in Hl.
  rewrite (load_data_eq w st f Hf), Ht. cbv zeta. cbn [bindR].
  unfold Pandas.read_csv. rewrite Hh.
  eexists _, _. split; [reflexivity|]. cbn [snd]. split; [reflexivity|].
  cbn [columns]. split; [exact Hl|]. cbn [values].
  pose proof (in_text_cell _ _ Hin Hna) as Htext.
  split; [exact Htext|]. split.
  - intros H. rewrite Forall_forall in H.
    destruct (H _ Htext) as [[x Hx] | (x & o & Hx)]; discriminate.
  - intros now.
    match goal with |- context [set_df ?d _] => set (frame := d) end.
    destruct (check_dates_strings now frame _ bad Hl eq_refl Htext
                (awares_text_cell _)) as [msg Hmsg].
    exists msg. unfold validate_data_quality, run_check. cbn [df set_df].
    assert (Hq : snd (data_quality_checks parse_float now frame) =
                 Raise (Exception TypeError msg)).
    { unfold data_quality_checks.
      apply andThen_raises with (a := tt); [apply check_missing_returns|].
      now apply andThen_raised. }
    destruct (data_quality_checks parse_float now frame) as [ws r].
    simpl in Hq. now subst r.
Qed.

End Load.

End LoadFacts.


(** ** The full run *)

Module RunFacts.

Import Pandas Validator Spec Examples QualityFacts.

Ltac innermost x :=
  lazymatch x with
  | context [match ?y with _ => _ end] => innermost y
  | _ => destruct x eqn:?
  end.

Ltac step :=
  match goal with
  | |- context [match ?x with _ => _ end] => innermost x
  end.

Ltac state_simpl :=
  cbn [csv_file init emit stdout record_call errors warnings df format_type calls
       append_error set_format_type set_df append_warnings negb bindR fst snd] in *.

Ltac unfold_run :=
  unfold run_full_validation, main, print_summary, report, validate_file_format,
    load_data, validate_data_quality, validate_transaction_consistency, run_check,
    generate_summary_stats;
  unfold bind, print_all, print, ret, raise;
  state_simpl.

Section Run.

Variable tokenize : string -> Result RawTable.
Variable parse_float : string -> float.
Variable parse_datetime : list string -> option (list (Z * option Z)).

Local Abbreviation run := (run_full_validation tokenize parse_float parse_datetime).

(** A run that returns, returns True exactly when no error was recorded,
    whatever the warnings; a run that returns False recorded one error,
    no warning, and printed no summary. *)
Lemma run_returns (w : World) (now : Z) (path : string) (b : bool) (st : State) :
  run w now (init path) = (Ok b, st) ->
  (b = true <-> errors st = []) /\
  (b = false ->
   exists e, errors st = [e] /\ warnings st = [] /\
             existsb summary_line (stdout st) = false).
Proof.
  unfold_run.
  repeat (step; state_simpl; try discriminate);
    intros H; injection H as <- <-; simpl;
    (split; [split; intros; (reflexivity || congruence) |]);
    intros; try congruence; eexists; repeat split; reflexivity.
Qed.

(** A failure of detection or of loading ends the run at once. *)
Lemma run_aborts (w : World) (now : Z) (path : string) :
  loaded_frame tokenize parse_float parse_datetime w path = None ->
  exists st e,
    run w now (init path) = (Ok false, st) /\
    errors st = [e] /\ warnings st = [] /\ df st = None /\
    existsb summary_line (stdout st) = false.
Proof.
  unfold loaded_frame. unfold_run.
  repeat (step; state_simpl; try discriminate); intros _;
    eexists _, _; repeat split; reflexivity.
Qed.

(** When a check raises, so does the run, and no error is recorded. *)
Lemma run_raises (w : World) (now : Z) (path : string) (d : DataFrame) (e : exn) :
  loaded_frame tokenize parse_float parse_datetime w path = Some d ->
  snd (data_quality_checks parse_float now d) = Raise e ->
  let outcome := run w now (init path) in
  fst outcome = Raise e /\ errors (snd outcome) = [] /\ exit_status (fst outcome) = 1%Z.
Proof.
  unfold loaded_frame. unfold_run.
  repeat (step; state_simpl; try discriminate);
    intros H; injection H as <-; intros Hr;
    match goal with
    | H : data_quality_checks _ _ _ = _ |- _ => rewrite H in Hr
    end; cbn [snd] in Hr; subst; state_simpl; try discriminate;
    repeat split; (reflexivity || congruence).
Qed.

Lemma main_exit_status (w : World) (now : Z) (program path : string) :
  fst (main tokenize parse_float parse_datetime w now [program; path]) =
  exit_status (fst (run w now (init path))).
Proof.
  unfold main. destruct (run w now (init path)) as [[[|]|e] st]; reflexivity.
Qed.

Lemma gt_datetime_same (now1 now2 : Z) (s : Series) :
  (forall t, In (Stamp t) (values s) -> (now1 <? t)%Z = (now2 <? t)%Z) ->
  gt_datetime s now1 = gt_datetime s now2.
Proof.
  intros H. unfold gt_datetime. destruct (dtype s); try reflexivity.
  f_equal. apply map_ext_in. intros c Hc. destruct c; try reflexivity. now apply H.
Qed.

Lemma data_quality_checks_same (now1 now2 : Z) (d : DataFrame) :
  same_future now1 now2 d ->
  data_quality_checks parse_float now1 d = data_quality_checks parse_float now2 d.
Proof.
  intros H. unfold data_quality_checks. f_equal.
  assert (Hd : check_dates now1 d = check_dates now2 d).
  { unfold check_dates, has_column, getitem.
    destruct (lookup "Date/Time" (columns d)) as [s|] eqn:E; [|reflexivity].
    cbn [when]. unfold eval. cbn [andThen].
    rewrite (gt_datetime_same now1 now2 s (fun t => H s t E)). reflexivity. }
  now rewrite Hd.
Qed.

(** C8, as amended.  Two runs on the same file print the same report,
    return the same verdict and leave the same state when the timestamps
    of the loaded frame lie on the same side of both clock readings, in
    particular when no frame is loaded or the clock readings are equal:
    the clock is the only input of the run besides the file. *)
Theorem run_deterministic (w : World) (path : string) (now1 now2 : Z) :
  (forall d, loaded_frame tokenize parse_float parse_datetime w path = Some d ->
             same_future now1 now2 d) ->
  run w now1 (init path) = run w now2 (init path).
Proof.
  intros H. unfold loaded_frame in H. unfold_run.
  destruct (readline w path) as [line|e]; [|reflexivity].
  destruct (detect (PyStr.strip line)) as [[|]|]; state_simpl; [| |reflexivity].
  - destruct (bindR (transform_csv w path) _) as [d|e]; state_simpl; [|reflexivity].
    now rewrite (data_quality_checks_same now1 now2 d (H d eq_refl)).
  - destruct (bindR (read_file w path) _) as [d|e]; state_simpl; [|reflexivity].
    now rewrite (data_quality_checks_same now1 now2 d (H d eq_refl)).
Qed.

End Run.

(** C2.  For a table that holds a deposit only, and for a table without
    a Transaction Code column, the run records no error and yet does not
    succeed: the quality check raises, nothing catches the exception, and
    the process ends with exit status 1. *)
Theorem run_fails_without_error (now : Z) :
  let run_on table :=
    run_full_validation tokenize parse_decimal parse_iso_date
                        (world_with table) now (init "in.csv") in
  (fst (run_on deposit_only) =
     Raise (Exception AttributeError "Can only use .str accessor with string values!") /\
   errors (snd (run_on deposit_only)) = [] /\
   exit_status (fst (run_on deposit_only)) = 1%Z) /\
  (fst (run_on amounts_only) = Raise (Exception KeyError "'Transaction Code'") /\
   errors (snd (run_on amounts_only)) = [] /\
   exit_status (fst (run_on amounts_only)) = 1%Z).
Proof.
  split.
  - eapply run_raises; [vm_compute; reflexivity|].
    unfold data_quality_checks, check_dates, gt_datetime. simpl.
    destruct (now <? 1704412800000000000)%Z; reflexivity.
  - eapply run_raises; [vm_compute; reflexivity|].
    unfold data_quality_checks, check_dates, gt_datetime. simpl.
    destruct (now <? 1704412800000000000)%Z; reflexivity.
Qed.

(** C8, the claim as stated fails.  The same file, validated once
    before and once after the date of its only trade, gives two different
    reports: only the first has the warning about future dates. *)
Lemma clock_changes_report :
  let report_at now :=
    main tokenize parse_decimal parse_iso_date (world_with trade_in_2030) now
         ["data_validator.py"; "in.csv"] in
  report_at 0%Z <> report_at 2000000000000000000%Z /\
  In (PrintWarning (FutureDates 1)) (snd (report_at 0%Z)) /\
  ~ In (PrintWarning (FutureDates 1)) (snd (report_at 2000000000000000000%Z)).
Proof.
  vm_compute. split; [intros H; discriminate|].
  split; [tauto|]. intros H. repeat (destruct H as [H|H]; [discriminate|]). exact H.
Qed.

End RunFacts.

(** ** The theorems at sample inputs *)

Module Witnesses.

Import PyStr PyStrFacts Pandas Validator Spec Examples.
Import FormatFacts QualityFacts ConsistencyFacts CountFacts SummaryFacts LoadFacts RunFacts.

Lemma no_match (headers : list string) (line : string) :
  any_header_in headers line = false -> ~ matches headers line.
Proof.
  intros H Hm. apply any_header_in_spec in Hm. congruence.
Qed.

(** C1 at three first lines: the header of a new export, a line with a
    Legacy token only, and a line with no token. *)
Lemma format_detection_witness :
  let detect_on line := validate_file_format (world_reading line) (init "in.csv") in
  format_type (snd (detect_on "Date,Type,Action,Symbol,Value")) = Some New /\
  format_type (snd (detect_on "Transaction Code,Amount")) = Some Legacy /\
  format_type (snd (detect_on "id,price,note")) = None /\
  calls (snd (run_full_validation tokenize parse_decimal parse_iso_date
                (world_reading "id,price,note") 0%Z (init "in.csv"))) =
    [CallReadline "in.csv"].
Proof.
  split; [|split; [|split]].
  - apply (format_detection_order tokenize parse_decimal parse_iso_date
             (world_reading "Date,Type,Action,Symbol,Value") 0%Z "in.csv"
             "Date,Type,Action,Symbol,Value" eq_refl).
    apply any_header_in_spec. reflexivity.
  - apply (format_detection_order tokenize parse_decimal parse_iso_date
             (world_reading "Transaction Code,Amount") 0%Z "in.csv"
             "Transaction Code,Amount" eq_refl).
    + apply no_match. reflexivity.
    + apply any_header_in_spec. reflexivity.
  - apply (format_detection_order tokenize parse_decimal parse_iso_date
             (world_reading "id,price,note") 0%Z "in.csv" "id,price,note" eq_refl).
    + apply no_match. reflexivity.
    + apply no_match. reflexivity.
  - apply (format_detection_order tokenize parse_decimal parse_iso_date
             (world_reading "id,price,note") 0%Z "in.csv" "id,price,note" eq_refl).
    + apply no_match. reflexivity.
    + apply no_match. reflexivity.
Defined.

(** C3 at a table whose only record has the timestamp "not a date". *)
Lemma load_keeps_unparseable_timestamp_witness :
  let st := set_format_type New (init "in.csv") in
  let loaded :=
    load_data tokenize parse_decimal parse_iso_date (world_with unparsed_dates) st in
  exists d s,
    loaded = (Ok true, set_df d (record_call (CallTransformCsv "in.csv") st)) /\
    errors (snd loaded) = [] /\
    lookup "Date/Time" (columns d) = Some s /\
    In (Text "not a date") (values s) /\
    ~ Forall has_timestamp (values s) /\
    forall now, exists msg,
      fst (validate_data_quality parse_decimal now (snd loaded)) =
        Raise (Exception TypeError msg).
Proof.
  intros st loaded.
  assert (Htable : bindR (source (world_with unparsed_dates) New (csv_file st)) tokenize =
                   Ok (mkRawTable ["Date/Time"; "Amount"] [["not a date"; "5"]]))
    by (vm_compute; reflexivity).
  exact (load_keeps_unparseable_timestamp tokenize parse_decimal parse_iso_date
           (world_with unparsed_dates) st New
           (mkRawTable ["Date/Time"; "Amount"] [["not a date"; "5"]])
           ["not a date"] "not a date"
           eq_refl Htable eq_refl (or_introl eq_refl) eq_refl eq_refl).
Defined.

(** C4 at the kinds A, B, B. *)
Lemma transaction_kind_counts_witness :
  StronglySorted count_ge [(Text "B", 2); (Text "A", 1)] /\
  distinct_keys [(Text "B", 2); (Text "A", 1)].
Proof.
  pose proof (transaction_kind_counts parse_decimal kinds_frame
                (mkSeries Object [Text "A"; Text "B"; Text "B"])
                (mkStats 3 None 0 [(Text "B", 2); (Text "A", 1)] (Fin 0))
                eq_refl eq_refl) as (_ & Hs & _ & _ & Hd).
  split; [exact Hs | exact Hd].
Defined.

(** C6 at a single row with amount 0, once a trade and once a transfer. *)
Lemma zero_amount_rule_witness :
  In (ZeroAmounts 1)
     (fst (data_quality_checks parse_decimal 2000000000000000000%Z
             (zero_amount_row "Trade"))) /\
  forall m,
    ~ In (ZeroAmounts m)
         (fst (data_quality_checks parse_decimal 2000000000000000000%Z
                 (zero_amount_row "Receive Deliver"))).
Proof.
  split.
  - apply (zero_amount_rule parse_decimal 2000000000000000000%Z
             (zero_amount_row "Trade")
             (mkSeries Float64 [Num 0]) (mkSeries Object [Text "Trade"])
             [ZeroAmounts 1] eq_refl eq_refl eq_refl).
    split; [reflexivity | apply Nat.lt_0_1].
  - destruct (zero_amount_rule parse_decimal 2000000000000000000%Z
                (zero_amount_row "Receive Deliver")
                (mkSeries Float64 [Num 0]) (mkSeries Object [Text "Receive Deliver"])
                [] eq_refl eq_refl eq_refl) as [_ [_ H]].
    refine (proj2 (H (Num 0) eq_refl _) eq_refl).
    exists 0%Q. split; reflexivity.
Defined.

Lemma aapl_symbols c :
  In c [Text "AAPL"; Text "AAPL"] -> c = NA \/ exists t, c = Text t.
Proof. intros [<-|[<-|[]]]; right; now exists "AAPL". Qed.

(** C7 at AAPL with the quantities 10 and 10.5. *)
Lemma fractional_quantity_rule_witness :
  snd (consistency_checks parse_decimal
         (two_quantities "AAPL" (Num (inject_Z 10)) (Num (Qmake 21 2)))) = Ok tt /\
  In (FractionalQuantities "AAPL" 1)
     (fst (consistency_checks parse_decimal
             (two_quantities "AAPL" (Num (inject_Z 10)) (Num (Qmake 21 2))))).
Proof.
  destruct (fractional_quantity_rule parse_decimal
              (two_quantities "AAPL" (Num (inject_Z 10)) (Num (Qmake 21 2)))
              (mkSeries Object [Text "AAPL"; Text "AAPL"])
              (mkSeries Float64 [Num (inject_Z 10); Num (Qmake 21 2)])
              eq_refl eq_refl aapl_symbols)
    as [[Hok Hiff] _].
  split; [exact Hok|]. apply Hiff.
  repeat split; [now left | apply Nat.lt_0_1].
Defined.

Lemma trade_same_future d :
  loaded_frame tokenize parse_decimal parse_iso_date
               (world_with trade_in_2030) "in.csv" = Some d ->
  same_future 0 1000000000000000000 d.
Proof.
  intros H. vm_compute in H. injection H as <-.
  intros s t Hs Ht. vm_compute in Hs. injection Hs as <-.
  destruct Ht as [Ht|[]]. injection Ht as <-. reflexivity.
Qed.

(** C8 at a file whose only trade is dated 2030, validated in 1970 and
    again in 2001. *)
Lemma run_deterministic_witness :
  run_full_validation tokenize parse_decimal parse_iso_date
                      (world_with trade_in_2030) 0%Z (init "in.csv") =
  run_full_validation tokenize parse_decimal parse_iso_date
                      (world_with trade_in_2030) 1000000000000000000%Z (init "in.csv").
Proof.
  exact (run_deterministic tokenize parse_decimal parse_iso_date
           (world_with trade_in_2030) "in.csv" 0%Z 1000000000000000000%Z
           trade_same_future).
Defined.

Lemma three_aapl c :
  In c [Text "AAPL"; Text "AAPL"; Text "AAPL"] -> c = NA \/ exists t, c = Text t.
Proof. intros [<-|[<-|[<-|[]]]]; right; now exists "AAPL". Qed.

(** C10 at three rows of AAPL with the quantities 10, abc and 20: the
    unparseable quantity is the only anomaly and the warning has count 1. *)
Lemma unparseable_quantity_witness :
  snd (consistency_checks parse_decimal unparseable_quantity) = Ok tt /\
  In (FractionalQuantities "AAPL" 1)
     (fst (consistency_checks parse_decimal unparseable_quantity)).
Proof.
  exact (unparseable_quantity_counts parse_decimal unparseable_quantity
           (mkSeries Object [Text "AAPL"; Text "AAPL"; Text "AAPL"])
           (mkSeries Object [Text "10"; Text "abc"; Text "20"])
           [Text "AAPL"] [Text "AAPL"] [Text "10"] [Text "20"] "AAPL" (Text "abc")
           eq_refl eq_refl three_aapl eq_refl eq_refl eq_refl eq_refl eq_refl).
Defined.

End Witnesses.

(** ** File names accepted by the web interface *)

Module WebFacts.

Import PyStr PyStrFacts Web.

Lemma contains_char (c a : ascii) (s : string) :
  contains (String c EmptyString) (String a s) =
  Ascii.eqb c a || contains (String c EmptyString) s.
Proof. cbn [contains startswith]. now rewrite andb_true_r. Qed.

Lemma rsplit_last_none (sep : ascii) (s : string) :
  rsplit_last sep s = None <-> contains (String sep EmptyString) s = false.
Proof.
  induction s as [|a s IH]; [simpl; tauto|].
  rewrite contains_char. cbn [rsplit_last].
  destruct (rsplit_last sep s) as [[h t]|].
  - split; [discriminate|]. intros H. apply orb_false_iff in H as [_ H].
    apply IH in H. discriminate.
  - rewrite (Ascii.eqb_sym sep a). destruct (Ascii.eqb a sep); simpl.
    + split; discriminate.
    + split; [intros _; now apply IH | reflexivity].
Qed.

Lemma rsplit_last_some (sep : ascii) (s h t : string) :
  rsplit_last sep s = Some (h, t) <->
  s = (h ++ String sep t)%string /\ contains (String sep EmptyString) t = false.
Proof.
  revert h; induction s as [|a s IH]; intros h.
  - simpl. split; [discriminate|]. intros [H _]. destruct h; discriminate.
  - cbn [rsplit_last]. destruct (rsplit_last sep s) as [[h' t']|] eqn:E in |- *.
    + split.
      * intros H. injection H as <- <-. apply IH in E as [-> Ht]. now split.
      * intros [H Ht]. destruct h as [|b h]; simpl in H.
        -- injection H as -> ->. apply rsplit_last_none in Ht. congruence.
        -- injection H as -> H.
           assert (Hs : rsplit_last sep s = Some (h, t)) by (apply IH; now split).
           rewrite E in Hs. now injection Hs as -> ->.
    + apply rsplit_last_none in E. destruct (Ascii.eqb_spec a sep) as [->|Hne].
      * split.
        -- intros H. injection H as <- <-. now split.
        -- intros [H Ht]. destruct h as [|b h]; simpl in H.
           ++ now injection H as ->.
           ++ injection H as -> ->. exfalso. revert E. clear.
              induction h as [|c h IH]; simpl.
              ** rewrite Ascii.eqb_refl. discriminate.
              ** rewrite andb_true_r. intros H.
                 apply orb_false_iff in H as [_ H]. now apply IH.
      * split; [discriminate|]. intros [H Ht]. destruct h as [|b h]; simpl in H.
        -- injection H as -> _. congruence.
        -- injection H as -> ->. exfalso. revert E. clear.
           induction h as [|c h IH]; simpl.
           ++ rewrite Ascii.eqb_refl. discriminate.
           ++ rewrite andb_true_r. intros H.
              apply orb_false_iff in H as [_ H]. now apply IH.
Qed.

Lemma lower_dot (c : ascii) : Ascii.eqb "." (lower_char c) = Ascii.eqb "." c.
Proof. destruct c as [[] [] [] [] [] [] [] []]; reflexivity. Qed.

Lemma lower_app (a b : string) : lower (a ++ b) = (lower a ++ lower b)%string.
Proof. induction a as [|c a IH]; [reflexivity|]. simpl. now rewrite IH. Qed.

Lemma contains_dot_lower (s : string) : contains "." (lower s) = contains "." s.
Proof.
  induction s as [|c s IH]; [reflexivity|].
  cbn [lower]. now rewrite !contains_char, lower_dot, IH.
Qed.

Lemma endswith_spec (s suf : string) :
  endswith s suf = true <-> exists pre, s = (pre ++ suf)%string.
Proof.
  induction s as [|c s IH]; cbn [endswith].
  - rewrite orb_false_r, String.eqb_eq. split.
    + intros <-. now exists EmptyString.
    + intros [pre H]. destruct pre; [exact H | discriminate].
  - rewrite orb_true_iff, String.eqb_eq, IH. split.
    + intros [<- | [pre ->]]; [now exists EmptyString | now exists (String c pre)].
    + intros [pre H]. destruct pre as [|a pre]; simpl in H.
      * now left.
      * injection H as _ ->. right. now exists pre.
Qed.

(** [allowed_file] never raises, and it accepts exactly the names whose
    lower-case form ends in ".csv". *)
Theorem allowed_file_csv (filename : string) :
  allowed_file filename = Some (endswith (lower filename) ".csv").
Proof.
  unfold allowed_file, rsplit1, index_list.
  destruct (rsplit_last "." filename) as [[h t]|] eqn:E.
  - apply rsplit_last_some in E as [-> Ht].
    assert (Hc : contains "." (h ++ String "." t) = true).
    { apply contains_spec. now exists h, t. }
    rewrite Hc. cbn [nth_error ALLOWED_EXTENSIONS existsb]. rewrite orb_false_r.
    f_equal. apply eq_true_iff_eq. rewrite String.eqb_eq, endswith_spec. split.
    + intros H. exists (lower h). rewrite lower_app. cbn [lower].
      now rewrite <- H.
    + intros [pre H]. rewrite lower_app in H. cbn [lower] in H.
      replace (lower_char ".") with "."%char in H by reflexivity.
      assert (Hs : Some (lower h, lower t) = Some (pre, "csv")).
      { rewrite <- (proj2 (rsplit_last_some "." (pre ++ ".csv") pre "csv")) by now split.
        rewrite <- H. symmetry. apply rsplit_last_some. split; [reflexivity|].
        now rewrite contains_dot_lower. }
      now injection Hs.
  - apply rsplit_last_none in E. rewrite E. f_equal. symmetry.
    destruct (endswith (lower filename) ".csv") eqn:H; [|reflexivity].
    apply endswith_spec in H as [pre H].
    rewrite <- contains_dot_lower, H in E.
    assert (Hc : contains "." (pre ++ ".csv") = true).
    { apply contains_spec. now exists pre, "csv". }
    congruence.
Qed.

End WebFacts.

(** ** More on format detection *)

Module DetectionFacts.

Import PyStr PyStrFacts Pandas Validator Spec Examples FormatFacts RunFacts.

Lemma append_assoc (a b c : string) : ((a ++ b) ++ c = a ++ b ++ c)%string.
Proof. induction a as [|x a IH]; simpl; [reflexivity | now rewrite IH]. Qed.

Lemma substring_trans (a b s : string) : Substring a b -> Substring b s -> Substring a s.
Proof.
  intros [p1 [q1 ->]] [p2 [q2 ->]]. exists (p2 ++ p1)%string, (q1 ++ q2)%string.
  now rewrite !append_assoc.
Qed.

Lemma contains_trans (a b s : string) :
  contains a b = true -> contains b s = true -> contains a s = true.
Proof. rewrite !contains_spec. apply substring_trans. Qed.

Lemma date_time_line_is_new (line : string) :
  Substring "Date/Time" line -> detect (strip line) = Some New.
Proof.
  intros H. apply contains_spec in H. rewrite detect_strip.
  assert (Hd : contains "Date" line = true)
    by (apply (contains_trans "Date" "Date/Time"); [reflexivity | exact H]).
  unfold any_header_in. cbn [existsb new_format_headers]. now rewrite Hd.
Qed.

(** Whatever the file system does, [validate_file_format] returns and
    does not raise.  It returns False exactly when it appends one error,
    which is the message about missing headers or the text of the
    exception met on reading; it returns True exactly when it sets the
    format.  Warnings, frame and output are left alone, and the only
    call it makes reads the first line. *)
Theorem file_format_outcome (w : World) (st : State) :
  let out := validate_file_format w st in
  exists b, fst out = Ok b /\
    warnings (snd out) = warnings st /\ df (snd out) = df st /\
    stdout (snd out) = stdout st /\
    calls (snd out) = calls st ++ [CallReadline (csv_file st)] /\
    (b = true ->
       errors (snd out) = errors st /\ exists f, format_type (snd out) = Some f) /\
    (b = false ->
       format_type (snd out) = format_type st /\
       exists e, errors (snd out) = errors st ++ [e] /\
         (e = invalid_format \/
          exists x, readline w (csv_file st) = Raise x /\
                    e = ("Cannot read file: " ++ str_exn x)%string)).
Proof.
  unfold validate_file_format. state_simpl.
  destruct (readline w (csv_file st)) as [line|x].
  - destruct (detect (strip line)) as [f|]; state_simpl.
    + exists true. repeat split; try reflexivity; try discriminate. now exists f.
    + exists false. repeat split; try reflexivity; try discriminate.
      exists invalid_format. split; [reflexivity | now left].
  - exists false. state_simpl. repeat split; try reflexivity; try discriminate.
    eexists. split; [reflexivity|]. right. now exists x.
Qed.

(** Two tokens never decide the format.  A line is New exactly when it
    holds Date, Type, Action, Symbol or Value: the token Sub Type adds
    nothing.  A line is Legacy exactly when it holds none of these and
    holds Transaction Code, Transaction Subcode or Amount: a line with
    Date/Time holds Date and is New, so the token Date/Time never
    decides. *)
Theorem redundant_header_tokens (line : string) :
  let new_token :=
    Substring "Date" line \/ Substring "Type" line \/ Substring "Action" line \/
    Substring "Symbol" line \/ Substring "Value" line in
  (detect (strip line) = Some New <-> new_token) /\
  (detect (strip line) = Some Legacy <->
     ~ new_token /\
     (Substring "Transaction Code" line \/ Substring "Transaction Subcode" line \/
      Substring "Amount" line)) /\
  (Substring "Date/Time" line -> detect (strip line) = Some New).
Proof.
  cbv zeta. rewrite detect_strip. unfold any_header_in.
  cbn [existsb new_format_headers legacy_format_headers].
  rewrite <- !contains_spec.
  assert (Hs : contains "Sub Type" line = true -> contains "Type" line = true)
    by (apply contains_trans; reflexivity).
  assert (Hd : contains "Date/Time" line = true -> contains "Date" line = true)
    by (apply contains_trans; reflexivity).
  destruct (contains "Date" line); [cbn; intuition congruence|].
  destruct (contains "Date/Time" line); [specialize (Hd eq_refl); discriminate|].
  destruct (contains "Type" line); [cbn; intuition congruence|].
  destruct (contains "Sub Type" line); [specialize (Hs eq_refl); discriminate|].
  destruct (contains "Action" line); [cbn; intuition congruence|].
  destruct (contains "Symbol" line); [cbn; intuition congruence|].
  destruct (contains "Value" line); [cbn; intuition congruence|].
  destruct (contains "Transaction Code" line); [cbn; intuition congruence|].
  destruct (contains "Transaction Subcode" line); [cbn; intuition congruence|].
  destruct (contains "Amount" line); cbn; intuition congruence.
Qed.

Section LegacyLoad.

Variable tokenize : string -> Result RawTable.
Variable parse_float : string -> float.
Variable parse_datetime : list string -> option (list (Z * option Z)).

(** A file detected as Legacy never loads.  Its first line holds no
    Date, so, the header of the table being read from that line, the
    table has no Date/Time column and [read_csv] refuses it: the run
    returns False with one loading error and no frame, after reading the
    file itself and without calling the transformer. *)
Theorem legacy_file_never_loads (w : World) (now : Z) (path line : string) :
  readline w path = Ok line ->
  detect (strip line) = Some Legacy ->
  (forall text t, read_file w path = Ok text -> tokenize text = Ok t ->
                  In "Date/Time" (header t) -> Substring "Date/Time" line) ->
  let out := run_full_validation tokenize parse_float parse_datetime w now (init path) in
  exists e,
    fst out = Ok false /\ errors (snd out) = [loading_error e] /\
    warnings (snd out) = [] /\ df (snd out) = None /\
    calls (snd out) = [CallReadline path; CallReadFile path] /\
    (forall text t, read_file w path = Ok text -> tokenize text = Ok t ->
                    loading_error e = missing_date_column).
Proof.
  intros Hline Hdet Hheader.
  assert (Hno : forall text t, read_file w path = Ok text -> tokenize text = Ok t ->
                  existsb (fun name => (name =? date_column)%string) (header t) = false).
  { intros text t Hr Ht.
    destruct (existsb _ (header t)) eqn:E; [|reflexivity].
    apply existsb_exists in E as [name [Hin Hn]]. apply String.eqb_eq in Hn. subst name.
    pose proof (Hheader text t Hr Ht Hin) as Hsub.
    apply date_time_line_is_new in Hsub. congruence. }
  unfold_run. rewrite Hline, Hdet. state_simpl.
  destruct (read_file w path) as [text|e] eqn:Hr; state_simpl.
  - unfold read_csv_text. destruct (tokenize text) as [t|e] eqn:Ht; state_simpl.
    + unfold read_csv. rewrite (Hno text t eq_refl Ht). state_simpl.
      eexists. repeat split; try reflexivity.
    + exists e. state_simpl. repeat split; try reflexivity.
      intros text' t' H. injection H as <-. congruence.
  - exists e. repeat split; try reflexivity. discriminate.
Qed.

End LegacyLoad.

End DetectionFacts.

(** ** The symbol pattern and the symbol rule *)

Module SymbolFacts.

Import PyStr PyStrFacts Pandas Validator Spec CheckFacts QualityFacts ConsistencyFacts.

Lemma symbol_char_line_feed (c : ascii) :
  symbol_char c = true -> (nat_of_ascii c =? 10) = false.
Proof.
  unfold symbol_char. destruct (nat_of_ascii c =? 10) eqn:E; [|reflexivity].
  apply Nat.eqb_eq in E. rewrite E. discriminate.
Qed.

Lemma match_tail_spec (s : string) (n : nat) :
  match_tail n s = true <->
  exists body,
    (s = body \/ s = (body ++ line_feed)%string) /\
    String.length body <= n /\ all_chars symbol_char body = true.
Proof.
  revert n; induction s as [|c s IH]; intros n.
  - split; [|intros _; destruct n; reflexivity]. intros _. exists EmptyString.
    repeat split; [now left | simpl; lia].
  - replace (match_tail n (String c s)) with
      (if symbol_char c then
         match n with O => false | S n' => match_tail n' s end
       else (nat_of_ascii c =? 10) && match s with EmptyString => true | _ => false end)
      by (destruct n; reflexivity).
    destruct (symbol_char c) eqn:Hc.
    + destruct n as [|n].
      * split; [discriminate|]. intros (body & Hs & Hlen & Hall).
        destruct body as [|b body]; [|simpl in Hlen; lia].
        destruct Hs as [Hs|Hs]; [discriminate|]. injection Hs as -> _.
        discriminate.
      * rewrite IH. split.
        -- intros (body & Hs & Hlen & Hall). exists (String c body).
           split; [destruct Hs as [->| ->]; [now left | now right]|].
           split; [simpl; lia | simpl; now rewrite Hc].
        -- intros (body & Hs & Hlen & Hall).
           destruct body as [|b body].
           ++ destruct Hs as [Hs|Hs]; [discriminate|]. injection Hs as -> _.
              discriminate.
           ++ simpl in Hlen, Hall. apply andb_true_iff in Hall as [_ Hall].
              exists body. split; [|split; [lia | exact Hall]].
              destruct Hs as [Hs|Hs]; injection Hs as _ ->; [now left | now right].
    + rewrite andb_true_iff, Nat.eqb_eq. split.
      * intros [Hn Hs]. destruct s; [|discriminate].
        exists EmptyString. split; [right | split; [simpl; lia | reflexivity]].
        simpl. unfold line_feed. f_equal.
        rewrite <- (ascii_nat_embedding c), Hn. reflexivity.
      * intros (body & Hs & Hlen & Hall). destruct body as [|b body].
        -- destruct Hs as [Hs|Hs]; [discriminate|]. injection Hs as -> ->.
           split; reflexivity.
        -- simpl in Hall. apply andb_true_iff in Hall as [Hb _].
           destruct Hs as [Hs|Hs]; injection Hs as -> _; congruence.
Qed.

(** The matcher accepts exactly the strings the pattern
    [^[A-Z/]{1,10}$] describes. *)
Theorem match_symbol_shaped (s : string) :
  match_symbol s = true <-> symbol_shaped s.
Proof.
  unfold match_symbol, symbol_shaped. destruct s as [|c s].
  - split; [discriminate|]. intros (body & Hs & Hlen & _).
    destruct body; [simpl in Hlen; lia |].
    destruct Hs as [Hs|Hs]; discriminate.
  - rewrite andb_true_iff, match_tail_spec. split.
    + intros [Hc (body & Hs & Hlen & Hall)]. exists (String c body).
      split; [destruct Hs as [->| ->]; [now left | now right]|].
      split; [simpl; lia | simpl; now rewrite Hc].
    + intros (body & Hs & Hlen & Hall). destruct body as [|b body]; [simpl in Hlen; lia|].
      simpl in Hlen, Hall. apply andb_true_iff in Hall as [Hb Hall].
      assert (c = b) as -> by (destruct Hs as [Hs|Hs]; now injection Hs).
      split; [exact Hb|]. exists body. split; [|split; [lia | exact Hall]].
      destruct Hs as [Hs|Hs]; injection Hs as ->; [now left | now right].
Qed.

Lemma select_map_filter {A} (f : A -> bool) (l : list A) :
  select l (map f l) = filter f l.
Proof. induction l as [|x l IH]; simpl; [reflexivity | now rewrite IH]. Qed.

Lemma filter_filter {A} (f g : A -> bool) (l : list A) :
  filter f (filter g l) = filter (fun x => g x && f x) l.
Proof.
  induction l as [|x l IH]; simpl; [reflexivity|].
  destruct (g x); simpl; [destruct (f x)|]; now rewrite IH.
Qed.

Lemma unique_acc_distinct (seen l : list cell) :
  (forall c, In c (unique_acc seen l) -> existsb (cell_eqb c) seen = false) /\
  distinct_cells (unique_acc seen l).
Proof.
  revert seen; induction l as [|x l IH]; intros seen; simpl.
  - split; [tauto | constructor].
  - destruct (existsb (cell_eqb x) seen) eqn:E; [apply IH|].
    destruct (IH (x :: seen)) as [Hseen Hdis]. split.
    + intros c [<-|Hc]; [exact E|].
      specialize (Hseen c Hc). simpl in Hseen. now apply orb_false_iff in Hseen.
    + constructor; [|exact Hdis]. apply Forall_forall. intros c Hc.
      specialize (Hseen c Hc). simpl in Hseen. now apply orb_false_iff in Hseen.
Qed.

Lemma in_firstn {A} (n : nat) (l : list A) (x : A) : In x (firstn n l) -> In x l.
Proof.
  revert l; induction n as [|n IH]; intros [|y l]; simpl; try tauto.
  intros [H|H]; [now left | right; now apply IH].
Qed.

Lemma distinct_firstn (n : nat) (l : list cell) :
  distinct_cells l -> distinct_cells (firstn n l).
Proof.
  unfold distinct_cells. revert l; induction n as [|n IH]; intros l H; [constructor|].
  destruct H as [|x l Hx Hl]; simpl; [constructor|].
  constructor; [|now apply IH].
  apply Forall_forall. intros c Hc. apply in_firstn in Hc.
  now apply (proj1 (Forall_forall _ _) Hx).
Qed.

Lemma check_symbols_object (d : DataFrame) (s : Series) :
  lookup "Symbol" (columns d) = Some s -> dtype s = Object ->
  no_strings (values s) = false ->
  check_symbols d =
  (match filter unusual (values s) with
   | [] => []
   | u => [UnusualSymbols (firstn 5 (unique u))]
   end, Ok tt).
Proof.
  intros Hs Hd Hn. unfold check_symbols, has_column, getitem. rewrite Hs.
  cbn [when]. unfold eval. cbn [andThen]. unfold str_match_symbol.
  rewrite no_strings_dropna, Hn.
  cbn [dtype dropna]. rewrite Hd. cbn [andThen values].
  rewrite map_map, select_map_filter. unfold dropna. cbn [values].
  rewrite filter_filter.
  replace (filter _ (values s)) with (filter unusual (values s))
    by (apply filter_ext; intros c; now destruct c).
  destruct (filter unusual (values s)); reflexivity.
Qed.

(** The symbol rule.  A Symbol column that is not an object column
    makes the rule raise, as the [.str] accessor does, and so does an
    object column whose entries, the missing ones apart, are all numbers,
    all booleans or all datetimes.  On any other object column the rule
    returns; it warns exactly when some entry is not missing and does not
    match the pattern, and then once: the entries listed are such entries
    of the column, at least one and at most five, no two equal, and all
    the offending strings when fewer than five are listed. *)
Theorem unusual_symbols_rule (d : DataFrame) (s : Series) :
  lookup "Symbol" (columns d) = Some s ->
  (dtype s <> Object \/ without_strings (values s) ->
     check_symbols d =
     ([], Raise (Exception AttributeError
                   "Can only use .str accessor with string values!"))) /\
  (dtype s = Object -> ~ without_strings (values s) ->
     snd (check_symbols d) = Ok tt /\
     ((forall c, In c (values s) -> unusual c = false) -> fst (check_symbols d) = []) /\
     ((exists c, In c (values s) /\ unusual c = true) ->
      exists l,
        fst (check_symbols d) = [UnusualSymbols l] /\
        1 <= length l <= 5 /\
        (forall c, In c l -> In c (values s) /\ unusual c = true) /\
        distinct_cells l /\
        (length l < 5 ->
         forall t, In (Text t) (values s) -> unusual (Text t) = true -> In (Text t) l))).
Proof.
  intros Hs. split.
  - intros Hd. unfold check_symbols, has_column, getitem. rewrite Hs.
    cbn [when]. unfold eval. cbn [andThen]. unfold str_match_symbol.
    rewrite no_strings_dropna. cbn [dtype dropna].
    destruct Hd as [Hd | Hd].
    + destruct (dtype s); (reflexivity || congruence).
    + apply no_strings_spec in Hd. rewrite Hd. now destruct (dtype s).
  - intros Hd Hn. apply no_strings_false in Hn.
    rewrite (check_symbols_object d s Hs Hd Hn).
    split; [reflexivity|]. split.
    + intros Hnone. cbn [fst].
      destruct (filter unusual (values s)) as [|c u] eqn:E; [reflexivity|].
      assert (Hc : In c (filter unusual (values s))) by (rewrite E; now left).
      apply filter_In in Hc as [Hin Hu]. rewrite (Hnone c Hin) in Hu. discriminate.
    + intros (c & Hin & Hu). cbn [fst].
      assert (Hc : In c (filter unusual (values s))) by (apply filter_In; now split).
      destruct (filter unusual (values s)) as [|x u] eqn:E; [destruct Hc|].
      rewrite <- E in *. clear c Hin Hu Hc.
      exists (firstn 5 (unique (filter unusual (values s)))).
      split; [reflexivity|]. split; [|split; [|split]].
      * split; [|apply firstn_le_length].
        rewrite E. unfold unique. simpl. lia.
      * intros c Hc. apply in_firstn, unique_in, filter_In in Hc. exact Hc.
      * apply distinct_firstn, unique_acc_distinct.
      * intros Hlen t Hin Hu.
        assert (Hall : firstn 5 (unique (filter unusual (values s))) =
                       unique (filter unusual (values s))).
        { apply firstn_all2.
          destruct (Nat.le_gt_cases (length (unique (filter unusual (values s)))) 5)
            as [H|H]; [exact H|].
          rewrite firstn_length_le in Hlen by lia. lia. }
        rewrite Hall. apply unique_text. apply filter_In. now split.
Qed.

End SymbolFacts.

(** ** The rules on missing values, dates and large amounts *)

Module RuleFacts.

Import Pandas Validator Spec CheckFacts QualityFacts ConsistencyFacts.

Lemma check_missing_eq (d : DataFrame) :
  check_missing d =
  (flat_map (fun col =>
               match lookup col (columns d) with
               | Some s => one_if (missing_rows s) (MissingValues (missing_rows s) col)
               | None => []
               end) critical_columns,
   Ok tt).
Proof.
  unfold check_missing, critical_columns, has_column, getitem, one_if, missing_rows.
  cbn [for_each flat_map].
  destruct (lookup "Date/Time" (columns d)) as [s1|];
    destruct (lookup "Amount" (columns d)) as [s2|];
    destruct (lookup "Symbol" (columns d)) as [s3|];
    cbn [when]; unfold eval; cbn [andThen]; rewrite ?count_true_map;
    repeat match goal with
           | |- context [0 <? ?n] => destruct (0 <? n)
           end; reflexivity.
Qed.

(** The rule on missing values never raises.  It warns about a column
    exactly when the column is one of Date/Time, Amount and Symbol, is in
    the frame and has missing entries, with their number; a column that
    is absent is passed over.  So there are at most three warnings. *)
Theorem missing_values_rule (d : DataFrame) :
  snd (check_missing d) = Ok tt /\
  length (fst (check_missing d)) <= 3 /\
  (forall w, In w (fst (check_missing d)) <->
     exists col s,
       In col critical_columns /\ lookup col (columns d) = Some s /\
       0 < missing_rows s /\ w = MissingValues (missing_rows s) col).
Proof.
  rewrite check_missing_eq. cbn [fst snd]. split; [reflexivity|]. split.
  - unfold critical_columns, one_if. cbn [flat_map].
    destruct (lookup "Date/Time" (columns d)) as [s1|];
      destruct (lookup "Amount" (columns d)) as [s2|];
      destruct (lookup "Symbol" (columns d)) as [s3|];
      repeat match goal with
             | |- context [0 <? ?n] => destruct (0 <? n)
             end; simpl; lia.
  - intros w. rewrite in_flat_map. split.
    + intros (col & Hcol & Hw). destruct (lookup col (columns d)) as [s|] eqn:E; [|destruct Hw].
      apply in_one_if in Hw as [-> Hpos]. now exists col, s.
    + intros (col & s & Hcol & Hs & Hpos & ->). exists col. split; [exact Hcol|].
      rewrite Hs. apply in_one_if. now split.
Qed.


Lemma fold_min_le_start (ts : list Z) (t : Z) : (fold_left Z.min ts t <= t)%Z.
Proof.
  revert t; induction ts as [|x ts IH]; intros t; simpl; [lia|].
  specialize (IH (Z.min t x)). lia.
Qed.

Lemma fold_max_ge_start (ts : list Z) (t : Z) : (t <= fold_left Z.max ts t)%Z.
Proof.
  revert t; induction ts as [|x ts IH]; intros t; simpl; [lia|].
  specialize (IH (Z.max t x)). lia.
Qed.






Section Amounts.

Variable parse_float : string -> float.

Lemma exceeds_million_spec (x : float) : exceeds_million x = true <-> beyond_million x.
Proof.
  destruct x as [|q|b]; simpl.
  - split; [discriminate | tauto].
  - rewrite negb_true_iff. split.
    + intros H. apply Qnot_le_lt. intros Hle.
      apply Qle_bool_iff in Hle. congruence.
    + intros H. destruct (Qle_bool (Qabs q) (inject_Z 1000000)) eqn:E; [|reflexivity].
      apply Qle_bool_iff in E. exfalso. exact (Qlt_not_le _ _ H E).
  - tauto.
Qed.

Lemma exceeds_million_gt (x : float) :
  float_gt (float_abs x) (inject_Z 1000000) = exceeds_million x.
Proof. now destruct x. Qed.

Lemma all_ints_values (l : list cell) :
  forallb whole l = true -> all_ints l = Some (map whole_value l).
Proof.
  induction l as [|c l IH]; [reflexivity|].
  simpl. intros H. apply andb_true_iff in H as [Hc Hl].
  rewrite (IH Hl). now destruct c.
Qed.

Lemma all_ints_none (l : list cell) : forallb whole l = false -> all_ints l = None.
Proof.
  induction l as [|c l IH]; [discriminate|].
  simpl. intros H. apply andb_false_iff in H as [Hc | Hl].
  - now destruct c.
  - rewrite (IH Hl). now destruct c.
Qed.

(** What [to_numeric] returns: integers for a column of integers, floats
    for any other. *)
Lemma to_numeric_ints (s : Series) :
  integer_column s = true ->
  to_numeric parse_float s = Ints (map whole_value (values s)).
Proof.
  unfold integer_column, to_numeric.
  destruct (dtype s); try discriminate; intros H; now rewrite (all_ints_values _ H).
Qed.

Lemma to_numeric_floats (s : Series) :
  integer_column s = false ->
  to_numeric parse_float s = Floats (map (coerce parse_float) (values s)).
Proof.
  unfold integer_column, to_numeric.
  destruct (dtype s); try reflexivity; intros H; now rewrite (all_ints_none _ H).
Qed.

Lemma wrap64_in_range (z : Z) : (int64_min <= z <= int64_max)%Z -> wrap64 z = z.
Proof.
  unfold wrap64, int64_min, int64_max. intros H.
  rewrite Z.mod_small by lia. lia.
Qed.

Lemma int_abs_in_range (z : Z) :
  (int64_min < z <= int64_max)%Z -> int_abs z = Z.abs z.
Proof.
  intros H. unfold int_abs. apply wrap64_in_range.
  unfold int64_min, int64_max in *. lia.
Qed.

Lemma large_whole (s : Series) (c : cell) :
  integer_column s = true -> whole c = true ->
  (forall z, c = Int z -> (int64_min <= z <= int64_max)%Z) ->
  (1000000 <? int_abs (whole_value c))%Z = large_amount parse_float s c.
Proof.
  intros Hs Hc Hrange. unfold large_amount. rewrite Hs. cbn [andb].
  destruct c as [ | | | | |z|b| ]; try discriminate.
  - cbn [whole_value amount_of is_int64_min exceeds_million].
    destruct (Z.eqb_spec z int64_min) as [->|Hne].
    + reflexivity.
    + specialize (Hrange z eq_refl).
      rewrite int_abs_in_range by lia. rewrite andb_true_r.
      apply eq_true_iff_eq.
      rewrite Z.ltb_lt, negb_true_iff, <- not_true_iff_false, Qle_bool_iff.
      unfold Qle, Qabs, inject_Z. cbn [Qnum Qden]. lia.
  - now destruct b.
Qed.

(** [amounts.abs() > 1000000], entry by entry. *)
Lemma abs_gt_million_to_numeric (s : Series) :
  ordinary_column s ->
  abs_gt_million (to_numeric parse_float s) = map (large_amount parse_float s) (values s).
Proof.
  intros Hrange. destruct (integer_column s) eqn:E.
  - rewrite (to_numeric_ints s E). cbn [abs_gt_million]. rewrite map_map.
    apply map_ext_in. intros c Hc. apply large_whole; [exact E | |].
    + unfold integer_column in E.
      destruct (dtype s); try discriminate;
        now apply (proj1 (forallb_forall _ _) E).
    + intros z ->. specialize (Hrange _ Hc). unfold integer_column in E.
      destruct (dtype s); try discriminate; try exact Hrange; contradiction.
  - rewrite (to_numeric_floats s E). cbn [abs_gt_million]. rewrite map_map.
    apply map_ext. intros c. unfold large_amount.
    now rewrite exceeds_million_gt, amount_of_coerce, E, andb_true_r.
Qed.

(** The rule on large amounts, on an Amount column as [read_csv]
    builds one.  It warns exactly when some row is counted, with the
    number of such rows.  A row is counted when its amount lies beyond one million in
    either direction; an amount of one million itself, and one that is no
    number, are not counted, and neither is the smallest [int64] in a
    column of integers, whose absolute value wraps around.  The
    warning is given also when the frame has no Transaction Code column;
    the rule on zero amounts then raises KeyError, and so does the whole
    quality check unless the rules on dates raised before. *)
Theorem large_amount_rule (d : DataFrame) (amount : Series) :
  lookup "Amount" (columns d) = Some amount ->
  ordinary_column amount ->
  let rows := length (filter (large_amount parse_float amount) (values amount)) in
  (forall c, large_amount parse_float amount c = true <->
             beyond_million (amount_of parse_float c) /\
             ~ (integer_column amount = true /\ c = Int int64_min)) /\
  (forall n, In (LargeAmounts n) (fst (check_amounts parse_float d)) <->
             n = rows /\ 0 < n) /\
  (lookup "Transaction Code" (columns d) = None ->
     snd (check_amounts parse_float d) = Raise (Exception KeyError "'Transaction Code'") /\
     forall now, snd (check_dates now d) = Ok tt ->
       snd (data_quality_checks parse_float now d) =
       Raise (Exception KeyError "'Transaction Code'")).
Proof.
  intros Ha Hrange rows. split.
  { intros c. unfold large_amount.
    rewrite andb_true_iff, exceeds_million_spec, negb_true_iff.
    apply and_iff_compat_l. rewrite andb_false_iff. split.
    - intros H [Hi Hc]. subst c. rewrite Hi in H. destruct H; discriminate.
    - intros H. destruct (integer_column amount); [|now left]. right.
      destruct c as [ | | | | |z| | ]; try reflexivity. cbn [is_int64_min].
      apply Z.eqb_neq. intros ->. now apply H. }
  assert (Hrows : large_amount_rows parse_float amount = rows).
  { unfold large_amount_rows. rewrite (abs_gt_million_to_numeric amount Hrange).
    apply count_true_map. }
  clearbody rows. subst rows. split.
  - intros n. destruct (lookup "Transaction Code" (columns d)) as [code|] eqn:Hc.
    + rewrite (check_amounts_present parse_float d amount code Ha Hc). cbn [fst].
      rewrite in_app_iff, !in_one_if. split.
      * intros [[H Hpos]|[H _]]; [|discriminate]. injection H as ->. now split.
      * intros [-> Hpos]. left. now split.
    + rewrite (check_amounts_without_code parse_float d amount Ha Hc). cbn [fst].
      rewrite in_one_if. split.
      * intros [H Hpos]. injection H as ->. now split.
      * intros [-> Hpos]. now split.
  - intros Hc. rewrite (check_amounts_without_code parse_float d amount Ha Hc).
    split; [reflexivity|]. intros now Hdates.
    unfold data_quality_checks.
    pose proof (check_missing_returns d) as Hm.
    destruct (check_missing d) as [w1 r1]. cbn [snd] in Hm. subst r1.
    destruct (check_dates now d) as [w2 r2]. cbn [snd] in Hdates. subst r2.
    rewrite (check_amounts_without_code parse_float d amount Ha Hc). reflexivity.
Qed.

End Amounts.

End RuleFacts.

(** ** The report and the exit status *)

Module ReportFacts.

Import Pandas Validator Spec Examples QualityFacts SummaryFacts RunFacts.

Section Report.

Variable tokenize : string -> Result RawTable.
Variable parse_float : string -> float.
Variable parse_datetime : list string -> option (list (Z * option Z)).

Local Abbreviation run := (run_full_validation tokenize parse_float parse_datetime).
Local Abbreviation loaded := (loaded_frame tokenize parse_float parse_datetime).

Ltac split_check c ws r :=
  destruct c as [ws r]; cbn [fst snd] in *.

(** The outcome of a run, from the frame it loads and its checks. *)
Lemma run_outcome (w : World) (now : Z) (path : string) :
  fst (run w now (init path)) =
  match loaded w path with
  | None => Ok false
  | Some d =>
      bindR (snd (data_quality_checks parse_float now d)) (fun _ =>
      bindR (snd (consistency_checks parse_float d)) (fun _ =>
      bindR (summary_stats parse_float d) (fun _ => Ok true)))
  end.
Proof.
  assert (Htail : forall d st,
            df st = Some d -> errors st = [] ->
            fst ((validate_data_quality parse_float now ;;
                  validate_transaction_consistency parse_float ;;
                  stats <- generate_summary_stats parse_float ;;
                  print_summary stats ;; report)%method st) =
            bindR (snd (data_quality_checks parse_float now d)) (fun _ =>
            bindR (snd (consistency_checks parse_float d)) (fun _ =>
            bindR (summary_stats parse_float d) (fun _ => Ok true)))).
  { intros d st Hd He. unfold_run. rewrite Hd.
    split_check (data_quality_checks parse_float now d) qw qr.
    destruct qr as [[]|e]; state_simpl; [|reflexivity].
    rewrite Hd.
    split_check (consistency_checks parse_float d) cw cr.
    destruct cr as [[]|e]; state_simpl; [|reflexivity].
    rewrite Hd.
    destruct (summary_stats parse_float d) as [stats|e]; state_simpl; [|reflexivity].
    destruct (transaction_types stats); state_simpl;
      destruct ((warnings st ++ qw) ++ cw); state_simpl; rewrite He; reflexivity. }
  unfold loaded_frame. unfold run_full_validation at 1.
  unfold bind at 1. unfold print_all at 1. unfold bind at 1.
  unfold validate_file_format at 1. state_simpl.
  destruct (readline w path) as [line|e]; [|reflexivity].
  destruct (detect (PyStr.strip line)) as [[|]|]; state_simpl; [| |reflexivity].
  - unfold bind at 1. unfold print at 1. unfold bind at 1. unfold load_data at 1.
    state_simpl.
    destruct (bindR (transform_csv w path) _) as [d|e]; state_simpl; [|reflexivity].
    unfold bind at 1. unfold print at 1. state_simpl.
    now rewrite (Htail d).
  - unfold bind at 1. unfold print at 1. unfold bind at 1. unfold load_data at 1.
    state_simpl.
    destruct (bindR (read_file w path) _) as [d|e]; state_simpl; [|reflexivity].
    unfold bind at 1. unfold print at 1. state_simpl.
    now rewrite (Htail d).
Qed.

Lemma no_error_line_warnings (ws : list Warning) :
  existsb error_line (map PrintWarning ws) = false.
Proof. induction ws as [|x ws IH]; [reflexivity | exact IH]. Qed.

Lemma no_error_line_types (types : list (cell * nat)) :
  existsb error_line (map (fun kv => PrintType (fst kv) (snd kv)) types) = false.
Proof. induction types as [|x types IH]; [reflexivity | exact IH]. Qed.

Local Abbreviation after_loading now :=
  (validate_data_quality parse_float now ;;
   validate_transaction_consistency parse_float ;;
   stats <- generate_summary_stats parse_float ;;
   print_summary stats ;; report)%method.

(** What follows loading, when no check raises. *)
Lemma after_loading_succeeds (now : Z) (d : DataFrame) (st : State) (stats : Stats) :
  df st = Some d -> errors st = [] -> warnings st = [] ->
  snd (data_quality_checks parse_float now d) = Ok tt ->
  snd (consistency_checks parse_float d) = Ok tt ->
  summary_stats parse_float d = Ok stats ->
  let out := after_loading now st in
  let ws := fst (data_quality_checks parse_float now d) ++
            fst (consistency_checks parse_float d) in
  fst out = Ok true /\ errors (snd out) = [] /\ df (snd out) = Some d /\
  calls (snd out) = calls st /\ warnings (snd out) = ws /\
  stdout (snd out) = stdout st ++ summary_lines stats ++ closing_lines ws.
Proof.
  intros Hd He Hw Hq Hc Hs. unfold_run. rewrite Hd.
  split_check (data_quality_checks parse_float now d) qw qr. subst qr. state_simpl.
  rewrite Hd.
  split_check (consistency_checks parse_float d) cw cr. subst cr. state_simpl.
  rewrite Hd, Hs. state_simpl.
  unfold summary_lines, closing_lines.
  destruct (transaction_types stats) as [|kv types];
    repeat (progress (state_simpl; rewrite ?Hw, ?He; cbn [app]));
    destruct (qw ++ cw) as [|x ws] eqn:E;
    repeat (progress (state_simpl; rewrite ?Hw, ?He; cbn [app]; rewrite ?E));
    repeat split; try assumption;
    rewrite <- ?app_assoc; reflexivity.
Qed.

(** What follows loading displays no error. *)
Lemma after_loading_no_error_line (now : Z) (d : DataFrame) (st : State) :
  df st = Some d -> errors st = [] ->
  existsb error_line (stdout st) = false ->
  existsb error_line (stdout (snd (after_loading now st))) = false.
Proof.
  intros Hd He Hout. unfold_run. rewrite Hd.
  split_check (data_quality_checks parse_float now d) qw qr.
  destruct qr as [[]|e]; state_simpl; [|exact Hout].
  rewrite Hd.
  split_check (consistency_checks parse_float d) cw cr.
  destruct cr as [[]|e]; state_simpl; [|exact Hout].
  rewrite Hd.
  destruct (summary_stats parse_float d) as [stats|e]; state_simpl; [|exact Hout].
  destruct (transaction_types stats) as [|kv types]; state_simpl;
    destruct ((warnings st ++ qw) ++ cw) as [|x ws] eqn:E;
    repeat (progress (state_simpl; rewrite ?He, ?E));
    rewrite ?existsb_app, Hout; cbn [existsb error_line orb map];
    rewrite ?no_error_line_warnings, ?no_error_line_types; reflexivity.
Qed.

(** The state in which the checks start, for a file that loads. *)
Lemma run_loaded (w : World) (now : Z) (path : string) (d : DataFrame) :
  loaded w path = Some d ->
  exists f st,
    detected_format w path = Some f /\
    run w now (init path) = after_loading now st /\
    df st = Some d /\ errors st = [] /\ warnings st = [] /\
    calls st = [CallReadline path; source_call f path] /\
    stdout st = [PrintValidating path; PrintRule; PrintFormat f; PrintLoaded (len d)].
Proof.
  unfold loaded_frame, detected_format. unfold run_full_validation at 1.
  unfold bind at 1. unfold print_all at 1. unfold bind at 1.
  unfold validate_file_format at 1. state_simpl.
  destruct (readline w path) as [line|e]; [|discriminate].
  destruct (detect (PyStr.strip line)) as [[|]|]; state_simpl; [| |discriminate].
  - unfold bind at 1. unfold print at 1. unfold bind at 1. unfold load_data at 1.
    state_simpl.
    destruct (bindR (transform_csv w path) _) as [d'|e]; [|discriminate].
    intros H. injection H as ->. state_simpl.
    unfold bind at 1. unfold print at 1. state_simpl.
    eexists New, _. split; [reflexivity|]. split; [reflexivity|].
    repeat split; reflexivity.
  - unfold bind at 1. unfold print at 1. unfold bind at 1. unfold load_data at 1.
    state_simpl.
    destruct (bindR (read_file w path) _) as [d'|e]; [|discriminate].
    intros H. injection H as ->. state_simpl.
    unfold bind at 1. unfold print at 1. state_simpl.
    eexists Legacy, _. split; [reflexivity|]. split; [reflexivity|].
    repeat split; reflexivity.
Qed.

(** The report of a run that succeeds.  The file was detected and
    loaded, and no check raised.  The warnings of the quality check come
    first, then those of the consistency check, and nothing else is
    recorded.  The output is the four opening lines, the summary, and
    the closing block, which displays every warning in that order under
    their number, or the line about no issues when there is none. *)
Theorem successful_run_report (w : World) (now : Z) (path : string) :
  fst (run w now (init path)) = Ok true ->
  let st := snd (run w now (init path)) in
  exists f d stats,
    detected_format w path = Some f /\ loaded w path = Some d /\
    summary_stats parse_float d = Ok stats /\
    df st = Some d /\ errors st = [] /\
    calls st = [CallReadline path; source_call f path] /\
    warnings st = fst (data_quality_checks parse_float now d) ++
                  fst (consistency_checks parse_float d) /\
    stdout st = [PrintValidating path; PrintRule; PrintFormat f; PrintLoaded (len d)] ++
                summary_lines stats ++ closing_lines (warnings st).
Proof.
  intros Hrun st. subst st. rewrite run_outcome in Hrun.
  destruct (loaded w path) as [d|] eqn:Hl; [|discriminate].
  destruct (snd (data_quality_checks parse_float now d)) as [[]|e] eqn:Hq; [|discriminate].
  destruct (snd (consistency_checks parse_float d)) as [[]|e] eqn:Hc; [|discriminate].
  destruct (summary_stats parse_float d) as [stats|e] eqn:Hs; [|discriminate].
  destruct (run_loaded w now path d Hl) as (f & st & Hf & -> & Hd & He & Hw & Hcalls & Hout).
  destruct (after_loading_succeeds now d st stats Hd He Hw Hq Hc Hs)
    as (_ & He' & Hd' & Hcalls' & Hw' & Hout').
  exists f, d, stats. rewrite Hw', Hout', Hout, Hcalls', Hcalls.
  repeat split; assumption.
Qed.

(** The process exits with status 0 exactly when it was given one
    argument, the file named was detected and loaded, and neither check
    nor the summary raised: warnings never change the exit status.  A
    run returns False exactly when no frame was loaded; once a frame is
    loaded the run returns True or raises. *)
Theorem exit_status_zero (w : World) (now : Z) (argv : list string) :
  (fst (main tokenize parse_float parse_datetime w now argv) = 0%Z <->
   exists program path d stats,
     argv = [program; path] /\ loaded w path = Some d /\
     snd (data_quality_checks parse_float now d) = Ok tt /\
     snd (consistency_checks parse_float d) = Ok tt /\
     summary_stats parse_float d = Ok stats) /\
  (length argv <> 2 ->
   main tokenize parse_float parse_datetime w now argv = (1%Z, [PrintUsage])) /\
  (forall path, fst (run w now (init path)) = Ok false <-> loaded w path = None).
Proof.
  assert (Hfalse : forall path,
            fst (run w now (init path)) = Ok false <-> loaded w path = None).
  { intros path. rewrite run_outcome. destruct (loaded w path) as [d|]; [|tauto].
    destruct (snd (data_quality_checks parse_float now d)) as [[]|e]; cbn [bindR];
      [|split; discriminate].
    destruct (snd (consistency_checks parse_float d)) as [[]|e]; cbn [bindR];
      [|split; discriminate].
    destruct (summary_stats parse_float d) as [stats|e]; cbn [bindR]; split; discriminate. }
  split; [|split; [|exact Hfalse]].
  - split.
    + destruct argv as [|program [|path [|extra argv]]]; try discriminate.
      rewrite main_exit_status, run_outcome.
      destruct (loaded w path) as [d|] eqn:Hl; [|discriminate].
      destruct (snd (data_quality_checks parse_float now d)) as [[]|e] eqn:Hq;
        [|discriminate].
      destruct (snd (consistency_checks parse_float d)) as [[]|e] eqn:Hc;
        [|discriminate].
      destruct (summary_stats parse_float d) as [stats|e] eqn:Hs; [|discriminate].
      intros _. now exists program, path, d, stats.
    + intros (program & path & d & stats & -> & Hl & Hq & Hc & Hs).
      rewrite main_exit_status, run_outcome, Hl, Hq, Hc, Hs. reflexivity.
  - destruct argv as [|program [|path [|extra argv]]]; try reflexivity.
    simpl. congruence.
Qed.

Lemma after_loading_errors (now : Z) (d : DataFrame) (st : State) :
  df st = Some d -> errors st = [] -> errors (snd (after_loading now st)) = [].
Proof.
  intros Hd He. unfold_run. rewrite Hd.
  split_check (data_quality_checks parse_float now d) qw qr.
  destruct qr as [[]|e]; state_simpl; [|exact He].
  rewrite Hd.
  split_check (consistency_checks parse_float d) cw cr.
  destruct cr as [[]|e]; state_simpl; [|exact He].
  rewrite Hd.
  destruct (summary_stats parse_float d) as [stats|e]; state_simpl; [|exact He].
  destruct (transaction_types stats) as [|kv types]; state_simpl;
    destruct ((warnings st ++ qw) ++ cw) as [|x ws] eqn:E;
    repeat (progress (state_simpl; rewrite ?He, ?E)); reflexivity.
Qed.

(** The output of a run that loads no frame. *)
Lemma run_not_loaded (w : World) (now : Z) (path : string) :
  loaded w path = None ->
  let st := snd (run w now (init path)) in
  stdout st = [PrintValidating path; PrintRule; PrintFormatFailed] \/
  exists f, stdout st = [PrintValidating path; PrintRule; PrintFormat f; PrintLoadFailed].
Proof.
  unfold loaded_frame. unfold_run.
  destruct (readline w path) as [line|e]; state_simpl; [|intros _; now left].
  destruct (detect (PyStr.strip line)) as [[|]|]; state_simpl; [| |intros _; now left].
  - destruct (bindR (transform_csv w path) _) as [d|e]; state_simpl; [discriminate|].
    intros _. right. now exists New.
  - destruct (bindR (read_file w path) _) as [d|e]; state_simpl; [discriminate|].
    intros _. right. now exists Legacy.
Qed.

(** No run displays an error.  The block of lines 209-213 is never
    reached with an error on record.  When detection or loading fails,
    the message recorded is not printed: the output ends with the line
    that says which step failed, and the run returns False. *)
Theorem errors_never_displayed (w : World) (now : Z) (path : string) :
  let st := snd (run w now (init path)) in
  existsb error_line (stdout st) = false /\
  (errors st <> [] ->
   fst (run w now (init path)) = Ok false /\
   (stdout st = [PrintValidating path; PrintRule; PrintFormatFailed] \/
    exists f,
      stdout st = [PrintValidating path; PrintRule; PrintFormat f; PrintLoadFailed])).
Proof.
  cbv zeta. destruct (loaded w path) as [d|] eqn:Hl.
  - destruct (run_loaded w now path d Hl) as (f & st & _ & -> & Hd & He & _ & _ & Hout).
    split.
    + apply (after_loading_no_error_line now d st Hd He). now rewrite Hout.
    + intros H. now rewrite (after_loading_errors now d st Hd He) in H.
  - pose proof (run_not_loaded w now path Hl) as Hout. cbv zeta in Hout. split.
    + destruct Hout as [-> | [f ->]]; reflexivity.
    + intros _. split; [|exact Hout].
      rewrite run_outcome, Hl. reflexivity.
Qed.

End Report.

End ReportFacts.

(** ** Invariants of the summary *)

Module StatsFacts.

Import Pandas Validator Spec CountFacts SummaryFacts RuleFacts.

Lemma lookup_in (col : string) (cs : list (string * Series)) (s : Series) :
  lookup col cs = Some s -> In (col, s) cs.
Proof.
  induction cs as [|[name s'] cs IH]; simpl; [discriminate|].
  destruct (String.eqb_spec name col) as [->|_].
  - intros H. injection H as ->. now left.
  - intros H. right. now apply IH.
Qed.

Lemma length_filter_le {A} (f : A -> bool) (l : list A) :
  length (filter f l) <= length l.
Proof.
  induction l as [|x l IH]; simpl; [lia|]. destruct (f x); simpl; lia.
Qed.

Lemma length_unique_acc (seen l : list cell) : length (unique_acc seen l) <= length l.
Proof.
  revert seen; induction l as [|x l IH]; intros seen; simpl; [lia|].
  destruct (existsb (cell_eqb x) seen); simpl.
  - specialize (IH seen). lia.
  - specialize (IH (x :: seen)). lia.
Qed.

Lemma sum_bump (c : cell) (table : list (cell * nat)) :
  list_sum (map snd (bump c table)) = S (list_sum (map snd table)).
Proof.
  induction table as [|[k n] table IH]; simpl; [reflexivity|].
  destruct (cell_eqb k c); simpl; [reflexivity|]. rewrite IH. lia.
Qed.

Lemma sum_tally (l : list cell) : list_sum (map snd (tally l)) = length l.
Proof.
  induction l as [|c l IH] using rev_ind; [reflexivity|].
  rewrite tally_snoc, sum_bump, IH, length_app. simpl. lia.
Qed.

Lemma sum_permutation (l1 l2 : list nat) :
  Permutation l1 l2 -> list_sum l1 = list_sum l2.
Proof. induction 1; simpl; lia. Qed.

Lemma sum_value_counts (s : Series) :
  list_sum (map snd (value_counts s)) = length (values (dropna s)).
Proof.
  unfold value_counts. rewrite <- sum_tally.
  apply sum_permutation, Permutation_map, sort_desc_perm.
Qed.

Lemma float_add_nonneg (x y : float) :
  float_nonneg x -> float_nonneg y -> float_nonneg (float_add x y).
Proof.
  destruct x as [|p|[]], y as [|q|[]]; simpl; try tauto; try discriminate.
  intros Hp Hq. rewrite <- (Qplus_0_r 0). now apply Qplus_le_compat.
Qed.

Lemma fold_add_nonneg (l : list float) (acc : float) :
  float_nonneg acc -> Forall float_nonneg l -> float_nonneg (fold_left float_add l acc).
Proof.
  revert acc; induction l as [|x l IH]; intros acc Hacc Hl; [exact Hacc|].
  simpl. apply IH; [|now inversion Hl].
  apply float_add_nonneg; [exact Hacc | now inversion Hl].
Qed.

Lemma float_sum_abs_nonneg (xs : list float) :
  float_nonneg (float_sum (map float_abs xs)).
Proof.
  unfold float_sum. apply fold_add_nonneg; [simpl; apply Qle_refl|].
  apply Forall_forall. intros x Hx. apply filter_In in Hx as [Hx Hnan].
  apply in_map_iff in Hx as (y & <- & _).
  destruct y as [|q|b]; simpl in *; [discriminate | apply Qabs_nonneg | reflexivity].
Qed.

Lemma in_awares (t o : Z) (l : list cell) : In (t, o) (awares l) <-> In (Aware t o) l.
Proof.
  unfold awares. rewrite in_flat_map. split.
  - intros (c & Hc & Ht). destruct c; simpl in Ht; try contradiction.
    destruct Ht as [Ht|[]]. injection Ht as -> ->. exact Hc.
  - intros H. exists (Aware t o). split; [exact H | now left].
Qed.

Lemma fold_pick_in {A} (pick : A -> A -> A) (l : list A) (a : A) :
  (forall x y, pick x y = x \/ pick x y = y) -> In (fold_left pick l a) (a :: l).
Proof.
  intros Hpick. revert a; induction l as [|b l IH]; intros a; [now left|].
  cbn [fold_left]. destruct (IH (pick a b)) as [H|H]; [|right; now right].
  rewrite <- H. destruct (Hpick a b) as [-> | ->]; [now left | right; now left].
Qed.

Lemma fold_pick_fst (pickZ : Z -> Z -> Z) (l : list (Z * Z)) (a : Z * Z) :
  (forall x y, pickZ x y = x \/ pickZ x y = y) ->
  fst (fold_left (fun a b => if (pickZ (fst a) (fst b) =? fst a)%Z then a else b) l a) =
  fold_left pickZ (map fst l) (fst a).
Proof.
  intros Hpick. revert a; induction l as [|b l IH]; intros a; [reflexivity|].
  cbn [fold_left map]. rewrite IH. f_equal.
  destruct (Z.eqb_spec (pickZ (fst a) (fst b)) (fst a)) as [E|E]; [now rewrite E|].
  destruct (Hpick (fst a) (fst b)) as [H|H]; congruence.
Qed.

(** The earliest and the latest of the aware timestamps of a column
    that share one offset fall on dates in that order. *)
Lemma aware_range_ordered (l : list cell) (a : Z * Z) (rest : list (Z * Z)) :
  awares l = a :: rest ->
  (forall t o t' o', In (Aware t o) l -> In (Aware t' o') l -> o = o') ->
  let lo := fold_left (fun a b => if (Z.min (fst a) (fst b) =? fst a)%Z then a else b)
                      rest a in
  let hi := fold_left (fun a b => if (Z.max (fst a) (fst b) =? fst a)%Z then a else b)
                      rest a in
  ((fst lo + snd lo) / ns_per_day <= (fst hi + snd hi) / ns_per_day)%Z.
Proof.
  intros Ea Hoff lo hi.
  assert (Hin : forall m, In m (a :: rest) -> In (Aware (fst m) (snd m)) l).
  { intros [t o] Hm. rewrite <- Ea in Hm. now apply in_awares. }
  assert (Hlo : In lo (a :: rest)).
  { apply fold_pick_in. intros x y. destruct (_ =? _)%Z; [now left | now right]. }
  assert (Hhi : In hi (a :: rest)).
  { apply fold_pick_in. intros x y. destruct (_ =? _)%Z; [now left | now right]. }
  rewrite (Hoff _ _ _ _ (Hin lo Hlo) (Hin hi Hhi)).
  apply Z.div_le_mono; [reflexivity|].
  subst lo hi. rewrite (fold_pick_fst Z.min), (fold_pick_fst Z.max) by (intros; lia).
  pose proof (fold_min_le_start (map fst rest) (fst a)).
  pose proof (fold_max_ge_start (map fst rest) (fst a)). lia.
Qed.

Lemma fold_add_total (f : cell -> Z) (l : list cell) (acc : Z) :
  fold_left Z.add (map f l) acc = (acc + fold_right (fun c r => f c + r) 0 l)%Z.
Proof.
  revert acc; induction l as [|c l IH]; intros acc; simpl; [lia|].
  rewrite IH. lia.
Qed.

Lemma abs_total_nonneg (l : list cell) : (0 <= abs_total l)%Z.
Proof. induction l as [|c l IH]; simpl; lia. Qed.

Section Invariants.

Variable parse_float : string -> float.

(** The volume of a column of integers whose absolute values can be
    taken and summed within [int64]. *)
Lemma abs_sum_ints (s : Series) :
  integer_column s = true ->
  (forall z, In (Int z) (values s) -> (int64_min < z <= int64_max)%Z) ->
  (abs_total (values s) <= int64_max)%Z ->
  abs_sum (to_numeric parse_float s) = Fin (inject_Z (abs_total (values s))).
Proof.
  intros Hi Hrange Hsum. rewrite (to_numeric_ints parse_float s Hi).
  cbn [abs_sum]. do 2 f_equal.
  assert (Habs : map int_abs (map whole_value (values s)) =
                 map (fun c => Z.abs (whole_value c)) (values s)).
  { rewrite map_map. apply map_ext_in. intros c Hc.
    destruct c as [ | | | | |z|b| ]; try reflexivity.
    - apply int_abs_in_range. now apply Hrange.
    - now destruct b. }
  rewrite Habs, fold_add_total. cbn [Z.add].
  apply wrap64_in_range. pose proof (abs_total_nonneg (values s)).
  unfold abs_total in *. unfold int64_min. lia.
Qed.

(** What the summary of a frame always satisfies, on a frame whose
    columns have one entry per row.  The number of transactions is the
    number of rows; the number of unique symbols does not exceed it; the
    counts of the transaction kinds add up to the number of rows whose
    kind is not missing, so to no more than the number of rows.  The total
    volume is zero without an Amount column.  With an Amount column as
    [read_csv] builds one, it is never negative and never NaN when the
    amounts are not a column of integers, and for a column of integers it
    is the sum of their absolute values as long as none is the smallest
    [int64] and the sum fits [int64]; for that smallest integer alone the
    volume is the integer itself, a negative number.  The first date of
    the range is not after the second when the timestamps share one
    offset from UTC, in particular when they have no timezone. *)
Theorem summary_invariants (d : DataFrame) (stats : Stats) :
  well_formed d ->
  summary_stats parse_float d = Ok stats ->
  total_transactions stats = nrows d /\
  unique_symbols stats <= total_transactions stats /\
  list_sum (map snd (transaction_types stats)) =
    column_or d "Transaction Code" (fun s => length (values s) - missing_rows s) 0 /\
  list_sum (map snd (transaction_types stats)) <= total_transactions stats /\
  (lookup "Amount" (columns d) = None -> total_volume stats = Fin 0) /\
  (forall amount, lookup "Amount" (columns d) = Some amount ->
     ordinary_column amount ->
     (integer_column amount = false -> float_nonneg (total_volume stats)) /\
     (integer_column amount = true ->
      ~ In (Int int64_min) (values amount) ->
      (abs_total (values amount) <= int64_max)%Z ->
      total_volume stats = Fin (inject_Z (abs_total (values amount))))) /\
  (columns d = [("Amount", mkSeries Int64 [Int int64_min])] ->
   total_volume stats = Fin (inject_Z int64_min)) /\
  (forall s, lookup "Date/Time" (columns d) = Some s ->
     (forall t o t' o', In (Aware t o) (values s) -> In (Aware t' o') (values s) -> o = o') ->
     forall lo hi, date_range stats = Some (Date lo, Date hi) -> (lo <= hi)%Z).
Proof.
  intros Hwf Hstats. rewrite summary_stats_eq in Hstats.
  apply bindR_ok in Hstats as (range & Hrange & Hstats). injection Hstats as <-.
  cbn [total_transactions unique_symbols transaction_types total_volume date_range].
  unfold column_or, len.
  assert (Hdrop : forall s, length (values (dropna s)) = length (values s) - missing_rows s).
  { intros s. unfold dropna, missing_rows. cbn [values].
    assert (H : length (filter (fun c => negb (isna c)) (values s)) +
                length (filter isna (values s)) = length (values s)).
    { induction (values s) as [|c l IH]; [reflexivity|].
      simpl. destruct (isna c); simpl; lia. }
    lia. }
  split; [reflexivity|]. split; [|split; [|split; [|split; [|split; [|split]]]]].
  - destruct (lookup "Symbol" (columns d)) as [s|] eqn:E; [|lia].
    apply lookup_in, Hwf in E. rewrite <- E. unfold nunique, unique.
    pose proof (length_unique_acc [] (values (dropna s))).
    rewrite Hdrop in *. lia.
  - destruct (lookup "Transaction Code" (columns d)) as [s|]; [|reflexivity].
    now rewrite sum_value_counts, Hdrop.
  - destruct (lookup "Transaction Code" (columns d)) as [s|] eqn:E; [|simpl; lia].
    apply lookup_in, Hwf in E. rewrite sum_value_counts, Hdrop. lia.
  - now intros ->.
  - intros amount -> Hord. split.
    + intros Hi. rewrite (to_numeric_floats parse_float amount Hi).
      apply float_sum_abs_nonneg.
    + intros Hi Hmin. apply abs_sum_ints; [exact Hi|].
      intros z Hz. specialize (Hord _ Hz). unfold integer_column in Hi.
      assert (z <> int64_min) by (intros ->; now apply Hmin).
      destruct (dtype amount); try discriminate; try contradiction; lia.
  - intros ->. reflexivity.
  - intros s Hs Hoff lo hi ->. unfold summary_date_range in Hrange. rewrite Hs in Hrange.
    unfold series_min, series_max, series_extremum in Hrange. cbv zeta in Hrange.
    destruct (dtype s).
    + destruct (numbers (values s)); discriminate.
    + destruct (texts (values s)), (awares (values s)) as [|a rest] eqn:Ea;
        try discriminate; destruct (any_na (values s)); try discriminate.
      cbn [bindR date] in Hrange. injection Hrange as <- <-.
      now apply (aware_range_ordered (values s)).
    + destruct (stamps (values s)) as [|t ts]; [discriminate|].
      cbn [bindR date] in Hrange. injection Hrange as <- <-.
      apply Z.div_le_mono; [reflexivity|].
      pose proof (fold_min_le_start ts t). pose proof (fold_max_ge_start ts t). lia.
    + destruct (ints (values s)); discriminate.
    + destruct (bools (values s)); discriminate.
    + destruct (awares (values s)) as [|a rest] eqn:Ea; [discriminate|].
      cbn [bindR date] in Hrange. injection Hrange as <- <-.
      now apply (aware_range_ordered (values s)).
Qed.

End Invariants.

End StatsFacts.

(** ** The setup script *)

Module SetupFacts.

Import PyStr PyStrFacts Validator Spec FormatFacts DetectionFacts Setup.

Lemma setup_tokens_strip (line : string) :
  any_header_in Setup.new_format_headers (strip line) =
    any_header_in Setup.new_format_headers line /\
  any_header_in Setup.legacy_format_headers (strip line) =
    any_header_in Setup.legacy_format_headers line.
Proof. split; apply any_header_in_strip; reflexivity. Qed.

(** The format check of the setup script against the detection of the
    validator, on a file that exists and whose first line both read.
    The script accepts the file exactly when the line holds Date, Type,
    Action, Symbol, Transaction Code or Transaction Subcode.  Whatever
    the script accepts the validator accepts, and what the script calls
    New the validator calls New.  A file the script rejects is still
    accepted by the validator exactly when its line holds Value or
    Amount, the two tokens the script does not know. *)
Theorem setup_check_and_validator
        (w : Setup.World) (vw : Validator.World) (path line : string) :
  path_exists w path = true ->
  Setup.readline w path = Ok line ->
  Validator.readline vw path = Ok line ->
  let accepted := fst (validate_csv_format w path) in
  let detected := format_type (snd (validate_file_format vw (init path))) in
  (accepted = true <->
     Substring "Date" line \/ Substring "Type" line \/ Substring "Action" line \/
     Substring "Symbol" line \/ Substring "Transaction Code" line \/
     Substring "Transaction Subcode" line) /\
  (accepted = true -> detected <> None) /\
  (In NewDetected (snd (validate_csv_format w path)) -> detected = Some New) /\
  (accepted = false ->
     (detected <> None <-> Substring "Value" line \/ Substring "Amount" line)).
Proof.
  intros Hex Hline Hvline. cbv zeta.
  assert (Hdet : format_type (snd (validate_file_format vw (init path))) =
                 detect (strip line)).
  { unfold validate_file_format. cbn [csv_file init record_call].
    rewrite Hvline. destruct (detect (strip line)); reflexivity. }
  rewrite Hdet, detect_strip. unfold validate_csv_format. rewrite Hex, Hline.
  cbn [negb]. destruct (setup_tokens_strip line) as [-> ->].
  unfold any_header_in.
  cbn [existsb Setup.new_format_headers Setup.legacy_format_headers
         Validator.new_format_headers Validator.legacy_format_headers].
  rewrite <- !contains_spec.
  assert (Hs : contains "Sub Type" line = true -> contains "Type" line = true)
    by (apply contains_trans; reflexivity).
  assert (Hd : contains "Date/Time" line = true -> contains "Date" line = true)
    by (apply contains_trans; reflexivity).
  destruct (contains "Date" line);
    [cbn; intuition (congruence || discriminate)|].
  destruct (contains "Date/Time" line); [specialize (Hd eq_refl); discriminate|].
  destruct (contains "Type" line);
    [cbn; intuition (congruence || discriminate)|].
  destruct (contains "Sub Type" line); [specialize (Hs eq_refl); discriminate|].
  destruct (contains "Action" line);
    [cbn; intuition (congruence || discriminate)|].
  destruct (contains "Symbol" line);
    [cbn; intuition (congruence || discriminate)|].
  destruct (contains "Transaction Code" line), (contains "Transaction Subcode" line),
    (contains "Value" line), (contains "Amount" line);
    cbn; intuition (congruence || discriminate).
Qed.

Lemma filter_first {A} (f : A -> bool) (l : list A) (x : A) (rest : list A) :
  filter f l = x :: rest ->
  exists before after,
    l = before ++ x :: after /\ forallb (fun y => negb (f y)) before = true /\
    f x = true.
Proof.
  induction l as [|y l IH]; simpl; [discriminate|].
  destruct (f y) eqn:E.
  - intros H. injection H as -> _. now exists [], l.
  - intros H. destruct (IH H) as (before & after & -> & Hb & Hx).
    exists (y :: before), after. simpl. now rewrite E.
Qed.

Lemma filter_skip {A} (f : A -> bool) (before after : list A) :
  forallb (fun y => negb (f y)) before = true ->
  filter f (before ++ after) = filter f after.
Proof.
  induction before as [|y before IH]; simpl; [reflexivity|].
  intros H. apply andb_true_iff in H as [Hy Hb]. apply negb_true_iff in Hy.
  rewrite Hy. now apply IH.
Qed.

(** The file the test calculation runs on.  It is the sample file, or
    the first file of the listing whose name is not set aside, and then
    that file passed the format check.  Only that first file is ever
    checked: when it fails, the sample is created and used even if a
    later file of the listing would pass. *)
Theorem test_file_choice (w : World) :
  (forall f, fst (choose_test_file w) = Ok f ->
     f = sample_file \/
     exists before after,
       glob_csv w = before ++ f :: after /\
       forallb (fun name => negb (kept name)) before = true /\
       kept f = true /\ fst (validate_csv_format w f) = true) /\
  (forall before first after,
     glob_csv w = before ++ first :: after ->
     forallb (fun name => negb (kept name)) before = true ->
     kept first = true ->
     fst (choose_test_file w) =
     if fst (validate_csv_format w first) then Ok first
     else fst (create_sample_data w)) /\
  (forallb (fun name => negb (kept name)) (glob_csv w) = true ->
   fst (choose_test_file w) = fst (create_sample_data w)).
Proof.
  assert (Hsample : forall out f, create_sample_data w = (Ok f, out) -> f = sample_file).
  { unfold create_sample_data. intros out f.
    destruct (write_file w sample_file sample_data); congruence. }
  split; [|split].
  - intros f. unfold choose_test_file.
    destruct (filter kept (glob_csv w)) as [|first rest] eqn:E.
    + destruct (create_sample_data w) as [created out] eqn:Ec. cbn [fst].
      intros ->. left. now apply (Hsample out).
    + destruct (validate_csv_format w first) as [valid out] eqn:Ev.
      destruct valid.
      * cbn [fst]. intros H. injection H as <-. right.
        destruct (filter_first _ _ _ _ E) as (before & after & Hg & Hb & Hk).
        exists before, after. rewrite Ev. now repeat split.
      * destruct (create_sample_data w) as [created out'] eqn:Ec. cbn [fst].
        intros ->. left. now apply (Hsample out').
  - intros before first after Hg Hb Hk. unfold choose_test_file.
    rewrite Hg, (filter_skip kept before _ Hb). cbn [filter]. rewrite Hk.
    destruct (validate_csv_format w first) as [[|] out]; cbn [fst]; [reflexivity|].
    now destruct (create_sample_data w).
  - intros Hb. unfold choose_test_file.
    rewrite <- (app_nil_r (glob_csv w)), (filter_skip kept _ [] Hb). cbn [filter].
    now destruct (create_sample_data w).
Qed.

(** The value [main] returns.  It returns 0 exactly when the
    dependencies are there or were installed, a test file was chosen,
    the calculation on it ended with status 0, and the output file exists
    and can be read; every other run that returns gives 1.  [main]
    raises only when the installation fails or the sample cannot be
    written; a failure of the calculation is caught. *)
Theorem setup_exit_status (w : World) :
  (fst (main w) = Returns 0 <->
   fst (check_dependencies w) = None /\
   exists f stderr lines,
     fst (choose_test_file w) = Ok f /\
     subprocess_run w (test_args f) = Ok (0%Z, stderr) /\
     output_exists w = true /\ read_output w = Ok lines) /\
  (forall status, fst (main w) = Returns status -> status = 0%Z \/ status = 1%Z) /\
  (forall e, fst (main w) = Raises e ->
     fst (check_dependencies w) = Some e \/
     exists x, e = Propagated x /\
               write_file w sample_file sample_data = Raise x).
Proof.
  unfold main.
  destruct (check_dependencies w) as [[e1|] out1]; cbn [fst].
  - split; [|split].
    + split; [discriminate | intros [H _]; discriminate].
    + discriminate.
    + intros e H. injection H as <-. now left.
  - destruct (choose_test_file w) as [[f|e2] out2] eqn:Ec; cbn [fst].
    + assert (Hrun : fst (run_test_calculation w f) = true <->
                     exists stderr lines,
                       subprocess_run w (test_args f) = Ok (0%Z, stderr) /\
                       output_exists w = true /\ read_output w = Ok lines).
      { unfold run_test_calculation.
        destruct (subprocess_run w (test_args f)) as [[code stderr]|e]; cbn [fst].
        - destruct (Z.eqb_spec code 0) as [->|Hne]; cbn [negb fst].
          + destruct (output_exists w); cbn [fst].
            * destruct (read_output w) as [lines|e]; cbn [fst].
              -- split; [intros _; now exists stderr, lines | reflexivity].
              -- split; [discriminate | intros (? & ? & _ & _ & H); discriminate].
            * split; [discriminate | intros (? & ? & _ & H & _); discriminate].
          + split; [discriminate|]. intros (? & ? & H & _). congruence.
        - split; [discriminate | intros (? & ? & H & _); discriminate]. }
      destruct (run_test_calculation w f) as [[|] out3]; cbn [fst] in *.
      * split; [|split].
        -- split; [|reflexivity]. intros _. split; [reflexivity|].
           destruct (proj1 Hrun eq_refl) as (stderr & lines & H).
           now exists f, stderr, lines.
        -- intros status H. injection H as <-. now left.
        -- discriminate.
      * split; [|split].
        -- split; [discriminate|]. intros [_ (f' & stderr & lines & Hf & H)].
           injection Hf as <-. assert (false = true) by (apply Hrun; eauto).
           discriminate.
        -- intros status H. injection H as <-. now right.
        -- discriminate.
    + split; [|split].
      * split; [discriminate | intros [_ (f & ? & ? & H & _)]; discriminate].
      * discriminate.
      * intros e H. injection H as <-. right. exists e2. split; [reflexivity|].
        revert Ec. unfold choose_test_file, create_sample_data.
        destruct (filter kept (glob_csv w)) as [|first rest].
        -- destruct (write_file w sample_file sample_data); cbn; congruence.
        -- destruct (validate_csv_format w first) as [[|] out]; [discriminate|].
           destruct (write_file w sample_file sample_data); cbn; congruence.
Qed.

End SetupFacts.

(** ** When the checks return *)

Module ReturnFacts.

Import Pandas Validator Spec CheckFacts QualityFacts ConsistencyFacts SummaryFacts.
Import RunFacts ReportFacts.





Section Returns.

Variable tokenize : string -> Result RawTable.
Variable parse_float : string -> float.
Variable parse_datetime : list string -> option (list (Z * option Z)).











End Returns.

End ReturnFacts.

(** ** Further theorems at sample inputs *)

Module Samples.

Import PyStr PyStrFacts Pandas Validator Spec Examples.
Import DetectionFacts SymbolFacts RuleFacts ReportFacts StatsFacts SetupFacts ReturnFacts.

Lemma legacy_export_header (text : string) (t : RawTable) :
  read_file (world_holding legacy_export) "in.csv" = Ok text ->
  tokenize text = Ok t ->
  In "Date/Time" (header t) ->
  Substring "Date/Time" (first_line legacy_export).
Proof.
  intros Hr Ht Hin. injection Hr as <-. vm_compute in Ht. injection Ht as <-.
  simpl in Hin. destruct Hin as [H|[H|[]]]; discriminate.
Qed.

(** A file whose first line is [Transaction Code,Amount] is detected
    as Legacy and is refused for its missing Date/Time column. *)
Lemma legacy_file_never_loads_witness :
  let out := run_full_validation tokenize parse_decimal parse_iso_date
               (world_holding legacy_export) 0%Z (init "in.csv") in
  fst out = Ok false /\ errors (snd out) = [missing_date_column] /\
  calls (snd out) = [CallReadline "in.csv"; CallReadFile "in.csv"].
Proof.
  intros out.
  destruct (legacy_file_never_loads tokenize parse_decimal parse_iso_date
              (world_holding legacy_export) 0%Z "in.csv" (first_line legacy_export)
              eq_refl eq_refl legacy_export_header)
    as (e & H1 & H2 & _ & _ & H5 & H6).
  split; [exact H1|]. split; [|exact H5].
  fold out in H2. rewrite H2. f_equal.
  exact (H6 legacy_export
            (mkRawTable ["Transaction Code"; "Amount"] [["Trade"; "5"]]) eq_refl eq_refl).
Defined.

(** The symbol rule at five symbols of which one, in lower case, occurs
    twice: it is listed once; and at a column that holds a boolean and a
    missing entry: the rule raises. *)
Lemma unusual_symbols_witness :
  (exists l,
     fst (check_symbols symbols_frame) = [UnusualSymbols l] /\
     1 <= length l <= 5 /\ distinct_cells l /\ In (Text "aapl") l) /\
  check_symbols truth_symbols_frame =
    ([], Raise (Exception AttributeError
                  "Can only use .str accessor with string values!")).
Proof.
  split; [|apply (unusual_symbols_rule truth_symbols_frame
                    (mkSeries Object [Boolean true; NA]) eq_refl);
           right; apply QualityFacts.no_strings_spec; reflexivity].
  destruct (unusual_symbols_rule symbols_frame
              (mkSeries Object [Text "AAPL"; Text "aapl"; NA; Text "BTC/USD"; Text "aapl"])
              eq_refl) as [_ H].
  assert (Hstr : ~ without_strings [Text "AAPL"; Text "aapl"; NA; Text "BTC/USD";
                                    Text "aapl"])
    by (apply QualityFacts.no_strings_false; reflexivity).
  destruct (H eq_refl Hstr) as (_ & _ & H3).
  destruct H3 as (l & Hl & Hlen & _ & Hdis & Hall).
  - exists (Text "aapl"). split; [right; now left | reflexivity].
  - exists l. split; [exact Hl|]. split; [exact Hlen|]. split; [exact Hdis|].
    assert (Hone : l = [Text "aapl"]).
    { vm_compute in Hl. now injection Hl as <-. }
    rewrite Hone. now left.
Defined.


(** The rule on large amounts at one million, minus one million and
    one, and a missing amount, and at the same integers with the smallest
    [int64] : one row is counted each time. *)
Lemma large_amount_rule_witness :
  In (LargeAmounts 1) (fst (check_amounts parse_decimal large_frame)) /\
  In (LargeAmounts 1) (fst (check_amounts parse_decimal int_amounts_frame)).
Proof.
  split.
  - destruct (large_amount_rule parse_decimal large_frame
                (mkSeries Float64 [Num (inject_Z 1000000); Num (inject_Z (-1000001)); NA])
                eq_refl) as (_ & H & _).
    + intros c [<-|[<-|[<-|[]]]]; exact I.
    + apply H. split; [reflexivity | apply Nat.lt_0_1].
  - destruct (large_amount_rule parse_decimal int_amounts_frame
                (mkSeries Int64 [Int 1000000; Int (-1000001); Int int64_min])
                eq_refl) as (_ & H & _).
    + intros c [<-|[<-|[<-|[]]]]; split; discriminate.
    + apply H. split; [reflexivity | apply Nat.lt_0_1].
Defined.

(** The report of the run on a table with one trade in 2030. *)
Lemma successful_run_report_witness :
  let st := snd (run_full_validation tokenize parse_decimal parse_iso_date
                   (world_with trade_in_2030) 0%Z (init "in.csv")) in
  exists f d stats,
    detected_format (world_with trade_in_2030) "in.csv" = Some f /\
    loaded_frame tokenize parse_decimal parse_iso_date
                 (world_with trade_in_2030) "in.csv" = Some d /\
    summary_stats parse_decimal d = Ok stats /\
    df st = Some d /\ errors st = [] /\
    calls st = [CallReadline "in.csv"; source_call f "in.csv"] /\
    warnings st = fst (data_quality_checks parse_decimal 0%Z d) ++
                  fst (consistency_checks parse_decimal d) /\
    stdout st = [PrintValidating "in.csv"; PrintRule; PrintFormat f; PrintLoaded (len d)] ++
                summary_lines stats ++ closing_lines (warnings st).
Proof.
  exact (successful_run_report tokenize parse_decimal parse_iso_date
           (world_with trade_in_2030) 0%Z "in.csv" eq_refl).
Defined.

Lemma kinds_frame_well_formed : well_formed kinds_frame.
Proof. intros name s [H|[]]. now injection H as _ <-. Qed.

Lemma trade_frame_well_formed : well_formed trade_frame.
Proof. intros name s [H|[H|[H|[]]]]; now injection H as _ <-. Qed.

(** The invariants of the summary at the kinds A, B, B, and the volume
    of the table with one trade of amount 5. *)
Lemma summary_invariants_witness :
  let stats := mkStats 3 None 0 [(Text "B", 2); (Text "A", 1)] (Fin 0) in
  (unique_symbols stats <= total_transactions stats /\
   list_sum (map snd (transaction_types stats)) <= total_transactions stats /\
   total_volume stats = Fin 0) /\
  exists traded,
    summary_stats parse_decimal trade_frame = Ok traded /\
    total_volume traded = Fin (inject_Z 5).
Proof.
  intros stats. split.
  - destruct (summary_invariants parse_decimal kinds_frame stats
                kinds_frame_well_formed eq_refl) as (_ & H1 & _ & H2 & H3 & _).
    split; [exact H1 | split; [exact H2 | exact (H3 eq_refl)]].
  - destruct (summary_stats parse_decimal trade_frame) as [traded|e] eqn:Hs;
      [|vm_compute in Hs; discriminate].
    exists traded. split; [reflexivity|].
    destruct (summary_invariants parse_decimal trade_frame traded
                trade_frame_well_formed Hs) as (_ & _ & _ & _ & _ & H & _ & _).
    destruct (H (mkSeries Int64 [Int 5]) eq_refl) as [_ Hv].
    + intros c [<-|[]]. split; discriminate.
    + apply Hv; [reflexivity | | discriminate].
      intros [E|[]]. discriminate.
Defined.

(** The two format checks at a line that holds Value only: the script
    rejects it and the validator accepts it. *)
Lemma setup_check_and_validator_witness :
  fst (Setup.validate_csv_format (setup_world "Value,Note") "trades.csv") = false /\
  format_type (snd (validate_file_format (world_reading "Value,Note")
                                         (init "trades.csv"))) <> None.
Proof.
  destruct (setup_check_and_validator (setup_world "Value,Note")
              (world_reading "Value,Note") "trades.csv" "Value,Note"
              eq_refl eq_refl eq_refl) as (_ & _ & _ & H).
  split; [reflexivity|]. apply (H eq_refl). left. now exists EmptyString, ",Note".
Defined.



End Samples.
